(** * ResaleHub backend: the marketplace publishing engine

    A shallow embedding of [app/routers/marketplaces.py],
    [app/services/ebay_client.py] and [app/services/poshmark_client.py],
    with the properties of the publishing engine proved about it.

    Conventions of the embedding.
    - A Python [str] is a Rocq [string]; each [ascii] stands for one code
      point in the range U+0000..U+00FF.
    - A [datetime] is an integer number of microseconds, a [Numeric(10,2)]
      price an integer number of cents.
    - A JSON document (and every Python value decoded from one) is a [json].
    - A request handler is a state-and-exception computation over the
      SQLAlchemy session, the database and the outside world (HTTP
      endpoints, clock, browser, file system).  Every external effect goes
      through one of the oracle functions of the section [Engine] and is
      recorded in a trace. *)

From Stdlib Require Import ZArith String Ascii List Lia Bool.
From stdpp Require Import base tactics option list strings pretty.

Open Scope string_scope.
Open Scope list_scope.
Open Scope Z_scope.

(* ================================================================== *)
(** * Part I: definitions                                              *)
(* ================================================================== *)

(** ** Python strings *)

Module PyStr.

Definition in_range (lo hi c : ascii) : bool :=
  (N_of_ascii lo <=? N_of_ascii c)%N && (N_of_ascii c <=? N_of_ascii hi)%N.

Fixpoint map (f : ascii → ascii) (s : string) : string :=
  match s with
  | EmptyString => EmptyString
  | String c s' => String (f c) (map f s')
  end.

(** [str.lower()] on U+0000..U+00FF: A-Z, and the Latin-1 capitals
    U+00C0..U+00DE except the multiplication sign U+00D7. *)
Definition is_upper (c : ascii) : bool :=
  in_range "A" "Z" c
  || (in_range "192" "222" c && negb (Ascii.eqb c "215")).

Definition lower_char (c : ascii) : ascii :=
  if is_upper c then ascii_of_N (N_of_ascii c + 32) else c.

Definition lower (s : string) : string := map lower_char s.

(** [s.startswith(p)] *)
Definition startswith (s p : string) : bool := String.prefix p s.

(** [sub in s] *)
Fixpoint contains (s sub : string) : bool :=
  String.prefix sub s
  || match s with
     | EmptyString => false
     | String _ s' => contains s' sub
     end.

Definition is_empty (s : string) : bool :=
  match s with EmptyString => true | _ => false end.

(** [s.lstrip(chars)], [s.rstrip(chars)] and [s.strip(chars)], the set
    of characters given as a predicate. *)
Fixpoint lstrip (p : ascii → bool) (s : string) : string :=
  match s with
  | EmptyString => EmptyString
  | String c s' => if p c then lstrip p s' else s
  end.

Fixpoint rstrip (p : ascii → bool) (s : string) : string :=
  match s with
  | EmptyString => EmptyString
  | String c s' =>
      let r := rstrip p s' in
      if p c && is_empty r then EmptyString else String c r
  end.

Definition strip (p : ascii → bool) (s : string) : string :=
  rstrip p (lstrip p s).

(** The white space of [str.strip()] without argument. *)
Definition is_space (c : ascii) : bool :=
  in_range "009" "013" c || in_range "028" "032" c
  || Ascii.eqb c "133" || Ascii.eqb c "160".

Definition strip_ws (s : string) : string := strip is_space s.

(** [s.rstrip('/')] and the like *)
Definition rstrip_char (c : ascii) (s : string) : string :=
  rstrip (Ascii.eqb c) s.

(** [s.split(sep)[-1]] for a one-character separator: what follows the
    last occurrence of [sep], the whole string when there is none. *)
Fixpoint last_segment_from (sep : ascii) (cur s : string) : string :=
  match s with
  | EmptyString => cur
  | String c s' =>
      if Ascii.eqb c sep then last_segment_from sep s' s'
      else last_segment_from sep cur s'
  end.

Definition last_segment (sep : ascii) (s : string) : string :=
  last_segment_from sep s s.

(** Python truthiness of a [str] and of an optional [str]. *)
Definition truthy (s : string) : bool := negb (is_empty s).

Definition truthy_opt (o : option string) : bool :=
  match o with Some s => truthy s | None => false end.

(** [x or d] *)
Definition or_else (o : option string) (d : string) : string :=
  match o with Some s => if truthy s then s else d | None => d end.

End PyStr.

(** ** The sku sanitizer ([_sanitize_sku]) *)

(** the class [[a-zA-Z0-9_/-]] *)
Definition sku_char (c : ascii) : bool :=
  PyStr.in_range "a" "z" c || PyStr.in_range "A" "Z" c
  || PyStr.in_range "0" "9" c
  || Ascii.eqb c "_" || Ascii.eqb c "/" || Ascii.eqb c "-".

(** [re.sub(r'[^a-zA-Z0-9_/-]', '-', s)] *)
Definition replace_invalid (s : string) : string :=
  PyStr.map (fun c => if sku_char c then c else "-"%char) s.

(** [re.sub(r'-+', '-', s)]: every maximal run of dashes becomes one. *)
Fixpoint collapse_dashes (s : string) : string :=
  match s with
  | EmptyString => EmptyString
  | String c s' =>
      if Ascii.eqb c "-" && PyStr.startswith s' "-"
      then collapse_dashes s'
      else String c (collapse_dashes s')
  end.

Definition _sanitize_sku (raw_sku : string) : string :=
  let sanitized := replace_invalid raw_sku in
  let sanitized := collapse_dashes sanitized in
  let sanitized :=
    PyStr.strip (Ascii.eqb "_") (PyStr.strip (Ascii.eqb "-") sanitized) in
  if PyStr.is_empty sanitized then "SKU" else sanitized.

(** ** Condition mapping (in [publish_to_ebay]) *)

Definition ebay_condition_of (condition : string) : string :=
  if PyStr.truthy condition then
    let c := PyStr.lower condition in
    if PyStr.contains c "new" then "NEW"
    else if PyStr.contains c "like" then "LIKE_NEW"
    else if PyStr.contains c "good" || PyStr.contains c "used" then "USED_GOOD"
    else if PyStr.contains c "parts" then "FOR_PARTS_OR_NOT_WORKING"
    else "NEW"
  else "NEW".

(** ** Image selection (in [publish_to_ebay] and
       [create_inventory_and_offer]) *)

(** the test of the two loops:
    [u.startswith("http") and "127.0.0.1" not in u and "localhost" not in u] *)
Definition publishable_url (u : string) : bool :=
  PyStr.startswith u "http"
  && negb (PyStr.contains u "127.0.0.1")
  && negb (PyStr.contains u "localhost").

(** [for u in urls: if test(u): image_urls.append(u)] *)
Definition append_publishable (image_urls urls : list string) : list string :=
  fold_left (fun acc u => if publishable_url u then acc ++ [u] else acc)
            urls image_urls.

(** [full_urls] are the urls built from the listing's image rows in
    [sort_order]; [raw_images] is the dynamic attribute
    [getattr(listing, "image_urls", [])], read only when no row survives.
    The result is what is sent as [imageUrls] (nothing is sent when it is
    empty). *)
Definition select_image_urls (full_urls raw_images : list string)
  : list string :=
  let image_urls := append_publishable [] full_urls in
  let image_urls :=
    match image_urls with
    | [] => append_publishable image_urls raw_images
    | _ => image_urls
    end in
  take 12 image_urls.

(** ** Values decoded from JSON, and the Python operations on them *)

#[warnings="-register-all"] Inductive json : Type :=
| JNull
| JBool (b : bool)
| JNum (n : Z)
| JStr (s : string)
| JArr (items : list json)
| JObj (fields : list (string * json)).

(** ** Exceptions *)

Inductive exn : Type :=
| HTTPException (status_code : Z) (detail : json)
| EbayAuthError (msg : string)
| PoshmarkAuthError (msg : string)
| PoshmarkPublishError (msg : string)
| PlaywrightTimeoutError (msg : string)
| PyError (kind msg : string).
    (* any other exception: TypeError, KeyError, an httpx transport error *)

Inductive Res (A : Type) : Type :=
| Ok (a : A)
| Raise (e : exn).
Arguments Ok {A} a.
Arguments Raise {A} e.

Definition is_ok {A} (r : Res A) : bool :=
  match r with Ok _ => true | Raise _ => false end.

#[global] Instance Res_ret : MRet Res := fun A a => Ok a.

#[global] Instance Res_bind : MBind Res := fun A B k r =>
  match r with
  | Ok a => k a
  | Raise e => Raise e
  end.

Module Py.

Fixpoint assoc {A} (k : string) (kvs : list (string * A)) : option A :=
  match kvs with
  | [] => None
  | (k', v) :: rest => if String.eqb k k' then Some v else assoc k rest
  end.

(** truth value of a decoded value *)
Definition truthy (v : json) : bool :=
  match v with
  | JNull => false
  | JBool b => b
  | JNum n => negb (n =? 0)
  | JStr s => PyStr.truthy s
  | JArr l => match l with [] => false | _ => true end
  | JObj l => match l with [] => false | _ => true end
  end.

(** [d.get(k, default)]; only a dict has [get] *)
Definition get (d : json) (k : string) (default : json) : Res json :=
  match d with
  | JObj kvs =>
      match assoc k kvs with Some v => Ok v | None => Ok default end
  | _ => Raise (PyError "AttributeError" "get")
  end.

(** [d[k]] for a string key *)
Definition item (d : json) (k : string) : Res json :=
  match d with
  | JObj kvs =>
      match assoc k kvs with
      | Some v => Ok v
      | None => Raise (PyError "KeyError" k)
      end
  | _ => Raise (PyError "TypeError" "subscript")
  end.

(** [l[0]] *)
Definition first (l : json) : Res json :=
  match l with
  | JArr (x :: _) => Ok x
  | JArr [] => Raise (PyError "IndexError" "list index out of range")
  | JStr (String c _) => Ok (JStr (String c EmptyString))
  | JStr EmptyString => Raise (PyError "IndexError" "string index out of range")
  | JObj _ => Raise (PyError "KeyError" "0")
  | _ => Raise (PyError "TypeError" "subscript")
  end.

Fixpoint chars (s : string) : list json :=
  match s with
  | EmptyString => []
  | String c s' => JStr (String c EmptyString) :: chars s'
  end.

(** the elements a [for] loop visits *)
Definition iter (v : json) : Res (list json) :=
  match v with
  | JArr l => Ok l
  | JObj kvs => Ok (List.map (fun kv => JStr (fst kv)) kvs)
  | JStr s => Ok (chars s)
  | _ => Raise (PyError "TypeError" "not iterable")
  end.

(** [v.lower()]; only a string has [lower] *)
Definition lower (v : json) : Res string :=
  match v with
  | JStr s => Ok (PyStr.lower s)
  | _ => Raise (PyError "AttributeError" "lower")
  end.

(** [v == s] for a string literal [s] *)
Definition eq_str (v : json) (s : string) : bool :=
  match v with JStr s' => String.eqb s' s | _ => false end.

(** [v or d] *)
Definition or_else (v d : json) : json := if truthy v then v else d.

End Py.

(** ** Rows of the four tables *)

Record User := mkUser { u_id : Z; u_email : string }.

Record Listing := mkListing {
  l_id : Z;
  l_owner_id : Z;
  l_title : string;
  l_description : option string;
  l_price : Z;                       (* cents *)
  l_sku : option string;
  l_condition : string
}.

Record ListingImage := mkListingImage {
  img_id : Z;
  img_listing_id : Z;
  img_file_path : string;
  img_sort_order : Z
}.

Record ListingMarketplace := mkLink {
  lm_id : Z;
  lm_listing_id : Z;
  lm_marketplace : string;
  lm_external_item_id : option string;
  lm_sku : option string;
  lm_offer_id : option string;
  lm_external_url : option string;
  lm_status : option string          (* [None] on a new object until set *)
}.

Record MarketplaceAccount := mkAccount {
  a_id : Z;
  a_user_id : Z;
  a_marketplace : string;
  a_username : option string;
  a_access_token : option string;
  a_refresh_token : option string;
  a_token_expires_at : option Z       (* microseconds *)
}.

Record Tables := mkTables {
  listings : list Listing;
  images : list ListingImage;
  links : list ListingMarketplace;
  accounts : list MarketplaceAccount
}.

Record Settings := mkSettings {
  media_url : string;
  ebay_client_id : string;
  ebay_client_secret : string;
  ebay_environment : string;
  ebay_fulfillment_policy_id : option string;
  ebay_payment_policy_id : option string;
  ebay_return_policy_id : option string
}.

(** ** The outside world *)

Record HttpRequest := mkRequest {
  rq_method : string;
  rq_url : string;
  rq_headers : list (string * string);
  rq_params : list (string * string);
  rq_data : list (string * string);   (* form fields *)
  rq_json : option json
}.

Record HttpResponse := mkResponse {
  status_code : Z;
  text : string;
  json_body : option json             (* [None]: [.json()] raises *)
}.

(** Browser and file-system effects, by the kind of result they give. *)
Inductive action : Type :=
| PlaywrightStart
| PlaywrightStop
| BrowserLaunch (headless : bool) (args : list string)
| BrowserClose
| NewContext (storage_state : option string)
| NewPage
| RouteBlockResources
| Goto (url wait_until : string) (timeout : Z)
| Fill (selector value : string)
| Click (selector : string)
| Screenshot (path : string)
| WaitForLoadState (state : string) (timeout : Z)
| SetInputFiles (selector : string) (files : list string)
| SaveStorageState (path : string)
| Sleep (seconds : Z)
| Unlink (path : string).

Inductive probe : Type :=
| WaitForSelector (selector : string) (timeout : option Z) (state : option string)
| QuerySelector (selector : string)
| PathExists (path : string).

Inductive reading : Type :=
| PageUrl
| PageTitle
| PageContent
| InnerText (selector : string)
| TempFile (suffix content : string).

Inductive event : Type :=
| EvHttp (r : HttpRequest)
| EvAction (a : action)
| EvProbe (p : probe)
| EvReading (r : reading)
| EvCommit
| EvRollback.

(** The oracle: how the outside world answers.  [http_send] is an HTTP
    exchange (it raises on a transport error), [clock] is
    [datetime.utcnow()], the other three are the browser and the file
    system. *)
Record Outside (W : Type) := mkOutside {
  http_send : HttpRequest → W → Res HttpResponse * W;
  clock : W → Z * W;
  do_action : action → W → Res unit * W;
  do_probe : probe → W → Res bool * W;
  do_reading : reading → W → Res string * W
}.
Arguments http_send {W} _ _ _.
Arguments clock {W} _ _.
Arguments do_action {W} _ _ _.
Arguments do_probe {W} _ _ _.
Arguments do_reading {W} _ _ _.

(** Library functions the handlers call and that are not part of this
    repository. *)
Record Builtins := mkBuiltins {
  py_str : json → string;              (* [str(v)] of a decoded value *)
  py_int_of_str : string → option Z;   (* [int(s)], [None]: ValueError *)
  b64encode : string → string;
  quote : string → string;             (* [urllib.parse.quote] *)
  splitext_ext : string → string       (* [os.path.splitext(p)[1]] *)
}.

(** ** The state of a request

    [stored] is the database.  [sess] is the session's view of the rows it
    has loaded: the stored rows with the attribute changes not yet
    flushed.  [added_links] and [added_accounts] are the objects given to
    [db.add] and not yet flushed; the session is created with
    [autoflush=False], so a query does not see them. *)
Record St (W : Type) := mkSt {
  stored : Tables;
  sess : Tables;
  added_links : list ListingMarketplace;
  added_accounts : list MarketplaceAccount;
  world : W;
  trace : list event
}.
Arguments mkSt {W} _ _ _ _ _ _.
Arguments stored {W} _.
Arguments sess {W} _.
Arguments added_links {W} _.
Arguments added_accounts {W} _.
Arguments world {W} _.
Arguments trace {W} _.

Definition set_links (t : Tables) (l : list ListingMarketplace) : Tables :=
  mkTables (listings t) (images t) l (accounts t).
Definition set_listings (t : Tables) (l : list Listing) : Tables :=
  mkTables l (images t) (links t) (accounts t).
Definition set_accounts (t : Tables) (l : list MarketplaceAccount) : Tables :=
  mkTables (listings t) (images t) (links t) l.

(** A reference to a link object held by a handler: a row of the table, or
    the [idx]-th object added in this session. *)
Inductive link_ref : Type :=
| Persistent (id : Z)
| Pending (idx : nat).

(** Primary keys are handed out in increasing order. *)
Definition next_id (ids : list Z) : Z := 1 + fold_right Z.max 0 ids.

Fixpoint insert_links (table added : list ListingMarketplace)
  : list ListingMarketplace :=
  match added with
  | [] => table
  | r :: rest =>
      let r' := mkLink (next_id (List.map lm_id table)) (lm_listing_id r)
                  (lm_marketplace r) (lm_external_item_id r) (lm_sku r)
                  (lm_offer_id r) (lm_external_url r)
                  (* the column default *)
                  (match lm_status r with
                   | None => Some "published"
                   | st => st
                   end) in
      insert_links (table ++ [r']) rest
  end.

Fixpoint insert_accounts (table added : list MarketplaceAccount)
  : list MarketplaceAccount :=
  match added with
  | [] => table
  | r :: rest =>
      let r' := mkAccount (next_id (List.map a_id table)) (a_user_id r)
                  (a_marketplace r) (a_username r) (a_access_token r)
                  (a_refresh_token r) (a_token_expires_at r) in
      insert_accounts (table ++ [r']) rest
  end.

(** Stable insertion sort, for [order_by(sort_order.asc())]. *)
Fixpoint insert_by_order (x : ListingImage) (l : list ListingImage)
  : list ListingImage :=
  match l with
  | [] => [x]
  | y :: l' =>
      if img_sort_order x <? img_sort_order y then x :: l
      else y :: insert_by_order x l'
  end.

Definition sort_by_order (l : list ListingImage) : list ListingImage :=
  fold_right insert_by_order [] l.

Definition minutes (n : Z) : Z := n * 60 * 1000000.
Definition seconds (n : Z) : Z := n * 1000000.

(** The text a value takes in a [Text]/[String] column and in an
    f-string: [None] is NULL, a string is itself. *)
Definition to_text (B : Builtins) (v : json) : option string :=
  match v with
  | JNull => None
  | JStr s => Some s
  | _ => Some (py_str B v)
  end.

Definition fmt (B : Builtins) (v : json) : string :=
  match v with
  | JStr s => s
  | _ => py_str B v
  end.

Definition opt_json (o : option string) : json :=
  match o with Some s => JStr s | None => JNull end.

(** [f"{price:.2f}"] of a price in cents *)
Definition two_digits (n : Z) : string :=
  if n <? 10 then "0" +:+ pretty n else pretty n.

Definition fmt_2f (cents : Z) : string :=
  (if cents <? 0 then "-" else "")
  +:+ pretty (Z.abs cents / 100) +:+ "." +:+ two_digits (Z.abs cents mod 100).

(** [str(int(float(price)))] of a price in cents: [int] truncates toward
    zero. *)
Definition int_of_price (cents : Z) : Z := Z.quot cents 100.

(** ** The monad of handlers: state and exceptions *)

Definition M (W : Type) (A : Type) : Type := St W → Res A * St W.

#[global] Instance M_ret {W} : MRet (M W) := fun A a s => (Ok a, s).

#[global] Instance M_bind {W} : MBind (M W) := fun A B k m s =>
  match m s with
  | (Ok a, s') => k a s'
  | (Raise e, s') => (Raise e, s')
  end.

Definition raise {W A} (e : exn) : M W A := fun s => (Raise e, s).

Definition lift {W A} (r : Res A) : M W A := fun s => (r, s).

(** [try: m except Exception as e: h e] *)
Definition try_except {W A} (m : M W A) (h : exn → M W A) : M W A := fun s =>
  match m s with
  | (Ok a, s') => (Ok a, s')
  | (Raise e, s') => h e s'
  end.

(** [try: m finally: f] *)
Definition try_finally {W A} (m : M W A) (f : M W unit) : M W A := fun s =>
  match m s with
  | (r, s') =>
      match f s' with
      | (Ok _, s'') => (r, s'')
      | (Raise e, s'') => (Raise e, s'')
      end
  end.

(** [try: m except: pass] *)
Definition ignore_errors {W} (m : M W unit) : M W unit :=
  try_except m (fun _ => mret tt).

(** [for x in l: body x] *)
Fixpoint for_each {W A} (l : list A) (body : A → M W unit) : M W unit :=
  match l with
  | [] => mret tt
  | x :: rest => body x;; for_each rest body
  end.

Definition get_state {W} : M W (St W) := fun s => (Ok s, s).

Definition log {W} (e : event) : M W unit := fun s =>
  (Ok tt, mkSt (stored s) (sess s) (added_links s) (added_accounts s)
            (world s) (trace s ++ [e])).

Definition with_world {W A} (f : W → A * W) : M W A := fun s =>
  let (a, w) := f (world s) in
  (Ok a, mkSt (stored s) (sess s) (added_links s) (added_accounts s)
           w (trace s)).

Definition set_sess {W} (t : Tables) : M W unit := fun s =>
  (Ok tt, mkSt (stored s) t (added_links s) (added_accounts s)
            (world s) (trace s)).

(** *** The session *)

Module Db.
Section Db.
Context {W : Type}.

Definition first_listing (p : Listing → bool) : M W (option Listing) :=
  s ← get_state; mret (List.find p (listings (sess s))).

Definition first_link (p : ListingMarketplace → bool)
  : M W (option ListingMarketplace) :=
  s ← get_state; mret (List.find p (links (sess s))).

Definition first_account (p : MarketplaceAccount → bool)
  : M W (option MarketplaceAccount) :=
  s ← get_state; mret (List.find p (accounts (sess s))).

Definition all_links (p : ListingMarketplace → bool)
  : M W (list ListingMarketplace) :=
  s ← get_state; mret (List.filter p (links (sess s))).

(** [query(ListingImage).filter(listing_id == lid)
      .order_by(sort_order.asc()).all()] *)
Definition images_of (lid : Z) : M W (list ListingImage) :=
  s ← get_state;
  mret (sort_by_order
          (List.filter (fun i => img_listing_id i =? lid) (images (sess s)))).

(** attribute assignment on a loaded row *)
Definition update_listing (id : Z) (f : Listing → Listing) : M W unit :=
  s ← get_state;
  set_sess (set_listings (sess s)
    (List.map (fun r => if l_id r =? id then f r else r) (listings (sess s)))).

Definition update_account (id : Z) (f : MarketplaceAccount → MarketplaceAccount)
  : M W unit :=
  s ← get_state;
  set_sess (set_accounts (sess s)
    (List.map (fun r => if a_id r =? id then f r else r) (accounts (sess s)))).

(** [db.delete(row)], flushed by the commit that follows it *)
Definition delete_account (id : Z) : M W unit :=
  s ← get_state;
  set_sess (set_accounts (sess s)
    (List.filter (fun r => negb (a_id r =? id)) (accounts (sess s)))).

(** [db.add(obj)] of a new object *)
Definition add_link (r : ListingMarketplace) : M W link_ref := fun s =>
  (Ok (Pending (length (added_links s))),
   mkSt (stored s) (sess s) (added_links s ++ [r]) (added_accounts s)
        (world s) (trace s)).

Definition add_account (r : MarketplaceAccount) : M W unit := fun s =>
  (Ok tt,
   mkSt (stored s) (sess s) (added_links s) (added_accounts s ++ [r])
        (world s) (trace s)).

Definition update_link (ref : link_ref)
    (f : ListingMarketplace → ListingMarketplace) : M W unit := fun s =>
  match ref with
  | Persistent id =>
      (Ok tt,
       mkSt (stored s)
            (set_links (sess s)
               (List.map (fun r => if lm_id r =? id then f r else r)
                         (links (sess s))))
            (added_links s) (added_accounts s) (world s) (trace s))
  | Pending i =>
      (Ok tt,
       mkSt (stored s) (sess s) (alter f i (added_links s))
            (added_accounts s) (world s) (trace s))
  end.

(** the current attributes of a referenced object *)
Definition read_link (ref : link_ref) : M W (option ListingMarketplace) :=
  s ← get_state;
  mret (match ref with
        | Persistent id =>
            List.find (fun r => lm_id r =? id) (links (sess s))
        | Pending i => added_links s !! i
        end).

(** [db.commit()]: flush the changes and the added objects, end the
    transaction. *)
Definition commit : M W unit := fun s =>
  let t := mkTables (listings (sess s)) (images (sess s))
             (insert_links (links (sess s)) (added_links s))
             (insert_accounts (accounts (sess s)) (added_accounts s)) in
  (Ok tt, mkSt t t [] [] (world s) (trace s ++ [EvCommit])).

(** [db.rollback()]: forget the changes and the added objects. *)
Definition rollback : M W unit := fun s =>
  (Ok tt, mkSt (stored s) (stored s) [] [] (world s) (trace s ++ [EvRollback])).

End Db.
End Db.

(** A request runs in a session of its own ([get_db]): it starts from the
    database and what it has not committed is lost when it ends. *)
Definition open_session {W} (s : St W) : St W :=
  mkSt (stored s) (stored s) [] [] (world s) (trace s).

Definition run_request {W A} (handler : M W A) (s : St W) : Res A * St W :=
  let (r, s') := handler (open_session s) in (r, open_session s').

(** ** A sample deployment

    A small concrete outside world on which the handlers can be run: the
    remote marketplace answers by the kind of request, the clock stands
    still, and every browser step succeeds.  The state of the world is
    the number of exchanges so far. *)
Module Sample.

Definition now : Z := 1700000000000000.

Definition builtins : Builtins :=
  {| py_str := fun _ => "?";
     py_int_of_str := fun _ => None;
     b64encode := fun s => s;
     quote := fun s => s;
     splitext_ext := fun _ => ".jpg" |}.

(** no policy ids configured *)
Definition settings : Settings :=
  {| media_url := "/media";
     ebay_client_id := "client";
     ebay_client_secret := "secret";
     ebay_environment := "sandbox";
     ebay_fulfillment_policy_id := None;
     ebay_payment_policy_id := None;
     ebay_return_policy_id := None |}.

(** the three policy ids configured *)
Definition settings_with_policies : Settings :=
  {| media_url := "/media";
     ebay_client_id := "client";
     ebay_client_secret := "secret";
     ebay_environment := "sandbox";
     ebay_fulfillment_policy_id := Some "F1";
     ebay_payment_policy_id := Some "P1";
     ebay_return_policy_id := Some "R1" |}.

Definition remote_inventory : json :=
  JObj [("inventoryItems",
         JArr [ JObj [("sku", JStr "COAT-2")];
                JObj [("sku", JStr "GONE-9")];
                JObj [] ])].

Definition answer (r : HttpRequest) : HttpResponse :=
  if PyStr.contains (rq_url r) "/identity/v1/oauth2/token" then
    mkResponse 200 "ok"
      (Some (JObj [("access_token", JStr "T2"); ("expires_in", JNum 3600)]))
  else if String.eqb (rq_method r) "PUT" then mkResponse 204 "" None
  else if PyStr.contains (rq_url r) "/publish" then
    mkResponse 200 "ok" (Some (JObj [("listingId", JStr "L1")]))
  else if PyStr.contains (rq_url r) "/sell/inventory/v1/offer" then
    mkResponse 201 "ok" (Some (JObj [("offerId", JStr "O1")]))
  else if PyStr.contains (rq_url r) "/sell/inventory/v1/inventory_item" then
    mkResponse 200 "ok" (Some remote_inventory)
  else mkResponse 404 "Not Found" None.

Definition outside : Outside nat :=
  {| http_send := fun r w => (Ok (answer r), S w);
     clock := fun w => (now, w);
     do_action := fun _ w => (Ok tt, S w);
     do_probe := fun _ w => (Ok true, S w);
     do_reading := fun _ w => (Ok "https://poshmark.com/listing/lamp-1", S w) |}.

Definition seller : User := mkUser 1 "seller@example.com".

Definition lamp : Listing :=
  mkListing 1 1 "Vintage Lamp" None 4250 None "Used - Good".

Definition coat : Listing :=
  mkListing 2 1 "Wool Coat" (Some "Warm") 4299 (Some "COAT-2") "New with tags".

(** an eBay account whose token expires [m] minutes from [now] *)
Definition ebay_account (m : Z) : MarketplaceAccount :=
  mkAccount 1 1 "ebay" (Some "seller") (Some "T1") (Some "R1")
            (Some (now + minutes m)).

Definition poshmark_account : MarketplaceAccount :=
  mkAccount 2 1 "poshmark" (Some "seller") (Some "pw") None None.

(** the database: two listings without images and without link rows *)
Definition shop (accounts : list MarketplaceAccount) : Tables :=
  mkTables [lamp; coat] [] [] accounts.

(** the state before the first request *)
Definition start (t : Tables) : St nat := mkSt t t [] [] 0%nat [].

(** [json.dumps] on the sample; the text is not looked at *)
Definition json_dumps (v : json) : string := "[cookies]".

(** a marketplace that answers every request with 200 and an empty
    object: a refresh gets no token *)
Definition outside_without_token : Outside nat :=
  {| http_send := fun _ w => (Ok (mkResponse 200 "{}" (Some (JObj []))), S w);
     clock := fun w => (now, w);
     do_action := fun _ w => (Ok tt, S w);
     do_probe := fun _ w => (Ok true, S w);
     do_reading := fun _ w => (Ok "", S w) |}.

(** the cookies of a browser session of the seller *)
Definition cookies : list json :=
  [ JObj [("name", JStr "jwt"); ("value", JStr "x")];
    JObj [("name", JStr "un"); ("value", JStr "seller")] ].

Definition lamp_photo : ListingImage := mkListingImage 1 1 "lamp.jpg" 0.

(** the coat is on Poshmark already *)
Definition coat_on_poshmark : ListingMarketplace :=
  mkLink 1 2 "poshmark" (Some "p1") None None
         (Some "https://poshmark.com/listing/p1") (Some "published").

(** the database with a photo of the lamp and the link row of the coat *)
Definition shop_with_rows (accounts : list MarketplaceAccount) : Tables :=
  mkTables [lamp; coat] [lamp_photo] [coat_on_poshmark] accounts.

(** the library functions with an [int] that reads the state "1" *)
Definition builtins_with_int : Builtins :=
  {| py_str := fun _ => "?";
     py_int_of_str := fun s => if String.eqb s "1" then Some 1 else None;
     b64encode := fun s => s;
     quote := fun s => s;
     splitext_ext := fun _ => ".jpg" |}.

Definition users : list User := [seller].

Definition redirect_uri : string := "https://app.example/oauth/callback".

(** the lamp was published on eBay before *)
Definition lamp_on_ebay : ListingMarketplace :=
  mkLink 2 1 "ebay" (Some "L0") (Some "OLD-SKU") (Some "O0")
         (Some "https://www.ebay.com/itm/L0") (Some "published").

(** the database with the earlier publication of the lamp *)
Definition shop_relisted (accounts : list MarketplaceAccount) : Tables :=
  mkTables [lamp; coat] [lamp_photo] [coat_on_poshmark; lamp_on_ebay] accounts.

End Sample.

Section Engine.
Context {W : Type}.
Variable O : Outside W.
Variable B : Builtins.
Variable settings : Settings.

(** *** External effects, each recorded in the trace *)

Definition utcnow : M W Z := with_world (clock O).

Definition external {A} (ev : event) (f : W → Res A * W) : M W A := fun s =>
  let (r, w) := f (world s) in
  (r, mkSt (stored s) (sess s) (added_links s) (added_accounts s)
        w (trace s ++ [ev])).

Definition http (r : HttpRequest) : M W HttpResponse :=
  external (EvHttp r) (http_send O r).
Definition act (a : action) : M W unit :=
  external (EvAction a) (do_action O a).
Definition ask (p : probe) : M W bool :=
  external (EvProbe p) (do_probe O p).
Definition read (r : reading) : M W string :=
  external (EvReading r) (do_reading O r).

(** [resp.json()] *)
Definition response_json (resp : HttpResponse) : M W json :=
  match json_body resp with
  | Some j => mret j
  | None => raise (PyError "JSONDecodeError" (text resp))
  end.

(** [int(v)] *)
Definition py_int (v : json) : Res Z :=
  match v with
  | JNum n => Ok n
  | JBool b => Ok (if b then 1 else 0)
  | JStr s =>
      match py_int_of_str B s with
      | Some n => Ok n
      | None => Raise (PyError "ValueError" s)
      end
  | _ => Raise (PyError "TypeError" "int")
  end.

(** [str(e)] *)
Definition exn_str (e : exn) : string :=
  match e with
  | HTTPException sc detail => pretty sc +:+ ": " +:+ fmt B detail
  | EbayAuthError m | PoshmarkAuthError m | PoshmarkPublishError m
  | PlaywrightTimeoutError m | PyError _ m => m
  end.

Definition sandbox : bool := String.eqb (ebay_environment settings) "sandbox".

(** ** [app/services/ebay_client.py] *)

Definition EBAY_SCOPES : list string :=
  [ "https://api.ebay.com/oauth/api_scope";
    "https://api.ebay.com/oauth/api_scope/sell.account.readonly";
    "https://api.ebay.com/oauth/api_scope/sell.account";
    "https://api.ebay.com/oauth/api_scope/sell.inventory";
    "https://api.ebay.com/oauth/api_scope/sell.fulfillment" ].

Fixpoint join (sep : string) (l : list string) : string :=
  match l with
  | [] => ""
  | [x] => x
  | x :: rest => x +:+ sep +:+ join sep rest
  end.

Definition token_url : string :=
  if sandbox then "https://api.sandbox.ebay.com/identity/v1/oauth2/token"
  else "https://api.ebay.com/identity/v1/oauth2/token".

Definition basic_auth_headers : list (string * string) :=
  [ ("Content-Type", "application/x-www-form-urlencoded");
    ("Authorization",
     "Basic " +:+ b64encode B (ebay_client_id settings +:+ ":"
                               +:+ ebay_client_secret settings)) ].

Definition refresh_request (refresh_token : string) : HttpRequest :=
  mkRequest "POST" token_url basic_auth_headers []
    [ ("grant_type", "refresh_token");
      ("refresh_token", refresh_token);
      ("scope", join " " EBAY_SCOPES) ]
    None.

Definition is_ebay_account_of (uid : Z) (a : MarketplaceAccount) : bool :=
  (a_user_id a =? uid) && String.eqb (a_marketplace a) "ebay".

Definition set_access_token (tok : option string) (a : MarketplaceAccount)
  : MarketplaceAccount :=
  mkAccount (a_id a) (a_user_id a) (a_marketplace a) (a_username a)
            tok (a_refresh_token a) (a_token_expires_at a).

Definition set_token_expires_at (t : option Z) (a : MarketplaceAccount)
  : MarketplaceAccount :=
  mkAccount (a_id a) (a_user_id a) (a_marketplace a) (a_username a)
            (a_access_token a) (a_refresh_token a) t.

Definition token_still_valid (account : MarketplaceAccount) (now : Z) : bool :=
  match a_token_expires_at account with
  | Some t => t >? now + minutes 5
  | None => false
  end.

(** the second half of [get_valid_ebay_access_token]: the token is
    missing or about to expire, and is refreshed *)
Definition refresh_access_token (account : MarketplaceAccount) : M W string :=
if negb (PyStr.truthy_opt (a_refresh_token account))
then raise (EbayAuthError "No refresh_token for eBay account")
else
  resp ← http (refresh_request (default "" (a_refresh_token account)));
  if negb (status_code resp =? 200)
  then raise (EbayAuthError
                ("Failed to refresh eBay token: "
                 +:+ pretty (status_code resp) +:+ " " +:+ text resp))
  else
    token_json ← response_json resp;
    new_access_token ← lift (Py.get token_json "access_token" JNull);
    expires_in ← lift (Py.get token_json "expires_in" (JNum 7200));
    if negb (Py.truthy new_access_token)
    then raise (EbayAuthError "No access_token in refresh response")
    else
      Db.update_account (a_id account)
        (set_access_token (to_text B new_access_token));;
      now' ← utcnow;
      secs ← lift (py_int expires_in);
      Db.update_account (a_id account)
        (set_token_expires_at (Some (now' + seconds secs)));;
      Db.commit;;
      (* db.refresh(account); return account.access_token *)
      mret (default "" (to_text B new_access_token)).

Definition get_valid_ebay_access_token (user : User) : M W string :=
account ← Db.first_account (is_ebay_account_of (u_id user));
match account with
| None => raise (EbayAuthError "eBay account not connected")
| Some account =>
    if negb (PyStr.truthy_opt (a_access_token account))
    then raise (EbayAuthError "eBay account not connected")
    else
      now ← utcnow;
      if token_still_valid account now
      then mret (default "" (a_access_token account))
      else refresh_access_token account
end.

Definition EBAY_API_BASE : string :=
  if sandbox then "https://api.sandbox.ebay.com" else "https://api.ebay.com".

Definition ebay_request (method : string) (user : User) (path : string)
    (params : list (string * string)) (body : option json)
  : M W HttpResponse :=
  access_token ← get_valid_ebay_access_token user;
  http (mkRequest method (EBAY_API_BASE +:+ path)
          [ ("Authorization", "Bearer " +:+ access_token);
            ("Accept", "application/json");
            ("Content-Type", "application/json");
            ("Content-Language", "en-US") ]
          params [] body).

Definition ebay_get user path params : M W HttpResponse :=
  ebay_request "GET" user path params None.
Definition ebay_post user path (body : json) : M W HttpResponse :=
  ebay_request "POST" user path [] (Some body).
Definition ebay_put user path (body : json) : M W HttpResponse :=
  ebay_request "PUT" user path [] (Some body).
Definition ebay_delete user path : M W HttpResponse :=
  ebay_request "DELETE" user path [] None.

(** ** [app/routers/marketplaces.py] *)

Definition not_found : exn := HTTPException 404 (JStr "Listing not found").

Definition _get_owned_listing_or_404 (listing_id : Z) (user : User)
  : M W Listing :=
  listing ← Db.first_listing
    (fun l => (l_id l =? listing_id) && (l_owner_id l =? u_id user));
  match listing with
  | None => raise not_found
  | Some l => mret l
  end.

(** *** Business policies *)

Definition marketplace_param : list (string * string) :=
  [("marketplace_id", "EBAY_US")].

Fixpoint opted_in_among (programs : list json) : Res bool :=
  match programs with
  | [] => Ok false
  | program :: rest =>
      t ← Py.get program "programType" JNull;
      if Py.eq_str t "SELLING_POLICY_MANAGEMENT" then Ok true
      else opted_in_among rest
  end.

Definition _ensure_business_policies_opted_in (user : User) : M W bool :=
  try_except
    (programs_resp ← ebay_get user
       "/sell/account/v1/program/get_opted_in_programs" [];
     if status_code programs_resp =? 200 then
       programs_data ← response_json programs_resp;
       programs ← lift (Py.get programs_data "programs" (JArr []));
       programs ← lift (Py.iter programs);
       found ← lift (opted_in_among programs);
       if (found : bool) then mret true
       else
         opt_in_resp ← ebay_post user "/sell/account/v1/program/opt_in"
           (JObj [("programType", JStr "SELLING_POLICY_MANAGEMENT")]);
         mret (bool_decide (status_code opt_in_resp ∈ [200; 201; 204]))
     else mret false)
    (fun _ => mret false).

Definition category_types : json :=
  JArr [JObj [("name", JStr "ALL_EXCLUDING_MOTORS_VEHICLES")]].

Definition fulfillment_payload (svc_code : string) : json :=
  JObj [ ("name", JStr ("Standard Shipping (" +:+ svc_code +:+ ")"));
         ("marketplaceId", JStr "EBAY_US");
         ("categoryTypes", category_types);
         ("handlingTime", JObj [("value", JNum 1); ("unit", JStr "DAY")]);
         ("shippingOptions",
          JArr [JObj [ ("optionType", JStr "DOMESTIC");
                       ("costType", JStr "FLAT_RATE");
                       ("shippingServices",
                        JArr [JObj [ ("shippingCarrierCode", JStr "USPS");
                                     ("shippingServiceCode", JStr svc_code);
                                     ("freeShipping", JBool false) ]]) ]]) ].

Definition payment_payload : json :=
  JObj [ ("name", JStr "Standard Payment");
         ("marketplaceId", JStr "EBAY_US");
         ("categoryTypes", category_types);
         ("immediatePay", JBool false) ].

Definition return_payload : json :=
  JObj [ ("name", JStr "30-Day Returns");
         ("marketplaceId", JStr "EBAY_US");
         ("categoryTypes", category_types);
         ("returnsAccepted", JBool true);
         ("returnPeriod", JObj [("value", JNum 30); ("unit", JStr "DAY")]);
         ("refundMethod", JStr "MONEY_BACK");
         ("returnShippingCostPayer", JStr "BUYER") ].

(** ["already exists" in str(body).lower()] *)
Definition says_already_exists (body : json) : bool :=
  PyStr.contains (PyStr.lower (py_str B body)) "already exists".

(** The lookup that follows each failed creation:
    [existing = await ebay_get(path); if existing.status_code == 200 and
     existing.json().get(list_key): ... = existing.json()[list_key][0][id_key]].
    [None]: the key of [policies_created] is left unset. *)
Definition first_existing (user : User) (path list_key id_key : string)
  : M W (option json) :=
  existing ← ebay_get user path marketplace_param;
  if status_code existing =? 200 then
    body ← response_json existing;
    l ← lift (Py.get body list_key JNull);
    if Py.truthy l then
      body ← response_json existing;
      l ← lift (Py.item body list_key);
      p ← lift (Py.first l);
      v ← lift (Py.item p id_key);
      mret (Some v)
    else mret None
  else mret None.

(** [for svc_code in shipping_services_to_try: ...] with its two
    [break]s *)
Fixpoint try_shipping_services (user : User) (codes : list string)
  : M W (option json) :=
  match codes with
  | [] => mret None
  | svc_code :: rest =>
      fulfillment_resp ← ebay_post user "/sell/account/v1/fulfillment_policy"
        (fulfillment_payload svc_code);
      if bool_decide (status_code fulfillment_resp ∈ [200; 201]) then
        body ← response_json fulfillment_resp;
        v ← lift (Py.get body "fulfillmentPolicyId" JNull);
        mret (Some v)
      else
        error_body ← response_json fulfillment_resp;
        if says_already_exists error_body then
          r ← first_existing user "/sell/account/v1/fulfillment_policy"
                "fulfillmentPolicies" "fulfillmentPolicyId";
          match r with
          | Some v => mret (Some v)
          | None => try_shipping_services user rest
          end
        else try_shipping_services user rest
  end.

(** the payment and the return policy: create, else reuse *)
Definition create_or_reuse (user : User) (path : string) (payload : json)
    (list_key id_key : string) : M W (option json) :=
  resp ← ebay_post user path payload;
  created ←
    (if bool_decide (status_code resp ∈ [200; 201]) then
       body ← response_json resp;
       v ← lift (Py.get body id_key JNull);
       mret (Some v)
     else
       body ← response_json resp;
       if says_already_exists body
       then first_existing user path list_key id_key
       else mret None);
  match created with
  | Some v => mret (Some v)
  | None => first_existing user path list_key id_key
  end.

Record Policies := mkPolicies {
  fulfillmentPolicyId : json;
  paymentPolicyId : json;
  returnPolicyId : json
}.

Definition policies_json (p : Policies) : json :=
  JObj [ ("fulfillmentPolicyId", fulfillmentPolicyId p);
         ("paymentPolicyId", paymentPolicyId p);
         ("returnPolicyId", returnPolicyId p) ].

Definition _create_default_policies (user : User) : M W (option Policies) :=
  try_except
    (f ← try_shipping_services user
           ["USPSGroundAdvantage"; "USPSFirstClass"; "USPSPriorityMail"];
     f ← match f with
         | Some v => mret (Some v)
         | None => first_existing user "/sell/account/v1/fulfillment_policy"
                     "fulfillmentPolicies" "fulfillmentPolicyId"
         end;
     p ← create_or_reuse user "/sell/account/v1/payment_policy"
           payment_payload "paymentPolicies" "paymentPolicyId";
     r ← create_or_reuse user "/sell/account/v1/return_policy"
           return_payload "returnPolicies" "returnPolicyId";
     (* len(policies_created) == 3 *)
     match f, p, r with
     | Some f, Some p, Some r => mret (Some (mkPolicies f p r))
     | _, _, _ => mret None
     end)
    (fun _ => mret None).

Fixpoint find_named (key : string) (policies : list json)
  : Res (option json) :=
  match policies with
  | [] => Ok None
  | p :: rest =>
      name ← Py.get p "name" (JStr "");
      name ← Py.lower name;
      if PyStr.contains name "default" || PyStr.contains name "standard"
      then v ← Py.get p key JNull; Ok (Some v)
      else find_named key rest
  end.

Definition get_policy_id (policies : json) (key : string) : Res json :=
  if negb (Py.truthy policies) then Ok JNull
  else
    l ← Py.iter policies;
    named ← find_named key l;
    match named with
    | Some v => Ok v
    | None => p ← Py.first policies; Py.get p key JNull
    end.

(** [resp.json().get(key, []) if resp.status_code == 200 else []] *)
Definition policy_list (resp : HttpResponse) (key : string) : M W json :=
  if status_code resp =? 200 then
    body ← response_json resp; lift (Py.get body key (JArr []))
  else mret (JArr []).

(** [override_policy_ids] when it has all three keys *)
Definition override_policy_ids : option Policies :=
  match ebay_fulfillment_policy_id settings,
        ebay_payment_policy_id settings,
        ebay_return_policy_id settings with
  | Some f, Some p, Some r =>
      if PyStr.truthy f && PyStr.truthy p && PyStr.truthy r
      then Some (mkPolicies (JStr f) (JStr p) (JStr r))
      else None
  | _, _, _ => None
  end.

Definition _get_ebay_policies (user : User) : M W (option Policies) :=
  try_except
    (match override_policy_ids with
     | Some ids => mret (Some ids)
     | None =>
        fulfillment_resp ← ebay_get user "/sell/account/v1/fulfillment_policy"
                             marketplace_param;
        payment_resp ← ebay_get user "/sell/account/v1/payment_policy"
                         marketplace_param;
        return_resp ← ebay_get user "/sell/account/v1/return_policy"
                        marketplace_param;
        fulfillment_policies ← policy_list fulfillment_resp "fulfillmentPolicies";
        payment_policies ← policy_list payment_resp "paymentPolicies";
        return_policies ← policy_list return_resp "returnPolicies";
        f ← lift (get_policy_id fulfillment_policies "fulfillmentPolicyId");
        p ← lift (get_policy_id payment_policies "paymentPolicyId");
        r ← lift (get_policy_id return_policies "returnPolicyId");
        let f := if Py.truthy f then f
                 else opt_json (ebay_fulfillment_policy_id settings) in
        let p := if Py.truthy p then p
                 else opt_json (ebay_payment_policy_id settings) in
        let r := if Py.truthy r then r
                 else opt_json (ebay_return_policy_id settings) in
        if Py.truthy f && Py.truthy p && Py.truthy r
        then mret (Some (mkPolicies f p r))
        else
          opted_in ← _ensure_business_policies_opted_in user;
          if (opted_in : bool) then _create_default_policies user
          else mret None
     end)
    (fun _ => mret None).

(** *** Merchant location *)

Definition location_payload : json :=
  JObj [ ("name", JStr "Main Store");
         ("location",
          JObj [("address",
                 JObj [ ("addressLine1", JStr "2055 Hamilton Ave");
                        ("city", JStr "San Jose");
                        ("stateOrProvince", JStr "CA");
                        ("postalCode", JStr "95125");
                        ("country", JStr "US") ])]);
         ("locationInstructions", JStr "Ships from main warehouse");
         ("merchantLocationStatus", JStr "ENABLED");
         ("locationTypes", JArr [JStr "STORE"]) ].

Definition _ensure_merchant_location (user : User) : M W string :=
  let merchant_location_key := "store_v3" in
  ignore_errors
    (ebay_post user ("/sell/inventory/v1/location/" +:+ merchant_location_key)
       location_payload;; mret tt);;
  mret merchant_location_key.

(** *** Link rows *)

Definition is_link (listing_id : Z) (marketplace : string)
    (r : ListingMarketplace) : bool :=
  (lm_listing_id r =? listing_id) && String.eqb (lm_marketplace r) marketplace.

(** [ListingMarketplace(listing_id=..., marketplace=...)] *)
Definition new_link (listing_id : Z) (marketplace : string)
  : ListingMarketplace :=
  mkLink 0 listing_id marketplace None None None None None.

Definition set_status (st : option string) (r : ListingMarketplace)
  : ListingMarketplace :=
  mkLink (lm_id r) (lm_listing_id r) (lm_marketplace r)
         (lm_external_item_id r) (lm_sku r) (lm_offer_id r)
         (lm_external_url r) st.

Definition set_external_item_id (v : option string) (r : ListingMarketplace)
  : ListingMarketplace :=
  mkLink (lm_id r) (lm_listing_id r) (lm_marketplace r)
         v (lm_sku r) (lm_offer_id r) (lm_external_url r) (lm_status r).

Definition set_sku (v : option string) (r : ListingMarketplace)
  : ListingMarketplace :=
  mkLink (lm_id r) (lm_listing_id r) (lm_marketplace r)
         (lm_external_item_id r) v (lm_offer_id r) (lm_external_url r)
         (lm_status r).

Definition set_offer_id (v : option string) (r : ListingMarketplace)
  : ListingMarketplace :=
  mkLink (lm_id r) (lm_listing_id r) (lm_marketplace r)
         (lm_external_item_id r) (lm_sku r) v (lm_external_url r)
         (lm_status r).

Definition set_external_url (v : option string) (r : ListingMarketplace)
  : ListingMarketplace :=
  mkLink (lm_id r) (lm_listing_id r) (lm_marketplace r)
         (lm_external_item_id r) (lm_sku r) (lm_offer_id r) v (lm_status r).

(** [lm = query(...).first(); if not lm: lm = ListingMarketplace(...);
    db.add(lm)]: the object, and its attributes as loaded or created *)
Definition load_or_add_link (listing_id : Z) (marketplace : string)
  : M W (link_ref * ListingMarketplace) :=
  lm ← Db.first_link (is_link listing_id marketplace);
  match lm with
  | Some r => mret (Persistent (lm_id r), r)
  | None =>
      ref ← Db.add_link (new_link listing_id marketplace);
      mret (ref, new_link listing_id marketplace)
  end.

(** *** [sync_ebay_inventory] *)

(** the sku as a query parameter for the [VARCHAR] column: the database
    (PostgreSQL) rejects the comparison with a value that is not a
    string. *)
Definition sku_param (sku : json) : Res string :=
  match sku with
  | JStr s => Ok s
  | _ => Raise (PyError "ProgrammingError" "sku")
  end.

Definition py_len (v : json) : Res Z :=
  match v with
  | JArr l => Ok (Z.of_nat (length l))
  | JObj l => Ok (Z.of_nat (length l))
  | JStr s => Ok (Z.of_nat (String.length s))
  | _ => Raise (PyError "TypeError" "len")
  end.

Definition reconcile_item (user : User) (item : json) : M W bool :=
  sku ← lift (Py.get item "sku" JNull);
  if negb (Py.truthy sku) then mret false
  else
    sku ← lift (sku_param sku);
    listing ← Db.first_listing
      (fun l => (l_owner_id l =? u_id user)
                && bool_decide (l_sku l = Some sku));
    match listing with
    | None => mret false
    | Some listing =>
        '(lm, row) ← load_or_add_link (l_id listing) "ebay";
        (if bool_decide (lm_status row ≠ Some "published")
         then Db.update_link lm (set_status (Some "offer_created"))
         else mret tt);;
        mret true
    end.

Fixpoint reconcile_items (user : User) (items : list json) (synced_count : Z)
  : M W Z :=
  match items with
  | [] => mret synced_count
  | item :: rest =>
      matched ← reconcile_item user item;
      reconcile_items user rest
        (if (matched : bool) then synced_count + 1 else synced_count)
  end.

(** the body of the [try] of [sync_ebay_inventory] *)
Definition reconcile_inventory (current_user : User) : M W json :=
resp ← ebay_get current_user "/sell/inventory/v1/inventory_item"
         [("limit", "200"); ("offset", "0")];
if negb (status_code resp =? 200)
then raise (HTTPException 400 (JStr (text resp)))
else
  body ← response_json resp;
  ebay_items ← lift (Py.get body "inventoryItems" (JArr []));
  items ← lift (Py.iter ebay_items);
  synced_count ← reconcile_items current_user items 0;
  Db.commit;;
  found ← lift (py_len ebay_items);
  mret (JObj [ ("message", JStr "Sync completed");
               ("ebay_items_found", JNum found);
               ("local_listings_matched", JNum synced_count) ]).

Definition sync_ebay_inventory (current_user : User) : M W json :=
try_except
  (reconcile_inventory current_user)
  (fun e =>
     Db.rollback;;
     raise (HTTPException 500 (JStr ("Sync failed: " +:+ exn_str e)))).

(** *** [publish_to_ebay] and [create_inventory_and_offer]

    The two handlers repeat the same stages; each stage is a definition
    here, used by both. *)

Definition set_listing_sku (v : option string) (l : Listing) : Listing :=
  mkListing (l_id l) (l_owner_id l) (l_title l) (l_description l)
            (l_price l) v (l_condition l).

(** [listing.sku if (listing.sku and listing.sku.strip()) else
    f"USER{current_user.id}-LISTING{listing.id}"] *)
Definition raw_sku_of (current_user : User) (listing : Listing) : string :=
  match l_sku listing with
  | Some s =>
      if PyStr.truthy s && PyStr.truthy (PyStr.strip_ws s) then s
      else "USER" +:+ pretty (u_id current_user)
           +:+ "-LISTING" +:+ pretty (l_id listing)
  | None => "USER" +:+ pretty (u_id current_user)
            +:+ "-LISTING" +:+ pretty (l_id listing)
  end.

(** sku assignment; the listing as it is after [db.refresh] *)
Definition assign_sku (current_user : User) (listing : Listing)
  : M W (string * Listing) :=
  let raw_sku := raw_sku_of current_user listing in
  let sku := _sanitize_sku (PyStr.strip_ws raw_sku) in
  if bool_decide (l_sku listing ≠ Some sku) then
    Db.update_listing (l_id listing) (set_listing_sku (Some sku));;
    Db.commit;;
    mret (sku, set_listing_sku (Some sku) listing)
  else mret (sku, listing).

(** [getattr(listing, "image_urls", [])]: the mapped class has no such
    attribute, the default is what is read. *)
Definition listing_image_urls (listing : Listing) : list string := [].

Definition full_url (base_url : string) (img : ListingImage) : string :=
  base_url +:+ media_url settings +:+ "/" +:+ img_file_path img.

Definition collect_image_urls (request_base_url : string) (listing : Listing)
  : M W (list string) :=
  listing_images ← Db.images_of (l_id listing);
  let base_url := PyStr.rstrip_char "/" request_base_url in
  mret (select_image_urls (List.map (full_url base_url) listing_images)
                          (listing_image_urls listing)).

Definition missing_policies : exn :=
  HTTPException 400
    (JObj [ ("message", JStr "eBay business policies not configured");
            ("error", JStr "MISSING_POLICIES") ]).

Definition inventory_payload (sku title description condition : string)
    (quantity : Z) (image_urls : list string) : json :=
  JObj [ ("sku", JStr sku);
         ("locale", JStr "en_US");
         ("product",
          JObj ([ ("title", JStr title); ("description", JStr description) ]
                ++ match image_urls with
                   | [] => []
                   | _ => [("imageUrls", JArr (List.map JStr image_urls))]
                   end));
         ("condition", JStr condition);
         ("availability",
          JObj [("shipToLocationAvailability",
                 JObj [("quantity", JNum quantity)])]) ].

Definition offer_payload (sku category_id description merchant_location_key : string)
    (quantity : Z) (policies : Policies) (price : Z) : json :=
  JObj [ ("sku", JStr sku);
         ("marketplaceId", JStr "EBAY_US");
         ("format", JStr "FIXED_PRICE");
         ("availableQuantity", JNum quantity);
         ("categoryId", JStr category_id);
         ("listingDescription", JStr description);
         ("merchantLocationKey", JStr merchant_location_key);
         ("itemLocation",
          JObj [("country", JStr "US"); ("postalCode", JStr "95112")]);
         ("listingPolicies", policies_json policies);
         ("listingDuration", JStr "GTC");
         ("pricingSummary",
          JObj [("price", JObj [ ("currency", JStr "USD");
                                 ("value", JStr (fmt_2f price)) ])]) ].

(** the inventory upsert *)
Definition put_inventory_item (current_user : User) (sku : string)
    (payload : json) : M W unit :=
  inv_resp ← try_except
    (ebay_put current_user
       ("/sell/inventory/v1/inventory_item/" +:+ quote B sku) payload)
    (fun e =>
       match e with
       | EbayAuthError _ => raise (HTTPException 400 (JStr (exn_str e)))
       | _ => raise e
       end);
  if bool_decide (status_code inv_resp ∈ [200; 201; 204]) then mret tt
  else raise (HTTPException 400
                (JObj [ ("message", JStr "Failed to create Inventory Item");
                        ("ebay_resp", JStr (text inv_resp)) ])).

(** the id of the offer an "already exists" error names *)
Fixpoint existing_offer_id (errors : list json) : Res json :=
  match errors with
  | [] => Ok JNull
  | err :: rest =>
      message ← Py.get err "message" JNull;
      message ← Py.lower (Py.or_else message (JStr ""));
      if PyStr.contains message "offer entity already exists" then
        parameters ← Py.get err "parameters" JNull;
        if Py.truthy parameters then
          parameters ← Py.item err "parameters";
          p ← Py.first parameters;
          Py.item p "value"
        else Ok JNull
      else existing_offer_id rest
  end.

Definition offer_id_of_error (offer_resp : HttpResponse) : json :=
  match json_body offer_resp with
  | None => JNull
  | Some body =>
      match (errors ← Py.get body "errors" (JArr []);
             errors ← Py.iter errors;
             existing_offer_id errors) with
      | Ok v => v
      | Raise _ => JNull
      end
  end.

(** offer creation, with the fallback to an update *)
Definition create_offer (current_user : User) (payload : json) : M W json :=
  offer_resp ← ebay_post current_user "/sell/inventory/v1/offer" payload;
  if bool_decide (status_code offer_resp ∈ [200; 201]) then
    body ← response_json offer_resp;
    lift (Py.get body "offerId" JNull)
  else
    let offer_id := offer_id_of_error offer_resp in
    if Py.truthy offer_id then
      ebay_put current_user
        ("/sell/inventory/v1/offer/" +:+ fmt B offer_id) payload;;
      mret offer_id
    else raise (HTTPException 400
                  (JObj [ ("message", JStr "Offer creation failed");
                          ("ebay_resp", JStr (text offer_resp)) ])).

Definition item_base_url : string :=
  if sandbox then "https://sandbox.ebay.com/itm" else "https://www.ebay.com/itm".

(** What both handlers do before the first remote write: the owned
    listing, its sku (persisted when it changed), the image urls, the
    merchant location and the policies ([None]: unresolved). *)
Definition prepare_listing (listing_id : Z) (request_base_url : string)
  (current_user : User)
  : M W (Listing * string * list string * string * option Policies) :=
listing ← _get_owned_listing_or_404 listing_id current_user;
'(sku, listing) ← assign_sku current_user listing;
image_urls ← collect_image_urls request_base_url listing;
merchant_location_key ← _ensure_merchant_location current_user;
policies ← _get_ebay_policies current_user;
mret (listing, sku, image_urls, merchant_location_key, policies).

(** the link row after a publish (lines 370-382 of the router) *)
Definition record_published_link (listing : Listing) (sku : string)
  (offer_id ebay_listing_id : json) : M W json :=
'(lm, row) ← load_or_add_link (l_id listing) "ebay";
Db.update_link lm (set_status (Some "published"));;
Db.update_link lm (set_external_item_id (to_text B ebay_listing_id));;
Db.update_link lm (set_sku (Some sku));;
Db.update_link lm (set_offer_id (to_text B offer_id));;
let url := item_base_url +:+ "/" +:+ fmt B ebay_listing_id in
(if Py.truthy ebay_listing_id
 then Db.update_link lm (set_external_url (Some url))
 else mret tt);;
Db.commit;;
mret (JObj [ ("message", JStr "Processed");
             ("listing_id", ebay_listing_id);
             ("url", opt_json (if Py.truthy ebay_listing_id
                               then Some url
                               else lm_external_url row)) ]).

Definition publish_to_ebay (listing_id : Z) (request_base_url : string)
  (current_user : User) : M W json :=
'(listing, sku, image_urls, merchant_location_key, policies) ←
  prepare_listing listing_id request_base_url current_user;
let title := if PyStr.truthy (l_title listing) then l_title listing
             else "Untitled" in
let description := PyStr.or_else (l_description listing) "No description" in
let price := l_price listing in
let quantity := 1 in
let ebay_category_id := "11450" in
let ebay_condition := ebay_condition_of (l_condition listing) in
match policies with
| None => raise missing_policies
| Some policies =>
    put_inventory_item current_user sku
      (inventory_payload sku title description ebay_condition quantity
         image_urls);;
    offer_id ← create_offer current_user
      (offer_payload sku ebay_category_id description merchant_location_key
         quantity policies price);
    publish_resp ← ebay_post current_user
      ("/sell/inventory/v1/offer/" +:+ fmt B offer_id +:+ "/publish")
      (JObj []);
    if bool_decide (status_code publish_resp ∈ [200; 201]) then
      body ← response_json publish_resp;
      ebay_listing_id ← lift (Py.get body "listingId" JNull);
      record_published_link listing sku offer_id ebay_listing_id
    else raise (HTTPException 400
                  (JObj [ ("message", JStr "Publish failed");
                          ("ebay_resp", JStr (text publish_resp)) ]))
end.

(** the link row after a prepared offer (lines 449-457) *)
Definition record_prepared_link (listing : Listing) (sku : string)
  (offer_id : json) : M W json :=
'(lm, row) ← load_or_add_link (l_id listing) "ebay";
Db.update_link lm (set_status (Some "offer_created"));;
Db.update_link lm (set_sku (Some sku));;
Db.update_link lm (set_offer_id (to_text B offer_id));;
Db.commit;;
mret (JObj [ ("message",
              JStr "Inventory and offer prepared (not published)");
             ("offer_id", offer_id);
             ("sku", JStr sku) ]).

Definition create_inventory_and_offer (listing_id : Z)
  (request_base_url : string) (current_user : User) : M W json :=
'(listing, sku, image_urls, merchant_location_key, policies) ←
  prepare_listing listing_id request_base_url current_user;
let title := if PyStr.truthy (l_title listing) then l_title listing
             else "Untitled" in
let description := PyStr.or_else (l_description listing) "No description" in
let price := l_price listing in
let quantity := 1 in
match policies with
| None => raise missing_policies
| Some policies =>
    put_inventory_item current_user sku
      (inventory_payload sku title description "NEW" quantity image_urls);;
    offer_id ← create_offer current_user
      (offer_payload sku "11450" description merchant_location_key
         quantity policies price);
    record_prepared_link listing sku offer_id
end.

(** *** Accounts *)

Definition is_account_of (uid : Z) (marketplace : string)
    (a : MarketplaceAccount) : bool :=
  (a_user_id a =? uid) && String.eqb (a_marketplace a) marketplace.

Definition disconnect (marketplace message : string) (current_user : User)
  : M W json :=
  account ← Db.first_account (is_account_of (u_id current_user) marketplace);
  match account with
  | Some account => Db.delete_account (a_id account);; Db.commit
  | None => mret tt
  end;;
  mret (JObj [("message", JStr message)]).

Definition poshmark_disconnect : User → M W json :=
  disconnect "poshmark" "Poshmark account disconnected".

Definition ebay_disconnect : User → M W json :=
  disconnect "ebay" "Disconnected".

Definition get_listing_marketplaces (listing_id : Z) (current_user : User)
  : M W (list string) :=
  _get_owned_listing_or_404 listing_id current_user;;
  links ← Db.all_links (fun r => lm_listing_id r =? listing_id);
  mret (List.map lm_marketplace links).

(** ** [app/services/poshmark_client.py] *)

(** a double quote, for the selectors *)
Definition dq : string := String (ascii_of_N 34) EmptyString.
Definition q (s : string) : string := dq +:+ s +:+ dq.

Definition get_poshmark_credentials (user : User) : M W (string * string) :=
account ← Db.first_account (is_account_of (u_id user) "poshmark");
match account with
| None => raise (PoshmarkAuthError "Poshmark account not connected")
| Some account =>
    match a_username account, a_access_token account with
    | Some username, Some password =>
        if PyStr.truthy username && PyStr.truthy password
        then mret (username, password)
        else raise (PoshmarkAuthError "Poshmark credentials not configured")
    | _, _ => raise (PoshmarkAuthError "Poshmark credentials not configured")
    end
end.

Definition get_browser_launch_args : list string :=
[ "--no-sandbox"; "--disable-setuid-sandbox"; "--disable-dev-shm-usage";
  "--disable-accelerated-2d-canvas"; "--disable-gpu";
  "--disable-blink-features=AutomationControlled"; "--disable-infobars";
  "--single-process" ].

Definition pardon : string := "text=Pardon the interruption".

(** [el = await page.wait_for_selector(sel, ...); await el.fill(v)] *)
Definition wait_and_fill (selector : string) (timeout : option Z)
  (value : string) : M W unit :=
found ← ask (WaitForSelector selector timeout (Some "visible"));
if (found : bool) then act (Fill selector value)
else raise (PyError "AttributeError" "fill").

Definition wait_and_click (selector : string) : M W unit :=
found ← ask (WaitForSelector selector None (Some "visible"));
if (found : bool) then act (Click selector)
else raise (PyError "AttributeError" "click").

Definition login_form_selector : string :=
"input[name=" +:+ q "login_form[username_email]" +:+ "], input[name*="
+:+ q "username" +:+ " i], input[type=" +:+ q "email" +:+ "]".

Definition login_to_poshmark (username password : string) : M W bool :=
try_except
  (act (Goto "https://poshmark.com/login" "domcontentloaded" 60000);;
   try_except
     (wait_and_fill login_form_selector (Some 10000) username)
     (fun e =>
        match e with
        | PlaywrightTimeoutError _ =>
            bot ← ask (QuerySelector pardon);
            if (bot : bool)
            then raise (PoshmarkAuthError
                   "Bot detected by Poshmark (CAPTCHA/Security Screen).")
            else
              act (Screenshot "/tmp/login_fail.png");;
              raise (PoshmarkAuthError
                       "Could not find login form. See /tmp/login_fail.png")
        | _ => raise e
        end);;
   wait_and_fill ("input[type=" +:+ q "password" +:+ "]") None password;;
   wait_and_click ("button[type=" +:+ q "submit" +:+ "]");;
   act (WaitForLoadState "networkidle" 30000);;
   url ← read PageUrl;
   if negb (PyStr.contains (PyStr.lower url) "/login") then mret true
   else
     error_el ← ask (QuerySelector ".error_message, .error");
     if (error_el : bool) then
       text ← read (InnerText ".error_message, .error");
       raise (PoshmarkAuthError ("Login refused: " +:+ text))
     else mret true)
  (fun e => raise (PoshmarkAuthError ("Login process failed: " +:+ exn_str e))).

Record PublishResult := mkPublishResult {
  pr_status : string;
  pr_url : string;
  pr_external_item_id : option string
}.

Definition file_input_selector : string := "input[type=" +:+ q "file" +:+ "]".

Definition form_selector : string :=
file_input_selector +:+ ", input[name*=" +:+ q "title" +:+ " i]".

Definition title_selector : string :=
"input[name*=" +:+ q "title" +:+ " i], input[placeholder*="
+:+ q "title" +:+ " i]".

Definition description_selector : string :=
"textarea[name*=" +:+ q "description" +:+ " i]".

Definition original_price_selector : string :=
"input[name*=" +:+ q "price" +:+ " i], input[placeholder*="
+:+ q "Original Price" +:+ "]".

Definition current_price_selector : string :=
"input[name=" +:+ q "current_price" +:+ "], input[data-testid="
+:+ q "price-input" +:+ "]".

Definition publish_button_selector : string :=
"button[type=" +:+ q "submit" +:+ "]:has-text(" +:+ q "List Item"
+:+ "), button:has-text(" +:+ q "Next" +:+ "), button:has-text("
+:+ q "Publish" +:+ ")".

(** navigation to the form, and the gate on its elements *)
Definition open_listing_form : M W unit :=
try_except
  (act (Goto "https://poshmark.com/listing/new" "load" 30000);;
   try_except
     (ask (WaitForSelector form_selector (Some 15000) (Some "attached"));;
      mret tt)
     (fun e =>
        match e with
        | PlaywrightTimeoutError _ =>
            bot ← ask (QuerySelector pardon);
            if (bot : bool)
            then raise (PoshmarkPublishError
                   "Bot detected: 'Pardon the interruption' screen active.")
            else
              act (Screenshot "/tmp/debug_failed_form_load.png");;
              read PageContent;;
              raise (PoshmarkPublishError
                "Could not find listing form elements. Likely blocked or page layout changed.")
        | _ => raise e
        end))
  (fun e =>
     match e with
     | PoshmarkPublishError _ => raise e
     | _ => raise (PoshmarkPublishError
                     ("Could not access Poshmark listing page: " +:+ exn_str e))
     end).

(** [download_image]: the name of the temporary file, [None] when the
    image could not be fetched *)
Definition download_image (base_url : string) (img : ListingImage)
  : M W (option string) :=
try_except
  (let img_url := full_url base_url img in
   response ← http (mkRequest "GET" img_url [] [] [] None);
   if status_code response =? 200 then
     let ext := splitext_ext B (img_file_path img) in
     let suffix := if PyStr.truthy ext then ext else ".jpg" in
     name ← read (TempFile suffix (text response));
     mret (Some name)
   else mret None)
  (fun _ => mret None).

(** [asyncio.gather] of the download tasks: the downloads, taken here
    one after the other, in the order of the list their results come in *)
Fixpoint gather_downloads (base_url : string) (imgs : list ListingImage)
  : M W (list (option string)) :=
match imgs with
| [] => mret []
| img :: rest =>
    f ← download_image base_url img;
    fs ← gather_downloads base_url rest;
    mret (f :: fs)
end.

Definition upload_images (listing_images : list ListingImage)
  (base_url : string) : M W unit :=
match listing_images with
| [] => mret tt
| _ =>
    ignore_errors
      (file_input ← ask (WaitForSelector file_input_selector (Some 5000)
                           (Some "attached"));
       if (file_input : bool) then
         downloaded ← gather_downloads base_url (take 8 listing_images);
         let temp_files :=
           omap (fun f => match f with
                          | Some name => if PyStr.truthy name then Some name
                                         else None
                          | None => None
                          end) downloaded in
         match temp_files with
         | [] => mret tt
         | _ =>
             try_finally
               (act (SetInputFiles file_input_selector temp_files);;
                act (Sleep 2))
               (for_each temp_files (fun f => ignore_errors (act (Unlink f))))
         end
       else mret tt)
end.

(** [str(int(float(listing.price or 0)))] *)
Definition price_text (listing : Listing) : string :=
pretty (int_of_price (l_price listing)).

Definition fill_listing_details (listing : Listing) : M W unit :=
act (Fill title_selector
       (if PyStr.truthy (l_title listing) then l_title listing else "Untitled"));;
act (Fill description_selector
       (PyStr.or_else (l_description listing) "No description"));;
let price := price_text listing in
act (Fill original_price_selector price);;
act (Fill current_price_selector price).

Definition submit_and_confirm : M W PublishResult :=
publish_btn ← ask (WaitForSelector publish_button_selector (Some 5000)
                     (Some "visible"));
(if (publish_btn : bool) then mret tt
 else
   act (Screenshot "/tmp/no_publish_btn.png");;
   raise (PoshmarkPublishError "Publish button not found"));;
act (Click publish_button_selector);;
ignore_errors (act (WaitForLoadState "networkidle" 30000));;
current_url ← read PageUrl;
let listing_id :=
  if PyStr.contains current_url "/listing/"
  then Some (PyStr.last_segment "-" (PyStr.last_segment "/" current_url))
  else None in
mret (mkPublishResult "published" current_url listing_id).

Definition publish_listing_to_poshmark (listing : Listing)
  (listing_images : list ListingImage) (base_url : string)
  : M W PublishResult :=
try_except
  (open_listing_form;;
   upload_images listing_images base_url;;
   fill_listing_details listing;;
   submit_and_confirm)
  (fun e =>
     ignore_errors (act (Screenshot "/tmp/publish_error.png"));;
     raise (PoshmarkPublishError ("Publish failed: " +:+ exn_str e))).

Definition poshmark_session_check : M W bool :=
try_except
  (act (Goto "https://poshmark.com/feed" "domcontentloaded" 10000);;
   url ← read PageUrl;
   if negb (PyStr.contains url "login") then
     ask (QuerySelector (".header-user-profile, a[href*=" +:+ q "/user/" +:+ "]"))
   else mret false)
  (fun _ => mret false).

Definition publish_listing (user : User) (listing : Listing)
  (listing_images : list ListingImage) (base_url : string)
  : M W PublishResult :=
'(username, password) ← get_poshmark_credentials user;
let session_file_path :=
  "/tmp/poshmark_session_" +:+ pretty (u_id user) +:+ ".json" in
try_except
  (act PlaywrightStart;;
   try_finally
     (try_except
        (act (BrowserLaunch true get_browser_launch_args))
        (fun e =>
           if PyStr.contains (exn_str e) "Executable doesn't exist"
           then raise (PoshmarkPublishError
                  "Playwright browser not installed. Check build command.")
           else raise e);;
      saved ← ask (PathExists session_file_path);
      context ←
        (if (saved : bool) then
           try_except
             (act (NewContext (Some session_file_path));; mret true)
             (fun _ => mret false)
         else mret false);
      (if (context : bool) then mret tt else act (NewContext None));;
      act NewPage;;
      act RouteBlockResources;;
      try_finally
        (is_logged_in ← poshmark_session_check;
         (if (is_logged_in : bool) then mret tt
          else
            login_success ← login_to_poshmark username password;
            (if (login_success : bool) then mret tt
             else raise (PoshmarkAuthError "Login failed"));;
            act (SaveStorageState session_file_path));;
         publish_listing_to_poshmark listing listing_images base_url)
        (ignore_errors (act BrowserClose)))
     (act PlaywrightStop))
  (fun e =>
     match e with
     | PoshmarkPublishError _ => raise e
     | _ => raise (PoshmarkPublishError ("System error: " +:+ exn_str e))
     end).

(** *** [publish_to_poshmark] (in [app/routers/marketplaces.py]) *)

(** the link row after a publish to Poshmark (lines 615-623) *)
Definition record_poshmark_link (listing : Listing) (result : PublishResult)
  : M W json :=
'(lm, row) ← load_or_add_link (l_id listing) "poshmark";
Db.update_link lm (set_status (Some (pr_status result)));;
Db.update_link lm (set_external_item_id (pr_external_item_id result));;
Db.update_link lm (set_external_url (Some (pr_url result)));;
Db.commit;;
mret (JObj [ ("message", JStr "Published to Poshmark");
             ("url", JStr (pr_url result));
             ("listing_id", opt_json (pr_external_item_id result)) ]).

Definition publish_to_poshmark (listing_id : Z) (request_base_url : string)
  (current_user : User) : M W json :=
listing ← _get_owned_listing_or_404 listing_id current_user;
listing_images ← Db.images_of listing_id;
match listing_images with
| [] => raise (HTTPException 400 (JStr "At least one image is required"))
| _ =>
    let base_url := PyStr.rstrip_char "/" request_base_url in
    try_except
      (result ← publish_listing current_user listing listing_images base_url;
       record_poshmark_link listing result)
      (fun e =>
         match e with
         | PoshmarkAuthError _ => raise (HTTPException 401 (JStr (exn_str e)))
         | PoshmarkPublishError _ => raise (HTTPException 400 (JStr (exn_str e)))
         | _ => raise (HTTPException 500
                         (JStr ("Publish failed: " +:+ exn_str e)))
         end)
end.

(** *** The other endpoints of [app/routers/marketplaces.py] *)

(** [GET /ebay/inventory] *)
Definition ebay_inventory (current_user : User) : M W json :=
resp ← try_except
  (ebay_get current_user "/sell/inventory/v1/inventory_item"
     [("limit", "100"); ("offset", "0")])
  (fun e => raise (HTTPException 400 (JStr (exn_str e))));
response_json resp.

(** [DELETE /ebay/inventory/{sku}] *)
Definition delete_ebay_inventory_item (sku : string) (current_user : User)
  : M W json :=
resp ← try_except
  (ebay_delete current_user
     ("/sell/inventory/v1/inventory_item/" +:+ quote B sku))
  (fun e =>
     match e with
     | EbayAuthError _ => raise (HTTPException 400 (JStr (exn_str e)))
     | _ => raise e
     end);
if bool_decide (status_code resp ∈ [200; 204])
then mret (JObj [("message", JStr "Deleted"); ("sku", JStr sku)])
else raise (HTTPException (status_code resp) (JStr (text resp))).

(** [GET /ebay/me] *)
Definition ebay_me (current_user : User) : M W json :=
resp ← try_except
  (ebay_get current_user "/sell/account/v1/fulfillment_policy"
     marketplace_param)
  (fun e =>
     match e with
     | EbayAuthError _ => raise (HTTPException 400 (JStr (exn_str e)))
     | _ => raise e
     end);
response_json resp.

(** [account is not None and account.access_token is not None] *)
Definition has_token (account : option MarketplaceAccount) : bool :=
match account with
| Some a => match a_access_token a with Some _ => true | None => false end
| None => false
end.

(** [GET /ebay/status] *)
Definition ebay_status (current_user : User) : M W json :=
account ← Db.first_account (is_account_of (u_id current_user) "ebay");
mret (JObj [ ("connected", JBool (has_token account));
             ("marketplace", JStr "ebay") ]).

(** [GET /poshmark/status] *)
Definition poshmark_status (current_user : User) : M W json :=
account ← Db.first_account (is_account_of (u_id current_user) "poshmark");
mret (JObj [ ("connected", JBool (has_token account));
             ("marketplace", JStr "poshmark");
             ("username",
              match account with
              | Some a => opt_json (a_username a)
              | None => JNull
              end) ]).

(** [json.dumps], of the standard library *)
Variable json_dumps : json → string.

(** the loop over the cookies of [connect_poshmark_cookies]: the value
    of the first cookie named [un] or [username] *)
Fixpoint cookie_username (cookies : list json) (username : json) : Res json :=
match cookies with
| [] => Ok username
| c :: rest =>
    name ← Py.get c "name" JNull;
    if Py.eq_str name "un" || Py.eq_str name "username"
    then Py.get c "value" JNull
    else cookie_username rest username
end.

Definition set_username (v : option string) (a : MarketplaceAccount)
  : MarketplaceAccount :=
mkAccount (a_id a) (a_user_id a) (a_marketplace a) v
          (a_access_token a) (a_refresh_token a) (a_token_expires_at a).

(** [POST /poshmark/connect/cookies]; [cookies] is the decoded body, a
    list of objects *)
Definition connect_poshmark_cookies (cookies : list json)
  (current_user : User) : M W json :=
try_except
  (let username :=
     match cookie_username cookies (JStr "Connected Account") with
     | Ok v => v
     | Raise _ => JStr "Connected Account"
     end in
   let cookies_json := json_dumps (JArr cookies) in
   account ← Db.first_account (is_account_of (u_id current_user) "poshmark");
   match account with
   | Some account =>
       Db.update_account (a_id account) (set_username (to_text B username));;
       Db.update_account (a_id account) (set_access_token (Some cookies_json))
   | None =>
       Db.add_account
         (mkAccount 0 (u_id current_user) "poshmark" (to_text B username)
            (Some cookies_json) None None)
   end;;
   Db.commit;;
   mret (JObj [("status", JStr "connected"); ("username", username)]))
  (fun e =>
     Db.rollback;;
     raise (HTTPException 500
              (JStr ("Server Error saving cookies: " +:+ exn_str e)))).

(** *** The OAuth callback of eBay *)

(** the table of users; the marketplace handlers only read it *)
Variable users : list User.

(** [settings.ebay_redirect_uri] *)
Variable ebay_redirect_uri : string.

Definition connected_page : string :=
"<html><body><p>eBay Connected! Close this window.</p><script>window.close();</script></body></html>".

(** the exchange of the authorization code for the tokens *)
Definition code_request (code : string) : HttpRequest :=
mkRequest "POST" token_url basic_auth_headers []
  [ ("grant_type", "authorization_code");
    ("code", code);
    ("redirect_uri", ebay_redirect_uri) ]
  None.

Definition set_refresh_token (v : option string) (a : MarketplaceAccount)
  : MarketplaceAccount :=
mkAccount (a_id a) (a_user_id a) (a_marketplace a) (a_username a)
          (a_access_token a) v (a_token_expires_at a).

(** [GET /ebay/oauth/callback]; [code] and [state] are the query
    parameters, [None] when absent.  A new account object is added to the
    session before its attributes are set; it is given here to [db.add]
    with the attributes it has when the session is committed, nothing
    reading it in between. *)
Definition ebay_oauth_callback (code state : option string) : M W string :=
if negb (PyStr.truthy_opt code && PyStr.truthy_opt state)
then raise (HTTPException 400 (JStr "Missing code/state"))
else
  let code := default "" code in
  let state := default "" state in
  user ← match py_int_of_str B state with
         | Some uid => mret (List.find (fun u => u_id u =? uid) users)
         | None => raise (HTTPException 400 (JStr "Invalid state"))
         end;
  match user with
  | None => raise (HTTPException 404 (JStr "User not found"))
  | Some user =>
      resp ← http (code_request code);
      if negb (status_code resp =? 200)
      then raise (HTTPException (status_code resp) (JStr (text resp)))
      else
        token_json ← response_json resp;
        account ← Db.first_account (is_ebay_account_of (u_id user));
        access_token ← lift (Py.get token_json "access_token" JNull);
        refresh_token ← lift (Py.get token_json "refresh_token" JNull);
        now ← utcnow;
        expires_in ← lift (Py.get token_json "expires_in" (JNum 7200));
        secs ← lift (py_int expires_in);
        match account with
        | Some account =>
            Db.update_account (a_id account)
              (set_access_token (to_text B access_token));;
            Db.update_account (a_id account)
              (set_refresh_token (to_text B refresh_token));;
            Db.update_account (a_id account)
              (set_token_expires_at (Some (now + seconds secs)))
        | None =>
            Db.add_account
              (mkAccount 0 (u_id user) "ebay" None
                 (to_text B access_token) (to_text B refresh_token)
                 (Some (now + seconds secs)))
        end;;
        Db.commit;;
        mret connected_page
  end.

(** ** Vocabulary of the statements *)

(** [sub] occurs in [s] *)
Definition Substring (sub s : string) : Prop :=
  ∃ pre post, s = pre +:+ sub +:+ post.

(** the state [s] with the world moved on to [w] and the events [evs]
    recorded *)
Definition at_world (s : St W) (w : W) (evs : list event) : St W :=
  mkSt (stored s) (sess s) (added_links s) (added_accounts s) w (trace s ++ evs).

(** the user has a connected eBay account: the row [account], with an
    access token *)
Definition connected (user : User) (account : MarketplaceAccount) (s : St W)
  : Prop :=
  List.find (is_ebay_account_of (u_id user)) (accounts (sess s)) = Some account
  ∧ PyStr.truthy_opt (a_access_token account) = true.

(** [m] moves every state to one related to it by [R], whether it returns
    or raises *)
Definition steps (R : St W → St W → Prop) {A} (m : M W A) : Prop :=
  ∀ s, R s (m s).2.

(** [R] is kept by what the marketplace clients do to a state: reading the
    clock, performing an external effect whose event is [allowed],
    changing account objects of the session, committing *)
Record frame (R : St W → St W → Prop) (allowed : event → Prop) : Prop :=
  mkFrame {
  frame_refl : ∀ s, R s s;
  frame_trans : ∀ s1 s2 s3, R s1 s2 → R s2 s3 → R s1 s3;
  frame_world : ∀ s w,
    R s (mkSt (stored s) (sess s) (added_links s) (added_accounts s)
           w (trace s));
  frame_event : ∀ s e, allowed e →
    R s (mkSt (stored s) (sess s) (added_links s) (added_accounts s)
           (world s) (trace s ++ [e]));
  frame_accounts : ∀ s accs,
    R s (mkSt (stored s) (set_accounts (sess s) accs) (added_links s)
           (added_accounts s) (world s) (trace s));
  frame_commit : ∀ s,
    R s (mkSt (stored (Db.commit s).2) (sess (Db.commit s).2) [] []
           (world s) (trace s))
}.

(** an event other than the filling of a form field *)
Definition not_fill (e : event) : Prop :=
  match e with EvAction (Fill _ _) => False | _ => True end.

(** the session holds no change to the link rows: nothing added, no
    attribute changed *)
Definition links_clean (s : St W) : Prop :=
  links (sess s) = links (stored s) ∧ added_links s = [].

(** ... nor to the listings *)
Definition rows_clean (s : St W) : Prop :=
  links_clean s ∧ listings (sess s) = listings (stored s).

(** from a session without link changes, to one without link changes and
    the same stored link rows *)
Definition keeps_links (s s' : St W) : Prop :=
  links_clean s → links_clean s' ∧ links (stored s') = links (stored s).

(** the same for the link rows and the listings together *)
Definition keeps_rows (s s' : St W) : Prop :=
  rows_clean s →
  rows_clean s' ∧ links (stored s') = links (stored s)
  ∧ listings (stored s') = listings (stored s).

(** the number of stored link rows of a (listing, marketplace) pair *)
Definition link_rows (listing_id : Z) (marketplace : string) (t : Tables)
  : list ListingMarketplace :=
  List.filter (is_link listing_id marketplace) (links t).

(** no pair that had at most one stored row gets a second one *)
Definition keeps_single (s s' : St W) : Prop :=
  links_clean s →
  links_clean s'
  ∧ ∀ lid mk, (length (link_rows lid mk (stored s)) ≤ 1)%nat →
              (length (link_rows lid mk (stored s')) ≤ 1)%nat.

(** the events recorded from [s] to [s'] all satisfy [P] *)
Definition emits (P : event → Prop) (s s' : St W) : Prop :=
  ∃ evs, trace s' = trace s ++ evs ∧ Forall P evs.

(** the three handlers that write link rows *)
Inductive invocation : Type :=
| PublishEbay (listing_id : Z) (request_base_url : string) (user : User)
| PrepareOffer (listing_id : Z) (request_base_url : string) (user : User)
| PublishPoshmark (listing_id : Z) (request_base_url : string) (user : User).

Definition handler_of (i : invocation) : M W json :=
  match i with
  | PublishEbay lid base user => publish_to_ebay lid base user
  | PrepareOffer lid base user => create_inventory_and_offer lid base user
  | PublishPoshmark lid base user => publish_to_poshmark lid base user
  end.

(** the state after a sequence of requests, whatever each one returns *)
Definition run_all (invs : list invocation) (s : St W) : St W :=
  fold_left (fun s i => (run_request (handler_of i) s).2) invs s.

(** an event that, when it fills one of the two price fields, fills it
    with [v] *)
Definition price_fill_ok (v : string) (e : event) : Prop :=
  ∀ sel v', e = EvAction (Fill sel v') →
            sel = original_price_selector ∨ sel = current_price_selector →
            v' = v.

(** the link table after the row of the pair has been loaded or created,
    changed by [f] and committed *)
Definition upsert_links (listing_id : Z) (marketplace : string)
    (f : ListingMarketplace → ListingMarketplace)
    (l : list ListingMarketplace) : list ListingMarketplace :=
  match List.find (is_link listing_id marketplace) l with
  | Some r => List.map (fun x => if lm_id x =? lm_id r then f x else x) l
  | None => insert_links l [f (new_link listing_id marketplace)]
  end.

(** [f] changes neither the key nor the pair of a row *)
Definition keeps_keys (f : ListingMarketplace → ListingMarketplace) : Prop :=
  ∀ r, lm_id (f r) = lm_id r ∧ lm_listing_id (f r) = lm_listing_id r
       ∧ lm_marketplace (f r) = lm_marketplace r.

(** the attributes the three handlers set on the row of their pair *)
Definition published_fields (sku : string) (offer_id ebay_listing_id : json)
  : ListingMarketplace → ListingMarketplace :=
  (if Py.truthy ebay_listing_id
   then set_external_url
          (Some (item_base_url +:+ "/" +:+ fmt B ebay_listing_id))
   else id)
  ∘ set_offer_id (to_text B offer_id) ∘ set_sku (Some sku)
  ∘ set_external_item_id (to_text B ebay_listing_id)
  ∘ set_status (Some "published").

Definition prepared_fields (sku : string) (offer_id : json)
  : ListingMarketplace → ListingMarketplace :=
  set_offer_id (to_text B offer_id) ∘ set_sku (Some sku)
  ∘ set_status (Some "offer_created").

Definition poshmark_fields (result : PublishResult)
  : ListingMarketplace → ListingMarketplace :=
  set_external_url (Some (pr_url result))
  ∘ set_external_item_id (pr_external_item_id result)
  ∘ set_status (Some (pr_status result)).

(** every returning run of [h] ends with the block [rec x], for some [x]
    with [P x], started in a state that [R] relates to the initial one *)
Definition ends_with (R : St W → St W → Prop) {X} (P : X → Prop)
    (rec : X → M W json) (h : M W json) : Prop :=
  ∀ s res s', h s = (Ok res, s') →
    ∃ x sp, P x ∧ R s sp ∧ rec x sp = (Ok res, s').

(** the pair whose row an invocation writes *)
Definition pair_of (i : invocation) : Z * string :=
  match i with
  | PublishEbay lid _ _ | PrepareOffer lid _ _ => (lid, "ebay")
  | PublishPoshmark lid _ _ => (lid, "poshmark")
  end.

(** the local listing a remote inventory item matches: the first listing
    of the caller with the item's sku *)
Definition matched_listing (user : User) (t : list Listing) (item : json)
  : option Listing :=
  match Py.get item "sku" JNull with
  | Ok (JStr sku) =>
      if PyStr.truthy sku
      then List.find (fun l => (l_owner_id l =? u_id user)
                               && bool_decide (l_sku l = Some sku)) t
      else None
  | _ => None
  end.

(** a link row before and after a reconciliation: unchanged, or, when it
    was not published and belongs to a matched listing on eBay, with the
    status offer_created *)
Definition reconciled_row (matched : Z → Prop) (r r' : ListingMarketplace)
  : Prop :=
  r' = r
  ∨ (lm_status r ≠ Some "published"
     ∧ r' = set_status (Some "offer_created") r
     ∧ lm_marketplace r = "ebay" ∧ matched (lm_listing_id r)).

(** a row created by a reconciliation, before it gets its key *)
Definition created_row (matched : Z → Prop) (r : ListingMarketplace) : Prop :=
  ∃ lid, matched lid ∧ r = set_status (Some "offer_created") (new_link lid "ebay").

(** the pair of the listing has a row that is offer_created or published *)
Definition has_reconciled_row (listing_id : Z) (l : list ListingMarketplace)
  : Prop :=
  ∃ row, In row l ∧ is_link listing_id "ebay" row = true
         ∧ (lm_status row = Some "offer_created"
            ∨ lm_status row = Some "published").

(** a remote inventory item the loop can read: an object whose sku is
    absent, empty or a string *)
Definition readable_item (item : json) : Prop :=
  ∃ v, Py.get item "sku" JNull = Ok v
       ∧ (Py.truthy v = false ∨ ∃ k, v = JStr k).

(** the number of items that match a local listing *)
Definition matched_count (user : User) (t : list Listing) (items : list json)
  : Z :=
  Z.of_nat (length (List.filter
                      (fun item => match matched_listing user t item with
                                   | Some _ => true
                                   | None => false
                                   end) items)).

(** a row as it is stored when the session is flushed *)
Definition stored_as (a b : ListingMarketplace) : Prop :=
  lm_listing_id b = lm_listing_id a ∧ lm_marketplace b = lm_marketplace a
  ∧ lm_status b = match lm_status a with
                  | None => Some "published"
                  | st => st
                  end.

(** the characters of a string *)
Definition chars_of (s : string) : list ascii := list_ascii_of_string s.

(** a sku the sanitizer has nothing to do on: not empty, made of the
    characters of the class, without two dashes in a row, and neither
    starting nor ending with a dash or an underscore *)
Definition clean_sku (s : string) : Prop :=
  s ≠ ""
  ∧ Forall (fun c => sku_char c = true) (chars_of s)
  ∧ ¬ Substring "--" s
  ∧ (∀ c t, s = String c t → c ≠ "-"%char ∧ c ≠ "_"%char)
  ∧ (∀ t c, s = t +:+ String c "" → c ≠ "-"%char ∧ c ≠ "_"%char).

(** [m] relates by [R] every state to the state it raises in *)
Definition fails (R : St W → St W → Prop) {A} (m : M W A) : Prop :=
  ∀ s e s', m s = (Raise e, s') → R s s'.

(** [m] never raises *)
Definition never_raises {A} (m : M W A) : Prop :=
  ∀ s, is_ok (m s).1 = true.

(** the caller owns the listing [listing_id] *)
Definition owns (user : User) (listing_id : Z) (l : Listing) : bool :=
  (l_id l =? listing_id) && (l_owner_id l =? u_id user).

(** an event that is not an action on the browser or the file system *)
Definition not_action (e : event) : Prop :=
  match e with EvAction _ => False | _ => True end.

(** the number of HTTP exchanges among the events *)
Definition http_count (evs : list event) : nat :=
  length (List.filter (fun e => match e with EvHttp _ => true | _ => false end)
                      evs).

(** the username [connect_poshmark_cookies] takes from the cookies: the
    value of the first cookie named [un] or [username], and
    "Connected Account" when there is none or the cookies cannot be
    read *)
Definition username_of_cookies (cookies : list json) : json :=
  match cookie_username cookies (JStr "Connected Account") with
  | Ok v => v
  | Raise _ => JStr "Connected Account"
  end.

(** what identifies a listing and its owner *)
Definition listing_key (l : Listing) : Z * Z := (l_id l, l_owner_id l).

(** the listings keep their keys and owners, in the session and in the
    database *)
Definition keeps_owners (s s' : St W) : Prop :=
  List.map listing_key (listings (sess s))
  = List.map listing_key (listings (stored s)) →
  List.map listing_key (listings (sess s'))
  = List.map listing_key (listings (stored s'))
  ∧ List.map listing_key (listings (stored s'))
    = List.map listing_key (listings (stored s)).

(** the name of a policy says default or standard, in any case *)
Definition policy_named (p : json) : Prop :=
  ∃ n, Py.get p "name" (JStr "") = Ok (JStr n)
       ∧ (Substring "default" (PyStr.lower n)
          ∨ Substring "standard" (PyStr.lower n)).

Definition policy_unnamed (p : json) : Prop :=
  ∃ n, Py.get p "name" (JStr "") = Ok (JStr n)
       ∧ ¬ Substring "default" (PyStr.lower n)
       ∧ ¬ Substring "standard" (PyStr.lower n).

(** a request served by [h] changes neither a listing nor a link row *)
Definition leaves_rows {A} (h : M W A) : Prop :=
  ∀ s, listings (stored (run_request h s).2) = listings (stored s)
       ∧ links (stored (run_request h s).2) = links (stored s).

(** the row a handler works on: the stored row of the pair, or a new
    object when there is none *)
Definition loaded_row (listing_id : Z) (marketplace : string)
    (l : list ListingMarketplace) : ListingMarketplace :=
  default (new_link listing_id marketplace)
          (List.find (is_link listing_id marketplace) l).

(** two rows with the same attributes, the key and the status apart *)
Definition same_fields (a b : ListingMarketplace) : Prop :=
  lm_listing_id a = lm_listing_id b ∧ lm_marketplace a = lm_marketplace b
  ∧ lm_external_item_id a = lm_external_item_id b
  ∧ lm_sku a = lm_sku b ∧ lm_offer_id a = lm_offer_id b
  ∧ lm_external_url a = lm_external_url b.

(* ================================================================== *)
(** * Part II: properties                                              *)
(* ================================================================== *)

(** ** Strings *)

Lemma str_app_cons (c : ascii) (s t : string) :
  String c s +:+ t = String c (s +:+ t).
Proof. reflexivity. Qed.

Lemma str_app_nil (t : string) : "" +:+ t = t.
Proof. reflexivity. Qed.

Lemma prefix_spec (p s : string) :
  String.prefix p s = true ↔ ∃ post, s = p +:+ post.
Proof.
  revert s. induction p as [|c p IH]; intros s.
  - split; [intros _; by exists s | by destruct s].
  - destruct s as [|d s]; simpl.
    + split; [done | intros [post H]; discriminate].
    + setoid_rewrite str_app_cons.
      destruct (ascii_dec c d) as [->|Hne].
      * rewrite IH. split; intros [post H]; exists post; congruence.
      * split; [done | intros [post H]; congruence].
Qed.

Lemma contains_spec (s sub : string) :
  PyStr.contains s sub = true ↔ Substring sub s.
Proof.
  induction s as [|c s IH].
  - cbn [PyStr.contains]. rewrite orb_false_r, prefix_spec. split.
    + intros [post H]. by exists EmptyString, post.
    + intros ([|d pre] & post & H); [by exists post | discriminate].
  - cbn [PyStr.contains]. rewrite orb_true_iff, prefix_spec, IH. split.
    + intros [[post H] | (pre & post & H)].
      * by exists EmptyString, post.
      * exists (String c pre), post. by rewrite str_app_cons, H.
    + intros ([|d pre] & post & H).
      * left. by exists post.
      * right. exists pre, post. rewrite str_app_cons in H. congruence.
Qed.

Lemma contains_false (s sub : string) :
  PyStr.contains s sub = false ↔ ¬ Substring sub s.
Proof.
  rewrite <- contains_spec. by destruct (PyStr.contains s sub).
Qed.

(** ** The sku sanitizer *)

(** C2 (the code at the failing input).  [_sanitize_sku] is not
    idempotent: stripping the dashes and then the underscores leaves the
    dash that followed a leading underscore, and a second pass removes it.
    On the two inputs the specification names the code gives what it
    says. *)
Theorem sanitize_sku_second_pass_differs :
  _sanitize_sku "_-a" = "-a"
  ∧ _sanitize_sku (_sanitize_sku "_-a") = "a"
  ∧ _sanitize_sku "My Item #1!" = "My-Item-1"
  ∧ _sanitize_sku "" = "SKU".
Proof. repeat split; reflexivity. Qed.

(** *** What the sanitizer guarantees *)

Lemma contains_cons (c : ascii) (s sub : string) :
  PyStr.contains (String c s) sub
  = String.prefix sub (String c s) || PyStr.contains s sub.
Proof. reflexivity. Qed.

Lemma startswith_dash (c : ascii) (s : string) :
  PyStr.startswith (String c s) "-" = Ascii.eqb c "-".
Proof.
  unfold PyStr.startswith. cbn [String.prefix].
  destruct (ascii_dec "-" c) as [<-|Hne]; [by destruct s|].
  destruct (Ascii.eqb_spec c "-"); [congruence | done].
Qed.

Lemma prefix_two_dashes (c : ascii) (s : string) :
  String.prefix "--" (String c s)
  = Ascii.eqb c "-" && PyStr.startswith s "-".
Proof.
  unfold PyStr.startswith. cbn [String.prefix].
  destruct (ascii_dec "-" c) as [<-|Hne]; [done|].
  destruct (Ascii.eqb_spec c "-"); [congruence | done].
Qed.

Lemma startswith_collapse (s : string) :
  PyStr.startswith (collapse_dashes s) "-" = PyStr.startswith s "-".
Proof.
  induction s as [|c s IH]; [done|]. cbn [collapse_dashes].
  rewrite startswith_dash.
  destruct (Ascii.eqb c "-" && PyStr.startswith s "-") eqn:Hd.
  - apply andb_true_iff in Hd as [-> Hs]. by rewrite IH.
  - by rewrite startswith_dash.
Qed.

Lemma collapse_no_double (s : string) :
  PyStr.contains (collapse_dashes s) "--" = false.
Proof.
  induction s as [|c s IH]; [done|]. cbn [collapse_dashes].
  destruct (Ascii.eqb c "-" && PyStr.startswith s "-") eqn:Hd; [done|].
  by rewrite contains_cons, IH, prefix_two_dashes, startswith_collapse, Hd.
Qed.

Lemma collapse_chars (p : ascii → bool) (s : string) :
  Forall (fun c => p c = true) (chars_of s) →
  Forall (fun c => p c = true) (chars_of (collapse_dashes s)).
Proof.
  induction s as [|c s IH]; [done|]. cbn [collapse_dashes chars_of
    list_ascii_of_string]. intros H. apply Forall_cons in H as [Hc Hs].
  destruct (Ascii.eqb c "-" && PyStr.startswith s "-"); [by apply IH|].
  apply Forall_cons. split; [done | by apply IH].
Qed.

Lemma replace_invalid_chars (s : string) :
  Forall (fun c => sku_char c = true) (chars_of (replace_invalid s)).
Proof.
  induction s as [|c s IH]; [constructor|].
  apply Forall_cons. split; [|exact IH].
  destruct (sku_char c) eqn:Hc; [exact Hc | reflexivity].
Qed.

Lemma lstrip_suffix (p : ascii → bool) (s : string) :
  ∃ pre, s = pre +:+ PyStr.lstrip p s.
Proof.
  induction s as [|c s [pre IH]]; [by exists ""|]. cbn [PyStr.lstrip].
  destruct (p c); [|by exists ""].
  exists (String c pre). by rewrite str_app_cons, <- IH.
Qed.

Lemma rstrip_prefix (p : ascii → bool) (s : string) :
  ∃ post, s = PyStr.rstrip p s +:+ post.
Proof.
  induction s as [|c s [post IH]]; [by exists ""|]. cbn [PyStr.rstrip].
  destruct (p c && PyStr.is_empty (PyStr.rstrip p s)).
  - by exists (String c s).
  - exists post. by rewrite str_app_cons, <- IH.
Qed.

Lemma chars_of_app (a b : string) :
  chars_of (a +:+ b) = chars_of a ++ chars_of b.
Proof.
  induction a as [|c a IH]; [done|].
  rewrite str_app_cons. cbn [chars_of list_ascii_of_string app].
  f_equal. exact IH.
Qed.

Lemma str_app_assoc (a b c : string) : (a +:+ b) +:+ c = a +:+ (b +:+ c).
Proof.
  induction a as [|x a IH]; [done|]. by rewrite !str_app_cons, IH.
Qed.

Lemma strip_chars (P : ascii → Prop) (p : ascii → bool) (s : string) :
  Forall P (chars_of s) → Forall P (chars_of (PyStr.strip p s)).
Proof.
  intros H. unfold PyStr.strip.
  destruct (lstrip_suffix p s) as [pre Hl].
  destruct (rstrip_prefix p (PyStr.lstrip p s)) as [post Hr].
  rewrite Hl, Hr, !chars_of_app in H.
  apply Forall_app in H as [_ H]. by apply Forall_app in H as [H _].
Qed.

Lemma strip_substring (p : ascii → bool) (sub s : string) :
  Substring sub (PyStr.strip p s) → Substring sub s.
Proof.
  intros (a & b & H). unfold PyStr.strip in H.
  destruct (lstrip_suffix p s) as [pre Hl].
  destruct (rstrip_prefix p (PyStr.lstrip p s)) as [post Hr].
  exists (pre +:+ a), (b +:+ post).
  rewrite Hl at 1. rewrite Hr, H. by rewrite !str_app_assoc.
Qed.

(** the first character of a stripped string is not one of those
    stripped, nor is the last *)
Lemma lstrip_head (p : ascii → bool) (s : string) (c : ascii) (t : string) :
  PyStr.lstrip p s = String c t → p c = false.
Proof.
  induction s as [|d s IH]; [done|]. cbn [PyStr.lstrip].
  destruct (p d) eqn:Hd; [exact IH | congruence].
Qed.

Lemma rstrip_head (p : ascii → bool) (s : string) (c : ascii) (t : string) :
  PyStr.rstrip p s = String c t → ∃ t', s = String c t'.
Proof.
  destruct s as [|d s]; [done|]. cbn [PyStr.rstrip].
  destruct (p d && _); [done|]. intros [= -> _]. by eexists.
Qed.

Lemma rstrip_last (p : ascii → bool) (s t : string) (c : ascii) :
  PyStr.rstrip p s = t +:+ String c "" → p c = false.
Proof.
  revert t. induction s as [|d s IH]; intros t.
  - by destruct t.
  - cbn [PyStr.rstrip].
    destruct (p d && PyStr.is_empty (PyStr.rstrip p s)) eqn:Hd.
    + by destruct t.
    + destruct t as [|e t].
      * rewrite str_app_nil. intros [= -> Hr]. rewrite Hr in Hd.
        by rewrite andb_true_r in Hd.
      * rewrite str_app_cons. intros [= -> Hr]. by apply (IH t).
Qed.

Lemma strip_head (p : ascii → bool) (s : string) (c : ascii) (t : string) :
  PyStr.strip p s = String c t → p c = false.
Proof.
  unfold PyStr.strip. intros H.
  apply rstrip_head in H as [t' H]. by apply lstrip_head in H.
Qed.

Lemma strip_last (p : ascii → bool) (s t : string) (c : ascii) :
  PyStr.strip p s = t +:+ String c "" → p c = false.
Proof. apply rstrip_last. Qed.

(** ... and a string that has no such character at its ends is left as
    it is *)
Lemma lstrip_id (p : ascii → bool) (s : string) :
  (∀ c t, s = String c t → p c = false) → PyStr.lstrip p s = s.
Proof.
  destruct s as [|c s]; [done|]. intros H. cbn [PyStr.lstrip].
  by rewrite (H c s eq_refl).
Qed.

Lemma rstrip_id (p : ascii → bool) (s : string) :
  (∀ t c, s = t +:+ String c "" → p c = false) → PyStr.rstrip p s = s.
Proof.
  induction s as [|c s IH]; [done|]. intros H. cbn [PyStr.rstrip].
  rewrite IH.
  - destruct s as [|d s]; [|by rewrite andb_false_r].
    by rewrite (H "" c eq_refl).
  - intros t d ->. apply (H (String c t) d). by rewrite str_app_cons.
Qed.

Lemma strip_id (p : ascii → bool) (s : string) :
  (∀ c t, s = String c t → p c = false) →
  (∀ t c, s = t +:+ String c "" → p c = false) →
  PyStr.strip p s = s.
Proof.
  intros H1 H2. unfold PyStr.strip. rewrite lstrip_id by done.
  by apply rstrip_id.
Qed.

Lemma replace_invalid_id (s : string) :
  Forall (fun c => sku_char c = true) (chars_of s) → replace_invalid s = s.
Proof.
  induction s as [|c s IH]; [done|]. intros H.
  apply Forall_cons in H as [Hc Hs]. unfold replace_invalid.
  cbn [PyStr.map]. rewrite Hc. f_equal. by apply IH.
Qed.

Lemma collapse_dashes_id (s : string) :
  PyStr.contains s "--" = false → collapse_dashes s = s.
Proof.
  induction s as [|c s IH]; [done|].
  rewrite contains_cons, prefix_two_dashes. intros H.
  apply orb_false_iff in H as [Hd Hs]. cbn [collapse_dashes].
  rewrite Hd. f_equal. by apply IH.
Qed.

(** the string before the last test of [_sanitize_sku] *)
Lemma stripped_well_formed (raw : string) :
  let s := PyStr.strip (Ascii.eqb "_")
             (PyStr.strip (Ascii.eqb "-")
                (collapse_dashes (replace_invalid raw))) in
  Forall (fun c => sku_char c = true) (chars_of s)
  ∧ ¬ Substring "--" s
  ∧ (∀ t, s ≠ "_" +:+ t)
  ∧ (∀ t, s ≠ t +:+ "_").
Proof.
  intros s. split; [|split; [|split]].
  - do 2 apply strip_chars. apply collapse_chars, replace_invalid_chars.
  - intros H. do 2 apply strip_substring in H.
    apply contains_spec in H. by rewrite collapse_no_double in H.
  - intros t H. by apply strip_head in H.
  - intros t H. by apply strip_last in H.
Qed.

Lemma sanitized_well_formed (raw_sku : string) :
  let sku := _sanitize_sku raw_sku in
  sku ≠ ""
  ∧ Forall (fun c => sku_char c = true) (chars_of sku)
  ∧ ¬ Substring "--" sku
  ∧ (∀ t, sku ≠ "_" +:+ t)
  ∧ (∀ t, sku ≠ t +:+ "_").
Proof.
  intros sku. subst sku. unfold _sanitize_sku.
  pose proof (stripped_well_formed raw_sku) as H. cbv zeta in H |- *.
  destruct (PyStr.strip _ _) as [|c s] eqn:E.
  - cbn [PyStr.is_empty]. split; [done|]. split; [by repeat constructor|].
    split; [by apply contains_false|].
    split; [done|]. intros [|a [|b [|d [|e t]]]]; done.
  - cbn [PyStr.is_empty]. split; [done | exact H].
Qed.

(** X1.  Whatever the input, the sanitized sku is not empty, is made of
    the characters [A-Za-z0-9_/-] only, has no two dashes in a row, and
    neither starts nor ends with an underscore. *)
Theorem sanitize_sku_well_formed (raw_sku : string) :
  let sku := _sanitize_sku raw_sku in
  sku ≠ ""
  ∧ Forall (fun c => sku_char c = true) (chars_of sku)
  ∧ ¬ Substring "--" sku
  ∧ (∀ t, sku ≠ "_" +:+ t)
  ∧ (∀ t, sku ≠ t +:+ "_").
Proof. apply sanitized_well_formed. Qed.

Lemma sanitize_sku_fixed (sku : string) :
  clean_sku sku → _sanitize_sku sku = sku.
Proof.
  intros (Hne & Hc & Hd & Hh & Hl). unfold _sanitize_sku.
  rewrite replace_invalid_id by done.
  rewrite collapse_dashes_id by (by apply contains_false).
  rewrite (strip_id (Ascii.eqb "-") sku).
  - rewrite strip_id; [by destruct sku | |].
    + intros c t E. destruct (Hh c t E) as [_ H].
      destruct (Ascii.eqb_spec "_" c); congruence.
    + intros t c E. destruct (Hl t c E) as [_ H].
      destruct (Ascii.eqb_spec "_" c); congruence.
  - intros c t E. destruct (Hh c t E) as [H _].
    destruct (Ascii.eqb_spec "-" c); congruence.
  - intros t c E. destruct (Hl t c E) as [H _].
    destruct (Ascii.eqb_spec "-" c); congruence.
Qed.

(** X2.  A clean sku is a fixed point of the sanitizer: a sku that is
    not empty, made of the characters of the class, without two dashes in
    a row and without a dash or an underscore at either end comes out as
    it went in. *)
Theorem sanitize_sku_fixed_point (sku : string) :
  clean_sku sku → _sanitize_sku sku = sku.
Proof. apply sanitize_sku_fixed. Qed.

(** X22.  The sanitizer is idempotent on every input whose sanitized
    form neither starts nor ends with a dash: a second pass then changes
    nothing. *)
Theorem sanitize_sku_idempotent_without_dash (raw_sku : string) :
  (∀ t, _sanitize_sku raw_sku ≠ "-" +:+ t) →
  (∀ t, _sanitize_sku raw_sku ≠ t +:+ "-") →
  _sanitize_sku (_sanitize_sku raw_sku) = _sanitize_sku raw_sku.
Proof.
  intros Hh Hl. apply sanitize_sku_fixed.
  destruct (sanitized_well_formed raw_sku) as (Hne & Hc & Hd & Hu & Hv).
  split; [exact Hne|]. split; [exact Hc|]. split; [exact Hd|]. split.
  - intros c t E. split; intros ->.
    + by apply (Hh t).
    + by apply (Hu t).
  - intros t c E. split; intros ->.
    + by apply (Hl t).
    + by apply (Hv t).
Qed.

(** a clean sku, from conditions that can be evaluated *)
Lemma clean_sku_check (s : string) :
  PyStr.is_empty s = false →
  forallb sku_char (chars_of s) = true →
  PyStr.contains s "--" = false →
  PyStr.strip (Ascii.eqb "-") s = s →
  PyStr.strip (Ascii.eqb "_") s = s →
  clean_sku s.
Proof.
  intros He Hc Hd H1 H2. split; [by destruct s|].
  split; [apply List.Forall_forall; by apply forallb_forall|].
  split; [by apply contains_false|]. split.
  - intros c t E. split; intros ->.
    + rewrite E in H1. by apply strip_head in H1.
    + rewrite E in H2. by apply strip_head in H2.
  - intros t c E. split; intros ->.
    + rewrite E in H1. by apply strip_last in H1.
    + rewrite E in H2. by apply strip_last in H2.
Qed.

(** a string that a strip leaves as it is does not end with the
    character stripped *)
Lemma not_ending_check (c : ascii) (s : string) :
  PyStr.rstrip (Ascii.eqb c) s = s → ∀ t, s ≠ t +:+ String c "".
Proof.
  intros H t E. rewrite E in H. apply rstrip_last in H.
  by rewrite Ascii.eqb_refl in H.
Qed.

(** ** Condition mapping *)

Lemma lower_empty (s : string) : PyStr.truthy s = false → PyStr.lower s = "".
Proof. by destruct s. Qed.

Lemma not_in_empty (sub : string) :
  sub ≠ "" → PyStr.contains "" sub = false.
Proof. by destruct sub. Qed.

(** C4.  The eBay condition is decided by the substrings of the
    lower-cased free-text condition, in the order "new", "like",
    "good" or "used", "parts", and is NEW when none occurs; the four
    examples of the specification follow. *)
Theorem condition_mapping (condition : string) :
  let c := PyStr.lower condition in
  (Substring "new" c → ebay_condition_of condition = "NEW")
  ∧ (¬ Substring "new" c → Substring "like" c →
     ebay_condition_of condition = "LIKE_NEW")
  ∧ (¬ Substring "new" c → ¬ Substring "like" c →
     Substring "good" c ∨ Substring "used" c →
     ebay_condition_of condition = "USED_GOOD")
  ∧ (¬ Substring "new" c → ¬ Substring "like" c →
     ¬ Substring "good" c → ¬ Substring "used" c → Substring "parts" c →
     ebay_condition_of condition = "FOR_PARTS_OR_NOT_WORKING")
  ∧ (¬ Substring "new" c → ¬ Substring "like" c →
     ¬ Substring "good" c → ¬ Substring "used" c → ¬ Substring "parts" c →
     ebay_condition_of condition = "NEW")
  ∧ ebay_condition_of "Used - Good" = "USED_GOOD"
  ∧ ebay_condition_of "Brand New" = "NEW"
  ∧ ebay_condition_of "For parts" = "FOR_PARTS_OR_NOT_WORKING"
  ∧ ebay_condition_of "???" = "NEW".
Proof.
  intros c. unfold ebay_condition_of. fold c.
  destruct (PyStr.truthy condition) eqn:Ht.
  - repeat split; try reflexivity;
      rewrite <- ?contains_false, <- ?contains_spec; intros;
      repeat match goal with
             | H : _ ∨ _ |- _ => destruct H
             | H : PyStr.contains c _ = _ |- _ => rewrite H; clear H
             end; simpl; rewrite ?orb_true_r; reflexivity.
  - assert (c = "") as -> by (by apply lower_empty).
    repeat split; try reflexivity;
      rewrite <- ?contains_false, <- ?contains_spec; intros;
      repeat match goal with
             | H : _ ∨ _ |- _ => destruct H
             | H : PyStr.contains "" _ = true |- _ => discriminate H
             end.
Qed.

(** ** Image selection *)

Lemma append_publishable_filter (acc urls : list string) :
  append_publishable acc urls = acc ++ List.filter publishable_url urls.
Proof.
  unfold append_publishable. revert acc.
  induction urls as [|u urls IH]; intros acc; simpl.
  - by rewrite app_nil_r.
  - rewrite IH. destruct (publishable_url u); [by rewrite <- app_assoc | done].
Qed.

Lemma filter_sublist {A} (p : A → bool) (l : list A) :
  List.filter p l `sublist_of` l.
Proof.
  induction l as [|x l IH]; simpl; [constructor|].
  destruct (p x); by constructor.
Qed.

Lemma publishable_url_spec (u : string) :
  publishable_url u = true
  ↔ (∃ rest, u = "http" +:+ rest)
    ∧ ¬ Substring "127.0.0.1" u ∧ ¬ Substring "localhost" u.
Proof.
  unfold publishable_url, PyStr.startswith.
  rewrite !andb_true_iff, !negb_true_iff, prefix_spec, !contains_false.
  tauto.
Qed.


(** ** Running handlers *)

Lemma run_bind {A C} (m : M W A) (k : A → M W C) (s : St W) :
  (m ≫= k) s
  = match m s with
    | (Ok a, s') => k a s'
    | (Raise e, s') => (Raise e, s')
    end.
Proof. reflexivity. Qed.

Lemma run_ret {A} (a : A) (s : St W) : (mret a : M W A) s = (Ok a, s).
Proof. reflexivity. Qed.

Lemma bind_ok {A C} (m : M W A) (k : A → M W C) (s s' : St W) (c : C) :
  (m ≫= k) s = (Ok c, s') →
  ∃ a s1, m s = (Ok a, s1) ∧ k a s1 = (Ok c, s').
Proof.
  rewrite run_bind. destruct (m s) as [[a|e] s1]; [eauto | discriminate].
Qed.

Lemma run_utcnow (s : St W) (now : Z) (w : W) :
  clock O (world s) = (now, w) →
  utcnow s = (Ok now, mkSt (stored s) (sess s) (added_links s)
                        (added_accounts s) w (trace s)).
Proof. intros H. unfold utcnow, with_world. by rewrite H. Qed.

Lemma run_http (r : HttpRequest) (s : St W) (res : Res HttpResponse) (w : W) :
  http_send O r (world s) = (res, w) →
  http r s = (res, mkSt (stored s) (sess s) (added_links s)
                     (added_accounts s) w (trace s ++ [EvHttp r])).
Proof. intros H. unfold http, external. by rewrite H. Qed.

(** ** Lists of rows *)

Lemma find_map_update {A} (p : A → bool) (c : A → bool) (f : A → A)
    (l : list A) (a : A) :
  (∀ r, p (f r) = p r) →
  List.find p l = Some a →
  List.find p (List.map (fun r => if c r then f r else r) l)
  = Some (if c a then f a else a).
Proof.
  intros Hp. induction l as [|r l IH]; simpl; [done|].
  destruct (p r) eqn:Hr.
  - intros [= ->]. destruct (c a); by rewrite ?Hp, Hr.
  - intros H. destruct (c r); rewrite ?Hp, Hr; auto.
Qed.

Lemma insert_accounts_app (l added : list MarketplaceAccount) :
  ∃ ext, insert_accounts l added = l ++ ext.
Proof.
  revert l. induction added as [|r added IH]; intros l; simpl.
  - exists []. by rewrite app_nil_r.
  - destruct (IH (l ++ [mkAccount (next_id (List.map a_id l)) (a_user_id r)
                         (a_marketplace r) (a_username r) (a_access_token r)
                         (a_refresh_token r) (a_token_expires_at r)]))
      as [ext ->].
    eexists. by rewrite <- app_assoc.
Qed.

Lemma find_app_Some {A} (p : A → bool) (l ext : list A) (a : A) :
  List.find p l = Some a → List.find p (l ++ ext) = Some a.
Proof.
  induction l as [|r l IH]; simpl; [done|]. by destruct (p r).
Qed.

#[local] Arguments Py.truthy : simpl never.
#[local] Arguments Py.get : simpl never.
#[local] Arguments Py.iter : simpl never.
#[local] Arguments py_int : simpl never.
#[local] Arguments py_len : simpl never.
#[local] Arguments to_text : simpl never.
#[local] Arguments fmt : simpl never.
#[local] Arguments PyStr.truthy : simpl never.
#[local] Arguments PyStr.contains : simpl never.
#[local] Arguments token_still_valid : simpl never.
#[local] Arguments refresh_request : simpl never.
#[local] Arguments insert_links : simpl never.
#[local] Arguments insert_accounts : simpl never.
#[local] Arguments seconds : simpl never.
#[local] Arguments minutes : simpl never.
#[local] Arguments Z.eqb : simpl nomatch.


(** ** The token life cycle *)

Ltac munfold :=
  cbv [mbind M_bind mret M_ret lift raise try_except try_finally ignore_errors
       get_state log with_world set_sess utcnow external http act ask read
       response_json
       Db.first_listing Db.first_link Db.first_account Db.all_links
       Db.images_of Db.update_listing Db.update_account Db.delete_account
       Db.add_link Db.add_account Db.update_link Db.read_link Db.commit
       Db.rollback].

Lemma get_valid_token_run (user : User) (account : MarketplaceAccount)
    (s : St W) (now : Z) (w1 : W) :
  connected user account s →
  clock O (world s) = (now, w1) →
  get_valid_ebay_access_token user s
  = if token_still_valid account now
    then (Ok (default "" (a_access_token account)), at_world s w1 [])
    else refresh_access_token account (at_world s w1 []).
Proof.
  intros [Hf Ht] Hc.
  unfold get_valid_ebay_access_token. munfold.
  rewrite Hf; cbn [negb]; rewrite Ht; cbn [negb]; rewrite Hc.
  unfold at_world. rewrite app_nil_r. cbn.
  by destruct (token_still_valid account now).
Qed.

Lemma refresh_run (account : MarketplaceAccount) (s : St W) (rt : string)
    (r : Res HttpResponse) (w2 : W) :
  a_refresh_token account = Some rt → PyStr.truthy rt = true →
  http_send O (refresh_request rt) (world s) = (r, w2) →
  let s2 := at_world s w2 [EvHttp (refresh_request rt)] in
  (∀ e, r = Raise e → refresh_access_token account s = (Raise e, s2))
  ∧ (∀ resp, r = Ok resp → status_code resp ≠ 200 →
       refresh_access_token account s
       = (Raise (EbayAuthError
                   ("Failed to refresh eBay token: "
                    +:+ pretty (status_code resp) +:+ " " +:+ text resp)),
          s2))
  ∧ (∀ resp body tok exp secs now' w3,
       r = Ok resp → status_code resp = 200 →
       json_body resp = Some body →
       Py.get body "access_token" JNull = Ok tok →
       Py.truthy tok = true →
       Py.get body "expires_in" (JNum 7200) = Ok exp →
       py_int exp = Ok secs →
       clock O w2 = (now', w3) →
       refresh_access_token account s
       = (Ok (default "" (to_text B tok)),
          (Db.commit
             (mkSt (stored s)
                (set_accounts (sess s)
                   (List.map
                      (fun r => if a_id r =? a_id account
                                then set_token_expires_at
                                       (Some (now' + seconds secs)) r
                                else r)
                      (List.map
                         (fun r => if a_id r =? a_id account
                                   then set_access_token (to_text B tok) r
                                   else r)
                         (accounts (sess s)))))
                (added_links s) (added_accounts s) w3
                (trace s ++ [EvHttp (refresh_request rt)]))).2)).
Proof.
  intros Hrt Hrtt Hh s2. unfold refresh_access_token. munfold.
  rewrite Hrt. cbn [PyStr.truthy_opt default from_option id negb].
  rewrite Hrtt; cbn [negb]; rewrite Hh.
  split; [|split].
  - by intros e ->.
  - intros resp -> Hne. by rewrite (proj2 (Z.eqb_neq _ _) Hne).
  - intros resp body tok exp secs now' w3 -> H200 Hb Htok Htt Hexp Hsecs Hc'.
    rewrite H200; cbn; rewrite Hb, Htok, Hexp, Htt; cbn. by rewrite Hc', Hsecs.
Qed.


(** ** Frames: what a handler leaves related *)

Section Frames.
Variable R : St W → St W → Prop.
Variable allowed : event → Prop.
Hypothesis HF : frame R allowed.
Hypothesis allowed_not_fill : ∀ e, not_fill e → allowed e.
Hypothesis allowed_fill : ∀ sel v,
  sel ≠ original_price_selector → sel ≠ current_price_selector →
  allowed (EvAction (Fill sel v)).

Lemma steps_ret {A} (a : A) : steps R (mret a : M W A).
Proof. intros s. apply (frame_refl _ _ HF). Qed.

Lemma steps_raise {A} (e : exn) : steps R (raise e : M W A).
Proof. intros s. apply (frame_refl _ _ HF). Qed.

Lemma steps_lift {A} (r : Res A) : steps R (lift r : M W A).
Proof. intros s. apply (frame_refl _ _ HF). Qed.

Lemma steps_bind {A C} (m : M W A) (k : A → M W C) :
  steps R m → (∀ a, steps R (k a)) → steps R (m ≫= k).
Proof.
  intros Hm Hk s. rewrite run_bind. specialize (Hm s).
  destruct (m s) as [[a|e] s1]; [|done].
  eapply (frame_trans _ _ HF); [exact Hm | apply Hk].
Qed.

Lemma steps_try_except {A} (m : M W A) (h : exn → M W A) :
  steps R m → (∀ e, steps R (h e)) → steps R (try_except m h).
Proof.
  intros Hm Hh s. unfold try_except. specialize (Hm s).
  destruct (m s) as [[a|e] s1]; [done|].
  eapply (frame_trans _ _ HF); [exact Hm | apply Hh].
Qed.

Lemma steps_try_finally {A} (m : M W A) (f : M W unit) :
  steps R m → steps R f → steps R (try_finally m f).
Proof.
  intros Hm Hf s. unfold try_finally. specialize (Hm s).
  destruct (m s) as [r s1]. specialize (Hf s1).
  destruct (f s1) as [[[]|e] s2]; by eapply (frame_trans _ _ HF).
Qed.

Lemma steps_ignore_errors (m : M W unit) :
  steps R m → steps R (ignore_errors m).
Proof. intros Hm. apply steps_try_except; [done | intros; apply steps_ret]. Qed.

Lemma steps_for_each {A} (l : list A) (body : A → M W unit) :
  (∀ x, steps R (body x)) → steps R (for_each l body).
Proof.
  intros Hb. induction l as [|x l IH]; simpl; [apply steps_ret|].
  apply steps_bind; [apply Hb | done].
Qed.

Lemma steps_get_state : steps R (get_state : M W (St W)).
Proof. intros s. apply (frame_refl _ _ HF). Qed.

Lemma steps_utcnow : steps R utcnow.
Proof.
  intros s. unfold utcnow, with_world. destruct (clock O (world s)) as [now w].
  apply (frame_world _ _ HF).
Qed.

Lemma steps_external {A} (ev : event) (f : W → Res A * W) :
  allowed ev → steps R (external ev f).
Proof.
  intros Hev s. unfold external. destruct (f (world s)) as [r w]. cbn.
  eapply (frame_trans _ _ HF); [apply (frame_world _ _ HF s w)|].
  apply (frame_event _ _ HF (mkSt _ _ _ _ _ _) ev Hev).
Qed.

Lemma steps_update_account id f : steps R (Db.update_account id f).
Proof. intros s. apply (frame_accounts _ _ HF). Qed.

Lemma steps_commit : steps R (Db.commit : M W unit).
Proof.
  intros s.
  eapply (frame_trans _ _ HF); [apply (frame_commit _ _ HF s)|].
  apply (frame_event _ _ HF (mkSt _ _ _ _ _ _) EvCommit).
  by apply allowed_not_fill.
Qed.

Lemma steps_http (r : HttpRequest) : steps R (http r).
Proof. apply steps_external. by apply allowed_not_fill. Qed.

Lemma steps_ask (p : probe) : steps R (ask p).
Proof. apply steps_external. by apply allowed_not_fill. Qed.

Lemma steps_read (r : reading) : steps R (read r).
Proof. apply steps_external. by apply allowed_not_fill. Qed.

Lemma steps_act (a : action) : allowed (EvAction a) → steps R (act a).
Proof. apply steps_external. Qed.

Lemma steps_response_json (resp : HttpResponse) : steps R (response_json resp).
Proof.
  unfold response_json. destruct (json_body resp);
    [apply steps_ret | apply steps_raise].
Qed.

Create HintDb steps discriminated.
#[local] Hint Resolve steps_utcnow steps_update_account steps_commit
  steps_http steps_ask steps_read steps_response_json : steps.

Ltac steps_one :=
  lazymatch goal with
  | |- steps _ (mret _) => apply steps_ret
  | |- steps _ (raise _) => apply steps_raise
  | |- steps _ (lift _) => apply steps_lift
  | |- steps _ get_state => apply steps_get_state
  | |- steps _ (_ ≫= _) => apply steps_bind; [|intro]
  | |- steps _ (try_except _ _) => apply steps_try_except; [|intro]
  | |- steps _ (try_finally _ _) => apply steps_try_finally
  | |- steps _ (ignore_errors _) => apply steps_ignore_errors
  | |- steps _ (for_each _ _) => apply steps_for_each; intro
  | |- steps _ (act _) => apply steps_act; apply allowed_not_fill; exact I
  | |- steps _ (match ?x with _ => _ end) => destruct x
  | |- steps _ (if ?b then _ else _) => destruct b
  | |- steps _ (let _ := _ in _) => cbv zeta
  | |- _ => solve [auto with steps nocore]
  end.

Ltac steps_go := repeat steps_one.

Lemma steps_first_listing p : steps R (Db.first_listing p : M W _).
Proof. unfold Db.first_listing. steps_go. Qed.
#[local] Hint Resolve steps_first_listing : steps.
Lemma steps_first_link p : steps R (Db.first_link p : M W _).
Proof. unfold Db.first_link. steps_go. Qed.
#[local] Hint Resolve steps_first_link : steps.
Lemma steps_first_account p : steps R (Db.first_account p : M W _).
Proof. unfold Db.first_account. steps_go. Qed.
#[local] Hint Resolve steps_first_account : steps.
Lemma steps_all_links p : steps R (Db.all_links p : M W _).
Proof. unfold Db.all_links. steps_go. Qed.
#[local] Hint Resolve steps_all_links : steps.
Lemma steps_images_of lid : steps R (Db.images_of lid : M W _).
Proof. unfold Db.images_of. steps_go. Qed.
#[local] Hint Resolve steps_images_of : steps.

Lemma steps_refresh_access_token account :
  steps R (refresh_access_token account).
Proof. unfold refresh_access_token. steps_go. Qed.
#[local] Hint Resolve steps_refresh_access_token : steps.

Lemma steps_get_valid_token user : steps R (get_valid_ebay_access_token user).
Proof.
  unfold get_valid_ebay_access_token. steps_go.
Qed.
#[local] Hint Resolve steps_get_valid_token : steps.

Lemma steps_ebay_request method user path params body :
  steps R (ebay_request method user path params body).
Proof. unfold ebay_request. steps_go. Qed.
#[local] Hint Resolve steps_ebay_request : steps.

Ltac by_steps f := unfold f; steps_go.

Lemma steps_ebay_get user path params : steps R (ebay_get user path params).
Proof. by_steps ebay_get. Qed.
#[local] Hint Resolve steps_ebay_get : steps.
Lemma steps_ebay_post user path body : steps R (ebay_post user path body).
Proof. by_steps ebay_post. Qed.
#[local] Hint Resolve steps_ebay_post : steps.
Lemma steps_ebay_put user path body : steps R (ebay_put user path body).
Proof. by_steps ebay_put. Qed.
#[local] Hint Resolve steps_ebay_put : steps.

Lemma steps_owned_listing lid user : steps R (_get_owned_listing_or_404 lid user).
Proof. by_steps _get_owned_listing_or_404. Qed.
#[local] Hint Resolve steps_owned_listing : steps.

Lemma steps_opted_in user : steps R (_ensure_business_policies_opted_in user).
Proof. by_steps _ensure_business_policies_opted_in. Qed.
#[local] Hint Resolve steps_opted_in : steps.

Lemma steps_first_existing user path lk ik :
  steps R (first_existing user path lk ik).
Proof. by_steps first_existing. Qed.
#[local] Hint Resolve steps_first_existing : steps.

Lemma steps_try_shipping_services user codes :
  steps R (try_shipping_services user codes).
Proof. induction codes as [|c codes IH]; simpl; steps_go. Qed.
#[local] Hint Resolve steps_try_shipping_services : steps.

Lemma steps_create_or_reuse user path payload lk ik :
  steps R (create_or_reuse user path payload lk ik).
Proof. by_steps create_or_reuse. Qed.
#[local] Hint Resolve steps_create_or_reuse : steps.

Lemma steps_create_default_policies user :
  steps R (_create_default_policies user).
Proof. by_steps _create_default_policies. Qed.
#[local] Hint Resolve steps_create_default_policies : steps.

Lemma steps_policy_list resp key : steps R (policy_list resp key).
Proof. by_steps policy_list. Qed.
#[local] Hint Resolve steps_policy_list : steps.

Lemma steps_get_ebay_policies user : steps R (_get_ebay_policies user).
Proof. by_steps _get_ebay_policies. Qed.
#[local] Hint Resolve steps_get_ebay_policies : steps.

Lemma steps_ensure_merchant_location user :
  steps R (_ensure_merchant_location user).
Proof. by_steps _ensure_merchant_location. Qed.
#[local] Hint Resolve steps_ensure_merchant_location : steps.

Lemma steps_collect_image_urls base listing :
  steps R (collect_image_urls base listing).
Proof. by_steps collect_image_urls. Qed.
#[local] Hint Resolve steps_collect_image_urls : steps.

Lemma steps_put_inventory_item user sku payload :
  steps R (put_inventory_item user sku payload).
Proof. by_steps put_inventory_item. Qed.
#[local] Hint Resolve steps_put_inventory_item : steps.

Lemma steps_create_offer user payload : steps R (create_offer user payload).
Proof. by_steps create_offer. Qed.
#[local] Hint Resolve steps_create_offer : steps.

Lemma steps_get_poshmark_credentials user :
  steps R (get_poshmark_credentials user).
Proof. by_steps get_poshmark_credentials. Qed.
#[local] Hint Resolve steps_get_poshmark_credentials : steps.

Lemma steps_wait_and_fill sel timeout v :
  sel ≠ original_price_selector → sel ≠ current_price_selector →
  steps R (wait_and_fill sel timeout v).
Proof.
  intros H1 H2. unfold wait_and_fill. steps_go.
  apply steps_act. by apply allowed_fill.
Qed.

Lemma steps_wait_and_click sel : steps R (wait_and_click sel).
Proof. by_steps wait_and_click. Qed.
#[local] Hint Resolve steps_wait_and_click : steps.

Lemma steps_login_to_poshmark username password :
  steps R (login_to_poshmark username password).
Proof.
  unfold login_to_poshmark. steps_go;
    apply steps_wait_and_fill; intros H; vm_compute in H; discriminate H.
Qed.
#[local] Hint Resolve steps_login_to_poshmark : steps.

Lemma steps_open_listing_form : steps R open_listing_form.
Proof. by_steps open_listing_form. Qed.
#[local] Hint Resolve steps_open_listing_form : steps.

Lemma steps_download_image base img : steps R (download_image base img).
Proof. by_steps download_image. Qed.
#[local] Hint Resolve steps_download_image : steps.

Lemma steps_gather_downloads base imgs : steps R (gather_downloads base imgs).
Proof. induction imgs as [|i imgs IH]; simpl; steps_go. Qed.
#[local] Hint Resolve steps_gather_downloads : steps.

Lemma steps_upload_images imgs base : steps R (upload_images imgs base).
Proof. by_steps upload_images. Qed.
#[local] Hint Resolve steps_upload_images : steps.

Lemma steps_submit_and_confirm : steps R submit_and_confirm.
Proof. by_steps submit_and_confirm. Qed.
#[local] Hint Resolve steps_submit_and_confirm : steps.

Lemma steps_poshmark_session_check : steps R poshmark_session_check.
Proof. by_steps poshmark_session_check. Qed.
#[local] Hint Resolve steps_poshmark_session_check : steps.

Lemma steps_fill_listing_details listing :
  allowed (EvAction (Fill original_price_selector (price_text listing))) →
  allowed (EvAction (Fill current_price_selector (price_text listing))) →
  steps R (fill_listing_details listing).
Proof.
  intros H1 H2. unfold fill_listing_details. steps_go;
    apply steps_act; try assumption;
    apply allowed_fill; intros H; vm_compute in H; discriminate H.
Qed.

Lemma steps_publish_listing_to_poshmark listing imgs base :
  allowed (EvAction (Fill original_price_selector (price_text listing))) →
  allowed (EvAction (Fill current_price_selector (price_text listing))) →
  steps R (publish_listing_to_poshmark listing imgs base).
Proof.
  intros H1 H2. pose proof (steps_fill_listing_details listing H1 H2).
  unfold publish_listing_to_poshmark. steps_go.
Qed.

Lemma steps_publish_listing user listing imgs base :
  allowed (EvAction (Fill original_price_selector (price_text listing))) →
  allowed (EvAction (Fill current_price_selector (price_text listing))) →
  steps R (publish_listing user listing imgs base).
Proof.
  intros H1 H2.
  pose proof (steps_publish_listing_to_poshmark listing imgs base H1 H2).
  unfold publish_listing. steps_go.
Qed.

(** the three handlers keep [R] when their own writes do *)

Lemma steps_prepare_listing lid base user :
  (∀ l, steps R (assign_sku user l)) → steps R (prepare_listing lid base user).
Proof. intros H. unfold prepare_listing. steps_go. Qed.

Lemma steps_publish_to_ebay lid base user :
  (∀ l, steps R (assign_sku user l)) →
  (∀ l sku o i, steps R (record_published_link l sku o i)) →
  steps R (publish_to_ebay lid base user).
Proof.
  intros H1 H2. pose proof (steps_prepare_listing lid base user H1).
  unfold publish_to_ebay. steps_go.
Qed.

Lemma steps_create_inventory_and_offer lid base user :
  (∀ l, steps R (assign_sku user l)) →
  (∀ l sku o, steps R (record_prepared_link l sku o)) →
  steps R (create_inventory_and_offer lid base user).
Proof.
  intros H1 H2. pose proof (steps_prepare_listing lid base user H1).
  unfold create_inventory_and_offer. steps_go.
Qed.

Lemma steps_publish_to_poshmark lid base user :
  (∀ v, allowed (EvAction (Fill original_price_selector v))
        ∧ allowed (EvAction (Fill current_price_selector v))) →
  (∀ l r, steps R (record_poshmark_link l r)) →
  steps R (publish_to_poshmark lid base user).
Proof.
  intros H1 H2.
  assert (∀ l imgs b, steps R (publish_listing user l imgs b)) as H3.
  { intros l imgs b. apply steps_publish_listing; apply H1. }
  unfold publish_to_poshmark. steps_go.
Qed.

End Frames.

(** ** The relations kept by the clients *)

Lemma frame_keeps_links : frame keeps_links (fun _ => True).
Proof.
  split; unfold keeps_links, links_clean; cbn; try tauto.
  - intros s1 s2 s3 H12 H23 H1. destruct (H12 H1) as [H2 E2].
    destruct (H23 H2) as [H3 E3]. split; [done | congruence].
  - intros s [-> ->]. done.
Qed.

Lemma frame_keeps_rows : frame keeps_rows (fun _ => True).
Proof.
  split; unfold keeps_rows, rows_clean, links_clean; cbn; try tauto.
  - intros s1 s2 s3 H12 H23 H1. destruct (H12 H1) as (H2 & E2 & E2').
    destruct (H23 H2) as (H3 & E3 & E3'). split; [done | split; congruence].
  - intros s [[-> ->] ->]. done.
Qed.

Lemma keeps_links_single (s s' : St W) : keeps_links s s' → keeps_single s s'.
Proof.
  intros H Hc. destruct (H Hc) as [Hc' E]. split; [done|].
  intros lid mk. unfold link_rows. by rewrite E.
Qed.

Lemma frame_keeps_single : frame keeps_single (fun _ => True).
Proof.
  pose proof frame_keeps_links as [Hr Ht Hw He Ha Hc].
  split; try (intros; apply keeps_links_single; auto; fail).
  intros s1 s2 s3 H12 H23 H1. destruct (H12 H1) as [H2 E2].
  destruct (H23 H2) as [H3 E3]. split; [done | auto].
Qed.

Lemma frame_emits (P : event → Prop) : frame (emits P) P.
Proof.
  split; unfold emits; cbn.
  - intros s. exists []. by rewrite app_nil_r.
  - intros s1 s2 s3 (e1 & -> & F1) (e2 & -> & F2).
    exists (e1 ++ e2). rewrite app_assoc. split; [done | by apply Forall_app].
  - intros s w. exists []. by rewrite app_nil_r.
  - intros s e He. exists [e]. split; [done | by constructor].
  - intros s accs. exists []. by rewrite app_nil_r.
  - intros s. exists []. by rewrite app_nil_r.
Qed.

(** ** Disconnecting an account *)

Lemma find_filter_negb {A} (p : A → bool) (l : list A) :
  List.find p (List.filter (fun a => negb (p a)) l) = None.
Proof.
  induction l as [|a l IH]; simpl; [done|].
  destruct (p a) eqn:Hp; simpl; [done | by rewrite Hp].
Qed.

Lemma filter_filter_negb {A} (p : A → bool) (l : list A) :
  List.filter p (List.filter (fun a => negb (p a)) l) = [].
Proof.
  induction l as [|a l IH]; simpl; [done|].
  destruct (p a) eqn:Hp; simpl; [done | by rewrite Hp].
Qed.

Lemma find_None_filter {A} (p : A → bool) (l : list A) :
  List.find p l = None → List.filter p l = [].
Proof.
  induction l as [|a l IH]; simpl; [done|]. by destruct (p a).
Qed.

Lemma find_None_filter_negb {A} (p : A → bool) (l : list A) :
  List.find p l = None → List.filter (fun a => negb (p a)) l = l.
Proof.
  induction l as [|a l IH]; simpl; [done|].
  destruct (p a); simpl; [done | intros H; by rewrite IH].
Qed.

Lemma NoDup_map_eq {A} (f : A → Z) (l : list A) (x y : A) :
  NoDup (List.map f l) → In x l → In y l → f x = f y → x = y.
Proof.
  induction l as [|a l IH]; simpl; [done|].
  rewrite NoDup_cons. intros [Hn Hd] [->|Hx] [->|Hy] E; auto.
  - destruct Hn. rewrite E. apply list_elem_of_In, in_map, Hy.
  - destruct Hn. rewrite <- E. apply list_elem_of_In, in_map, Hx.
Qed.

Lemma filter_one_eq {A} (p : A → bool) (l : list A) (x y : A) :
  (length (List.filter p l) ≤ 1)%nat →
  In x l → In y l → p x = true → p y = true → x = y.
Proof.
  induction l as [|a l IH]; simpl; [done|].
  destruct (p a) eqn:Hp; simpl.
  - intros Hl. assert (List.filter p l = []) as Hnil.
    { destruct (List.filter p l); [done | simpl in Hl; lia]. }
    assert (∀ z, In z l → p z = true → False) as Hno.
    { intros z Hz Hpz. assert (In z (List.filter p l)) as Hin
        by (by apply filter_In). by rewrite Hnil in Hin. }
    intros [->|Hx] [->|Hy] Hpx Hpy; auto; exfalso; eauto.
  - intros Hl [->|Hx] [->|Hy] Hpx Hpy; auto; congruence.
Qed.

Lemma delete_first_is_delete_pair (p : MarketplaceAccount → bool)
    (l : list MarketplaceAccount) (a : MarketplaceAccount) :
  List.find p l = Some a →
  (length (List.filter p l) ≤ 1)%nat →
  NoDup (List.map a_id l) →
  List.filter (fun r => negb (a_id r =? a_id a)) l
  = List.filter (fun r => negb (p r)) l.
Proof.
  intros Hf Hl Hd. apply List.filter_ext_in. intros r Hr. f_equal.
  destruct (List.find_some _ _ Hf) as [Ha Hpa].
  destruct (p r) eqn:Hpr.
  - rewrite (filter_one_eq p l r a); auto. apply Z.eqb_refl.
  - apply Z.eqb_neq. intros E.
    rewrite (NoDup_map_eq a_id l r a) in Hpr; auto. congruence.
Qed.

Lemma insert_links_nil l : insert_links l [] = l.
Proof. reflexivity. Qed.

Lemma insert_accounts_nil l : insert_accounts l [] = l.
Proof. reflexivity. Qed.

Lemma disconnect_run (marketplace message : string) (user : User) (s : St W) :
  run_request (disconnect marketplace message user) s
  = (Ok (JObj [("message", JStr message)]),
     match List.find (is_account_of (u_id user) marketplace)
                     (accounts (stored s)) with
     | None => open_session s
     | Some a =>
         let t := set_accounts (stored s)
                    (List.filter (fun r => negb (a_id r =? a_id a))
                                 (accounts (stored s))) in
         mkSt t t [] [] (world s) (trace s ++ [EvCommit])
     end).
Proof.
  unfold run_request, open_session, disconnect. munfold. cbn.
  destruct (List.find _ _) as [a|]; cbn; [|done].
  by rewrite insert_links_nil, insert_accounts_nil.
Qed.

(** C10.  Disconnecting never raises: with or without an account row it
    answers with the same message.  When the user has at most one row for
    the marketplace (and primary keys are unique) that row is deleted and
    every other row kept, and a second disconnect answers the same and
    changes nothing. *)
Theorem disconnect_idempotent (marketplace message : string) (user : User)
    (s : St W) :
  let handler := disconnect marketplace message user in
  let reply := JObj [("message", JStr message)] in
  let mine := is_account_of (u_id user) marketplace in
  (run_request handler s).1 = Ok reply
  ∧ ((length (List.filter mine (accounts (stored s))) ≤ 1)%nat →
     NoDup (List.map a_id (accounts (stored s))) →
     ∃ s1,
       run_request handler s = (Ok reply, s1)
       ∧ accounts (stored s1)
         = List.filter (fun a => negb (mine a)) (accounts (stored s))
       ∧ List.filter mine (accounts (stored s1)) = []
       ∧ listings (stored s1) = listings (stored s)
       ∧ links (stored s1) = links (stored s)
       ∧ run_request handler s1 = (Ok reply, s1))
  ∧ poshmark_disconnect = disconnect "poshmark" "Poshmark account disconnected"
  ∧ ebay_disconnect = disconnect "ebay" "Disconnected".
Proof.
  intros handler reply mine. split; [|split; [|done]].
  - unfold handler. by rewrite disconnect_run.
  - intros Hl Hd. unfold handler. rewrite disconnect_run. fold mine.
    eexists. split; [reflexivity|].
    assert (∀ t w tr, List.find mine (accounts t) = None →
              run_request (disconnect marketplace message user)
                          (mkSt t t [] [] w tr)
              = (Ok reply, mkSt t t [] [] w tr)) as Hnone.
    { intros t w tr Hn. rewrite disconnect_run. cbn. fold mine. by rewrite Hn. }
    destruct (List.find mine (accounts (stored s))) as [a|] eqn:Hf; cbn.
    + rewrite (delete_first_is_delete_pair mine _ a Hf Hl Hd).
      split; [done|]. split; [apply filter_filter_negb|].
      split; [done|]. split; [done|].
      apply Hnone. apply find_filter_negb.
    + rewrite (find_None_filter_negb _ _ Hf). split; [done|].
      split; [by apply find_None_filter|].
      split; [done|]. split; [done|]. by apply Hnone.
Qed.

(** ** Publishing to Poshmark without images *)

(** C8.  A publish request to the browser-based marketplace for a
    listing without stored images fails at once, with the 400 error
    "At least one image is required" when the caller owns the listing (and
    with 404 when not): nothing is written and no effect at all is
    performed, so no browser session is created. *)
Theorem publish_to_poshmark_without_images (listing_id : Z)
    (request_base_url : string) (current_user : User) (s : St W) :
  List.filter (fun i => img_listing_id i =? listing_id) (images (stored s)) = [] →
  let owned := fun l => (l_id l =? listing_id)
                        && (l_owner_id l =? u_id current_user) in
  ∃ e s',
    run_request (publish_to_poshmark listing_id request_base_url current_user) s
    = (Raise e, s')
    ∧ e = match List.find owned (listings (stored s)) with
          | Some _ => HTTPException 400 (JStr "At least one image is required")
          | None => HTTPException 404 (JStr "Listing not found")
          end
    ∧ stored s' = stored s
    ∧ trace s' = trace s
    ∧ world s' = world s.
Proof.
  intros Himg owned.
  unfold run_request, open_session, publish_to_poshmark,
    _get_owned_listing_or_404, not_found.
  munfold. cbn. fold owned.
  destruct (List.find owned (listings (stored s))); cbn.
  - rewrite Himg. cbn. eauto 10.
  - eauto 10.
Qed.

(** ** The fields of the Poshmark form *)

Lemma try_except_ok {A} (m : M W A) (h : exn → M W A) (s s' : St W) (a : A) :
  (∀ e s1, is_ok (h e s1).1 = false) →
  try_except m h s = (Ok a, s') → m s = (Ok a, s').
Proof.
  intros Hh. unfold try_except. destruct (m s) as [[x|e] s1]; [done|].
  intros H. specialize (Hh e s1). by rewrite H in Hh.
Qed.

Lemma seq_ok {A} (m : M W unit) (k : M W A) (s s' : St W) (a : A) :
  (m ;; k) s = (Ok a, s') → ∃ s1, m s = (Ok tt, s1) ∧ k s1 = (Ok a, s').
Proof.
  intros H. apply bind_ok in H as ([] & s1 & H1 & H2). eauto.
Qed.

Lemma fill_listing_details_ok (listing : Listing) (s s' : St W) :
  fill_listing_details listing s = (Ok tt, s') →
  trace s'
  = trace s
    ++ [ EvAction (Fill title_selector
                     (if PyStr.truthy (l_title listing) then l_title listing
                      else "Untitled"));
         EvAction (Fill description_selector
                     (PyStr.or_else (l_description listing) "No description"));
         EvAction (Fill original_price_selector (price_text listing));
         EvAction (Fill current_price_selector (price_text listing)) ].
Proof.
  unfold fill_listing_details. munfold.
  repeat (destruct (do_action O _ _) as [[[]|?] ?]; cbn; [|discriminate]).
  intros [= <-]. cbn. by rewrite <- !app_assoc.
Qed.

Lemma int_of_price_floor (cents : Z) :
  0 ≤ cents →
  100 * int_of_price cents ≤ cents < 100 * (int_of_price cents + 1).
Proof.
  intros H. unfold int_of_price. rewrite Z.quot_div_nonneg by lia.
  pose proof (Z.div_mod cents 100). pose proof (Z.mod_pos_bound cents 100).
  lia.
Qed.

(** C9 (as amended).  For a listing with a non-negative price, every
    filling of one of the two price fields during
    [publish_listing_to_poshmark] carries the same text, the decimal
    writing of the price truncated to an integer (the greatest integer not
    above the price); when the function returns, both fields have been
    filled with it, after the title and the description. *)
Theorem price_fields_truncated (listing : Listing)
    (listing_images : list ListingImage) (base_url : string) (s : St W) :
  0 ≤ l_price listing →
  ∃ k, 100 * k ≤ l_price listing < 100 * (k + 1)
    ∧ price_text listing = pretty k
    ∧ emits (price_fill_ok (pretty k)) s
        (publish_listing_to_poshmark listing listing_images base_url s).2
    ∧ (∀ result s',
         publish_listing_to_poshmark listing listing_images base_url s
         = (Ok result, s') →
         ∃ before after title description,
           trace s'
           = trace s ++ before
             ++ [ EvAction (Fill title_selector title);
                  EvAction (Fill description_selector description);
                  EvAction (Fill original_price_selector (pretty k));
                  EvAction (Fill current_price_selector (pretty k)) ]
             ++ after).
Proof.
  intros Hpos. exists (int_of_price (l_price listing)).
  split; [by apply int_of_price_floor|]. split; [done|]. fold (price_text listing).
  split.
  - apply (steps_publish_listing_to_poshmark _ _ (frame_emits _)).
    + intros e He sel v' -> _. done.
    + intros sel v H1 H2 sel' v' [= -> ->] [?|?]; done.
    + by intros sel v' [= _ ->] _.
    + by intros sel v' [= _ ->] _.
  - intros result s' Hrun. unfold publish_listing_to_poshmark in Hrun.
    apply try_except_ok in Hrun.
    2:{ intros e s1. munfold. by destruct (do_action O _ _) as [[[]|?] ?]. }
    apply bind_ok in Hrun as ([] & s1 & H1 & Hrun).
    apply bind_ok in Hrun as ([] & s2 & H2 & Hrun).
    apply bind_ok in Hrun as ([] & s3 & H3 & H4).
    pose proof (steps_open_listing_form _ _ (frame_emits (λ _, True))
                  (λ _ _, I) s) as (e1 & E1 & _).
    pose proof (steps_upload_images _ _ (frame_emits (λ _, True))
                  (λ _ _, I) listing_images base_url s1) as (e2 & E2 & _).
    pose proof (steps_submit_and_confirm _ _ (frame_emits (λ _, True))
                  (λ _ _, I) s3) as (e4 & E4 & _).
    rewrite H1 in E1. rewrite H2 in E2. rewrite H4 in E4. cbn in E1, E2, E4.
    apply fill_listing_details_ok in H3.
    exists (e1 ++ e2), e4. eexists _, _.
    rewrite E4, H3, E2, E1. by rewrite <- !app_assoc.
Qed.

(** ** The REST pipeline before its first remote write *)

Lemma owned_listing_run (listing_id : Z) (user : User) (s s' : St W)
    (listing : Listing) :
  _get_owned_listing_or_404 listing_id user s = (Ok listing, s') →
  s' = s ∧ l_id listing = listing_id.
Proof.
  unfold _get_owned_listing_or_404. munfold.
  destruct (List.find _ _) as [l|] eqn:Hf; [|discriminate].
  intros [= <- <-]. split; [done|].
  apply List.find_some in Hf as [_ Hp]. apply andb_true_iff in Hp as [Hp _].
  by apply Z.eqb_eq.
Qed.

Lemma assign_sku_run (user : User) (listing : Listing) (s : St W) :
  rows_clean s →
  ∃ sku listing' s',
    assign_sku user listing s = (Ok (sku, listing'), s')
    ∧ l_id listing' = l_id listing
    ∧ rows_clean s'
    ∧ links (stored s') = links (stored s)
    ∧ (listings (stored s') = listings (stored s)
       ∨ listings (stored s')
         = List.map (fun l => if l_id l =? l_id listing
                              then set_listing_sku (Some sku) l else l)
                    (listings (stored s))).
Proof.
  intros [[Hl Ha] Hls]. unfold assign_sku. cbv zeta.
  destruct (bool_decide _).
  - munfold. cbn. eexists _, _, _. split; [reflexivity|]. cbn.
    rewrite Ha, Hl, Hls. repeat split. by right.
  - eexists _, _, _. split; [reflexivity|]. repeat split; auto.
Qed.

Lemma steps_assign_sku_links (user : User) (listing : Listing) :
  steps keeps_links (assign_sku user listing).
Proof.
  intros s [Hl Ha]. unfold assign_sku. cbv zeta.
  destruct (bool_decide _); [|done].
  munfold. cbn. by rewrite Ha, Hl.
Qed.


(** ** One link row per pair *)

Lemma keeps_keys_setters :
  (∀ v, keeps_keys (set_status v)) ∧ (∀ v, keeps_keys (set_external_item_id v))
  ∧ (∀ v, keeps_keys (set_sku v)) ∧ (∀ v, keeps_keys (set_offer_id v))
  ∧ (∀ v, keeps_keys (set_external_url v)).
Proof. repeat split. Qed.

Lemma keeps_keys_compose f g : keeps_keys f → keeps_keys g → keeps_keys (g ∘ f).
Proof.
  intros Hf Hg r. destruct (Hf r) as (? & ? & ?), (Hg (f r)) as (? & ? & ?).
  cbn. repeat split; congruence.
Qed.

Lemma keeps_keys_id : keeps_keys id.
Proof. by intros r. Qed.

Lemma update_update (id : Z) f g (l : list ListingMarketplace) :
  keeps_keys f →
  List.map (fun x => if lm_id x =? id then g x else x)
    (List.map (fun x => if lm_id x =? id then f x else x) l)
  = List.map (fun x => if lm_id x =? id then (g ∘ f) x else x) l.
Proof.
  intros Hf. rewrite List.map_map. apply List.map_ext. intros x.
  destruct (lm_id x =? id) eqn:E; [|by rewrite E].
  destruct (Hf x) as [-> _]. by rewrite E.
Qed.

Lemma is_link_keeps f lid mk r :
  keeps_keys f → is_link lid mk (f r) = is_link lid mk r.
Proof. intros Hf. destruct (Hf r) as (_ & H1 & H2). unfold is_link. by rewrite H1, H2. Qed.

Lemma filter_update (p : ListingMarketplace → bool) (c : ListingMarketplace → bool)
    f (l : list ListingMarketplace) :
  (∀ r, p (f r) = p r) →
  List.filter p (List.map (fun x => if c x then f x else x) l)
  = List.map (fun x => if c x then f x else x) (List.filter p l).
Proof.
  intros Hp. induction l as [|x l IH]; simpl; [done|].
  assert (p (if c x then f x else x) = p x) as -> by (by destruct (c x)).
  destruct (p x); simpl; by rewrite IH.
Qed.

Lemma insert_links_one l r :
  insert_links l [r]
  = l ++ [mkLink (next_id (List.map lm_id l)) (lm_listing_id r)
            (lm_marketplace r) (lm_external_item_id r) (lm_sku r)
            (lm_offer_id r) (lm_external_url r)
            (match lm_status r with None => Some "published" | st => st end)].
Proof. reflexivity. Qed.

Lemma is_link_eq lid mk lid' mk' r :
  is_link lid mk r = true → is_link lid' mk' r = true →
  lid' = lid ∧ mk' = mk.
Proof.
  unfold is_link. rewrite !andb_true_iff, !Z.eqb_eq, !String.eqb_eq. 
  intros [<- <-] [<- <-]. done.
Qed.

Lemma filter_singleton_find {A} (p : A → bool) (l : list A) (r : A) :
  List.filter p l = [r] → List.find p l = Some r.
Proof.
  induction l as [|x l IH]; simpl; [done|].
  destruct (p x); [by intros [= ->] | done].
Qed.

Lemma find_Some_filter_one {A} (p : A → bool) (l : list A) (r : A) :
  List.find p l = Some r → (length (List.filter p l) ≤ 1)%nat →
  List.filter p l = [r].
Proof.
  induction l as [|x l IH]; simpl; [done|].
  destruct (p x); simpl; [|done].
  intros [= ->] Hl. destruct (List.filter p l); [done | simpl in Hl; lia].
Qed.

(** what an upsert does to the rows of its own pair, and to the number of
    rows of every pair *)
Lemma upsert_rows lid mk f l :
  keeps_keys f →
  (length (List.filter (is_link lid mk) l) ≤ 1)%nat →
  ∃ row, List.filter (is_link lid mk) (upsert_links lid mk f l) = [row]
    ∧ (∀ r, List.find (is_link lid mk) l = Some r → row = f r)
    ∧ (List.find (is_link lid mk) l = None →
       lm_id row = next_id (List.map lm_id l)
       ∧ length (upsert_links lid mk f l) = S (length l)).
Proof.
  intros Hf Hl. unfold upsert_links.
  destruct (List.find (is_link lid mk) l) as [r|] eqn:Hfind.
  - rewrite filter_update by (intros; by apply is_link_keeps).
    rewrite (find_Some_filter_one _ _ _ Hfind Hl). simpl.
    rewrite Z.eqb_refl. exists (f r). split; [done|]. split; [|done].
    by intros ? [= ->].
  - rewrite insert_links_one, List.filter_app, (find_None_filter _ _ Hfind).
    simpl. destruct (Hf (new_link lid mk)) as (_ & H1 & H2).
    unfold is_link at 1. cbn [lm_listing_id lm_marketplace].
    rewrite H1, H2. cbn [new_link lm_listing_id lm_marketplace].
    rewrite Z.eqb_refl, String.eqb_refl. cbn. eexists. split; [done|].
    split; [done|]. intros _. split; [done|]. rewrite length_app. simpl. lia.
Qed.

Lemma upsert_single lid mk f l lid' mk' :
  keeps_keys f →
  (length (List.filter (is_link lid' mk') l) ≤ 1)%nat →
  (length (List.filter (is_link lid' mk') (upsert_links lid mk f l)) ≤ 1)%nat.
Proof.
  intros Hf Hl. unfold upsert_links.
  destruct (List.find (is_link lid mk) l) as [r|] eqn:Hfind.
  - rewrite filter_update by (intros; by apply is_link_keeps).
    by rewrite length_map.
  - rewrite insert_links_one, List.filter_app, length_app. simpl.
    destruct (is_link lid' mk' _) eqn:Hp; simpl; [|lia].
    assert (lid' = lid ∧ mk' = mk) as [-> ->].
    { destruct (Hf (new_link lid mk)) as (_ & H1 & H2).
      unfold is_link in Hp. cbn [lm_listing_id lm_marketplace] in Hp.
      rewrite H1, H2 in Hp. cbn in Hp.
      apply andb_true_iff in Hp as [Hp1 Hp2].
      apply Z.eqb_eq in Hp1. apply String.eqb_eq in Hp2. done. }
    rewrite (find_None_filter _ _ Hfind). simpl. lia.
Qed.

Lemma load_or_add_run (lid : Z) (mk : string) (s : St W) :
  load_or_add_link lid mk s
  = match List.find (is_link lid mk) (links (sess s)) with
    | Some r => (Ok (Persistent (lm_id r), r), s)
    | None =>
        (Ok (Pending (length (added_links s)), new_link lid mk),
         mkSt (stored s) (sess s) (added_links s ++ [new_link lid mk])
              (added_accounts s) (world s) (trace s))
    end.
Proof.
  unfold load_or_add_link. munfold. by destruct (List.find _ _).
Qed.

Ltac record_run_tac Hc :=
  let Hl := fresh "Hl" in
  let Ha := fresh "Ha" in
  destruct Hc as [Hl Ha];
  rewrite run_bind, load_or_add_run; unfold upsert_links;
  rewrite Hl, Ha;
  match goal with |- context [List.find ?p ?l] => destruct (List.find p l) end;
  munfold; cbn;
  (eexists _, _; split; [reflexivity|]; cbn; split; [done|]; split; [done|]);
  rewrite ?Hl, ?Ha, ?insert_links_nil;
  [ repeat (rewrite update_update
              by (repeat apply keeps_keys_compose;
                  first [apply keeps_keys_id | apply keeps_keys_setters]));
    reflexivity
  | reflexivity ].

Lemma record_published_run listing sku offer_id ebay_listing_id (s : St W) :
  links_clean s →
  ∃ res s',
    record_published_link listing sku offer_id ebay_listing_id s = (Ok res, s')
    ∧ sess s' = stored s' ∧ added_links s' = []
    ∧ links (stored s')
      = upsert_links (l_id listing) "ebay"
          (published_fields sku offer_id ebay_listing_id) (links (stored s)).
Proof.
  intros Hc. unfold record_published_link, published_fields. cbv zeta.
  destruct (Py.truthy ebay_listing_id); record_run_tac Hc.
Qed.

Lemma record_prepared_run listing sku offer_id (s : St W) :
  links_clean s →
  ∃ res s',
    record_prepared_link listing sku offer_id s = (Ok res, s')
    ∧ sess s' = stored s' ∧ added_links s' = []
    ∧ links (stored s')
      = upsert_links (l_id listing) "ebay" (prepared_fields sku offer_id)
          (links (stored s)).
Proof.
  intros Hc. unfold record_prepared_link, prepared_fields. record_run_tac Hc.
Qed.

Lemma record_poshmark_run listing result (s : St W) :
  links_clean s →
  ∃ res s',
    record_poshmark_link listing result s = (Ok res, s')
    ∧ sess s' = stored s' ∧ added_links s' = []
    ∧ links (stored s')
      = upsert_links (l_id listing) "poshmark" (poshmark_fields result)
          (links (stored s)).
Proof.
  intros Hc. unfold record_poshmark_link, poshmark_fields. record_run_tac Hc.
Qed.

(** ** Where a returning handler writes its link row *)

Lemma assign_sku_id (user : User) (l l' : Listing) (sku : string) (s s' : St W) :
  assign_sku user l s = (Ok (sku, l'), s') → l_id l' = l_id l.
Proof.
  unfold assign_sku. cbv zeta. destruct (bool_decide _); munfold; cbn;
    by intros [= _ <- _].
Qed.

Lemma prepare_listing_id lid base user (s s' : St W) listing sku urls key pol :
  prepare_listing lid base user s = (Ok (listing, sku, urls, key, pol), s') →
  l_id listing = lid.
Proof.
  unfold prepare_listing. intros H.
  apply bind_ok in H as (l0 & s0 & H0 & H).
  apply owned_listing_run in H0 as [-> Hid].
  apply bind_ok in H as ([sku' l1] & sA & HA & H).
  apply assign_sku_id in HA.
  apply bind_ok in H as (? & ? & _ & H).
  apply bind_ok in H as (? & ? & _ & H).
  apply bind_ok in H as (? & ? & _ & H).
  rewrite run_ret in H. simplify_eq. congruence.
Qed.

Section Endings.
Variable R : St W → St W → Prop.
Variable allowed : event → Prop.
Hypothesis HF : frame R allowed.
Hypothesis allowed_not_fill : ∀ e, not_fill e → allowed e.
Context {X : Type} (P : X → Prop) (rec : X → M W json).

Lemma ends_raise (e : exn) : ends_with R P rec (raise e).
Proof. by intros s res s'. Qed.

Lemma ends_here (x : X) : P x → ends_with R P rec (rec x).
Proof.
  intros Hx s res s' H. exists x, s. split; [done|].
  split; [apply (frame_refl _ _ HF) | done].
Qed.

Lemma ends_bind {A} (m : M W A) (k : A → M W json) (Pa : A → Prop) :
  steps R m →
  (∀ s a s1, m s = (Ok a, s1) → Pa a) →
  (∀ a, Pa a → ends_with R P rec (k a)) →
  ends_with R P rec (m ≫= k).
Proof.
  intros Hm Ha Hk s res s' H.
  apply bind_ok in H as (a & s1 & H1 & H2).
  destruct (Hk a (Ha _ _ _ H1) _ _ _ H2) as (x & sp & Hx & Hr & Hrec).
  exists x, sp. split; [done|]. split; [|done].
  eapply (frame_trans _ _ HF); [|exact Hr].
  specialize (Hm s). by rewrite H1 in Hm.
Qed.

Lemma ends_bind_any {A} (m : M W A) (k : A → M W json) :
  steps R m → (∀ a, ends_with R P rec (k a)) → ends_with R P rec (m ≫= k).
Proof.
  intros Hm Hk. apply (ends_bind m k (fun _ => True)); auto.
Qed.

Lemma ends_try_except (m : M W json) (h : exn → M W json) :
  (∀ e s1, is_ok (h e s1).1 = false) →
  ends_with R P rec m → ends_with R P rec (try_except m h).
Proof.
  intros Hh Hm s res s' H. apply try_except_ok in H; [|done]. eauto.
Qed.

End Endings.

Section Handlers.
Variable R : St W → St W → Prop.
Variable allowed : event → Prop.
Hypothesis HF : frame R allowed.
Hypothesis allowed_all : ∀ e, allowed e.

Ltac ends_here_with x :=
  let s := fresh "s" in let H := fresh "H" in
  intros s ? ? H; exists x, s; split; [done|];
  split; [apply (frame_refl _ _ HF) | exact H].

Lemma ends_publish_to_ebay lid base user :
  (∀ l, steps R (assign_sku user l)) →
  ends_with R (fun x => l_id x.1.1.1 = lid)
    (fun x => record_published_link x.1.1.1 x.1.1.2 x.1.2 x.2)
    (publish_to_ebay lid base user).
Proof.
  intros Hs. unfold publish_to_ebay.
  apply (ends_bind _ _ HF _ _ _ _
           (fun x => l_id x.1.1.1.1 = lid)).
  - by apply (steps_prepare_listing _ _ HF).
  - intros s [[[[l sku] urls] key] pol] s1 H. by apply prepare_listing_id in H.
  - intros [[[[l sku] urls] key] pol] Hid. cbv zeta. cbn in Hid.
    destruct pol as [pol|]; [|apply ends_raise].
    apply (ends_bind_any _ _ HF); [by apply (steps_put_inventory_item _ _ HF)|].
    intros _.
    apply (ends_bind_any _ _ HF); [by apply (steps_create_offer _ _ HF)|].
    intros offer_id.
    apply (ends_bind_any _ _ HF); [by apply (steps_ebay_post _ _ HF)|].
    intros resp. destruct (bool_decide _); [|apply ends_raise].
    apply (ends_bind_any _ _ HF); [by apply (steps_response_json _ _ HF)|].
    intros body.
    apply (ends_bind_any _ _ HF); [by apply (steps_lift _ _ HF)|].
    intros i.
    ends_here_with (l, sku, offer_id, i).
Qed.

Lemma ends_create_inventory_and_offer lid base user :
  (∀ l, steps R (assign_sku user l)) →
  ends_with R (fun x => l_id x.1.1 = lid)
    (fun x => record_prepared_link x.1.1 x.1.2 x.2)
    (create_inventory_and_offer lid base user).
Proof.
  intros Hs. unfold create_inventory_and_offer.
  apply (ends_bind _ _ HF _ _ _ _
           (fun x => l_id x.1.1.1.1 = lid)).
  - by apply (steps_prepare_listing _ _ HF).
  - intros s [[[[l sku] urls] key] pol] s1 H. by apply prepare_listing_id in H.
  - intros [[[[l sku] urls] key] pol] Hid. cbv zeta. cbn in Hid.
    destruct pol as [pol|]; [|apply ends_raise].
    apply (ends_bind_any _ _ HF); [by apply (steps_put_inventory_item _ _ HF)|].
    intros _.
    apply (ends_bind_any _ _ HF); [by apply (steps_create_offer _ _ HF)|].
    intros offer_id.
    ends_here_with (l, sku, offer_id).
Qed.

Lemma ends_publish_to_poshmark lid base user :
  ends_with R (fun x => l_id x.1 = lid)
    (fun x => record_poshmark_link x.1 x.2)
    (publish_to_poshmark lid base user).
Proof.
  unfold publish_to_poshmark.
  apply (ends_bind _ _ HF _ _ _ _ (fun l => l_id l = lid)).
  - apply (steps_owned_listing _ _ HF).
  - intros s l s1 H. by apply owned_listing_run in H as [_ ?].
  - intros l Hid.
    apply (ends_bind_any _ _ HF); [apply (steps_images_of _ _ HF)|].
    intros imgs. destruct imgs as [|img imgs]; [apply ends_raise|]. cbv zeta.
    apply ends_try_except.
    { intros e s1. by destruct e. }
    apply (ends_bind_any _ _ HF).
    { apply (steps_publish_listing _ _ HF); auto. }
    intros result. ends_here_with (l, result).
Qed.

End Handlers.

Lemma keeps_keys_fields :
  (∀ sku o i, keeps_keys (published_fields sku o i))
  ∧ (∀ sku o, keeps_keys (prepared_fields sku o))
  ∧ (∀ r, keeps_keys (poshmark_fields r)).
Proof.
  repeat split; unfold published_fields; by destruct (Py.truthy _).
Qed.

Lemma published_fields_status sku o i r :
  lm_status (published_fields sku o i r) = Some "published".
Proof. unfold published_fields. by destruct (Py.truthy _). Qed.

Lemma run_request_inv {A} (h : M W A) (s s1 : St W) (r : Res A) :
  run_request h s = (r, s1) →
  ∃ s', h (open_session s) = (r, s') ∧ stored s1 = stored s'
        ∧ s1 = open_session s'.
Proof.
  unfold run_request. destruct (h (open_session s)) as [r' s'].
  intros [= <- <-]. eauto.
Qed.

Lemma open_session_clean (s : St W) : links_clean (open_session s).
Proof. done. Qed.

(** a returning invocation has upserted the row of its pair, and changed
    no other link row *)
Lemma invocation_upserts (i : invocation) (s s1 : St W) (r : json) :
  run_request (handler_of i) s = (Ok r, s1) →
  ∃ f, keeps_keys f
    ∧ match i with
      | PublishEbay _ _ _ => ∀ x, lm_status (f x) = Some "published"
      | PrepareOffer _ _ _ => ∀ x, lm_status (f x) = Some "offer_created"
      | PublishPoshmark _ _ _ => True
      end
    ∧ links (stored s1)
      = upsert_links (pair_of i).1 (pair_of i).2 f (links (stored s)).
Proof.
  intros H. apply run_request_inv in H as (s' & H & -> & _).
  pose proof (open_session_clean s) as Hc.
  destruct i as [lid base user|lid base user|lid base user]; cbn in H |- *.
  - apply (ends_publish_to_ebay _ _ frame_keeps_links (λ _, I)) in H
      as ([[[l sku] o] i] & sp & Hid & Hk & H);
      [|apply steps_assign_sku_links].
    destruct (Hk Hc) as [Hcp E]. cbn in Hid, H.
    destruct (record_published_run l sku o i sp Hcp) as (? & ? & H' & _ & _ & E').
    rewrite H in H'. simplify_eq. exists (published_fields sku o i).
    split; [apply keeps_keys_fields|].
    split; [apply published_fields_status|]. by rewrite E', E.
  - apply (ends_create_inventory_and_offer _ _ frame_keeps_links (λ _, I)) in H
      as ([[l sku] o] & sp & Hid & Hk & H);
      [|apply steps_assign_sku_links].
    destruct (Hk Hc) as [Hcp E]. cbn in Hid, H.
    destruct (record_prepared_run l sku o sp Hcp) as (? & ? & H' & _ & _ & E').
    rewrite H in H'. simplify_eq. exists (prepared_fields sku o).
    split; [apply keeps_keys_fields|].
    split; [done|]. by rewrite E', E.
  - apply (ends_publish_to_poshmark _ _ frame_keeps_links (λ _, I)) in H
      as ([l res] & sp & Hid & Hk & H).
    destruct (Hk Hc) as [Hcp E]. cbn in Hid, H.
    destruct (record_poshmark_run l res sp Hcp) as (? & ? & H' & _ & _ & E').
    rewrite H in H'. simplify_eq. exists (poshmark_fields res).
    split; [apply keeps_keys_fields|].
    split; [done|]. by rewrite E', E.
Qed.

Lemma steps_record_single :
  (∀ l sku o i, steps keeps_single (record_published_link l sku o i))
  ∧ (∀ l sku o, steps keeps_single (record_prepared_link l sku o))
  ∧ (∀ l r, steps keeps_single (record_poshmark_link l r)).
Proof.
  split; [|split].
  - intros l sku o i st Hc.
    destruct (record_published_run l sku o i st Hc) as (? & s' & -> & E1 & E2 & E).
    cbn. split; [split; [by rewrite E1 | done]|].
    intros lid mk Hl. unfold link_rows. rewrite E.
    by apply upsert_single; [apply keeps_keys_fields|].
  - intros l sku o st Hc.
    destruct (record_prepared_run l sku o st Hc) as (? & s' & -> & E1 & E2 & E).
    cbn. split; [split; [by rewrite E1 | done]|].
    intros lid mk Hl. unfold link_rows. rewrite E.
    by apply upsert_single; [apply keeps_keys_fields|].
  - intros l r st Hc.
    destruct (record_poshmark_run l r st Hc) as (? & s' & -> & E1 & E2 & E).
    cbn. split; [split; [by rewrite E1 | done]|].
    intros lid mk Hl. unfold link_rows. rewrite E.
    by apply upsert_single; [apply keeps_keys_fields|].
Qed.

Lemma handler_keeps_single (i : invocation) : steps keeps_single (handler_of i).
Proof.
  destruct steps_record_single as (H1 & H2 & H3).
  assert (∀ user l, steps keeps_single (assign_sku user l)) as Ha.
  { intros user l s. apply keeps_links_single, steps_assign_sku_links. }
  destruct i; cbn.
  - by apply (steps_publish_to_ebay _ _ frame_keeps_single).
  - by apply (steps_create_inventory_and_offer _ _ frame_keeps_single).
  - by apply (steps_publish_to_poshmark _ _ frame_keeps_single).
Qed.

(** C6.  Whatever requests are served, a (listing, marketplace) pair with
    at most one stored link row never gets a second one.  A returning
    publish or prepare-offer request leaves exactly one row for its pair:
    the row that was there, changed in place (same key, no row added to
    the table), or a new row when there was none.  In particular, after
    two returning publish requests for the same listing there is one row,
    the row of the first request changed by the second. *)
Theorem single_link_row (listing_id : Z) (marketplace : string) (s : St W) :
  (length (link_rows listing_id marketplace (stored s)) ≤ 1)%nat →
  (∀ invs,
     (length (link_rows listing_id marketplace (stored (run_all invs s))) ≤ 1)%nat)
  ∧ (∀ i r s1,
       pair_of i = (listing_id, marketplace) →
       run_request (handler_of i) s = (Ok r, s1) →
       ∃ row,
         link_rows listing_id marketplace (stored s1) = [row]
         ∧ (∀ row0, link_rows listing_id marketplace (stored s) = [row0] →
              lm_id row = lm_id row0
              ∧ length (links (stored s1)) = length (links (stored s)))
         ∧ (link_rows listing_id marketplace (stored s) = [] →
              length (links (stored s1)) = S (length (links (stored s)))))
  ∧ (∀ base user r1 s1 r2 s2,
       marketplace = "ebay" →
       run_request (publish_to_ebay listing_id base user) s = (Ok r1, s1) →
       run_request (publish_to_ebay listing_id base user) s1 = (Ok r2, s2) →
       ∃ row1 row2,
         link_rows listing_id "ebay" (stored s1) = [row1]
         ∧ link_rows listing_id "ebay" (stored s2) = [row2]
         ∧ lm_id row2 = lm_id row1
         ∧ lm_status row2 = Some "published"
         ∧ length (links (stored s2)) = length (links (stored s1))).
Proof.
  intros Hl.
  assert (∀ (s0 : St W) i (r : json) (s1 : St W) f,
    (length (link_rows listing_id marketplace (stored s0)) ≤ 1)%nat →
    pair_of i = (listing_id, marketplace) →
    keeps_keys f →
    links (stored s1)
    = upsert_links (pair_of i).1 (pair_of i).2 f (links (stored s0)) →
    ∃ row,
      link_rows listing_id marketplace (stored s1) = [row]
      ∧ (∀ row0, link_rows listing_id marketplace (stored s0) = [row0] →
           row = f row0
           ∧ length (links (stored s1)) = length (links (stored s0)))
      ∧ (link_rows listing_id marketplace (stored s0) = [] →
           length (links (stored s1)) = S (length (links (stored s0))))) as Hone.
  { intros s0 i r s1 f Hl0 Hp Hf E. rewrite Hp in E. cbn in E.
    unfold link_rows in *. rewrite E.
    destruct (upsert_rows listing_id marketplace f (links (stored s0)) Hf Hl0)
      as (row & Hrow & Hsome & Hnone).
    exists row. split; [done|]. split.
    - intros row0 H0. apply filter_singleton_find in H0 as Hfind.
      split; [by apply Hsome|].
      unfold upsert_links. rewrite Hfind. by rewrite length_map.
    - intros H0. apply Hnone.
      destruct (List.find _ _) as [x|] eqn:Hfind; [|done].
      apply List.find_some in Hfind as [Hin Hp'].
      assert (In x (List.filter (is_link listing_id marketplace)
                                (links (stored s0)))) as Hx
        by (by apply List.filter_In).
      by rewrite H0 in Hx. }
  split; [|split].
  - intros invs. revert s Hl. induction invs as [|i invs IH]; intros s Hl; [done|].
    cbn. apply IH.
    pose proof (handler_keeps_single i (open_session s) (open_session_clean s))
      as [_ Hk].
    unfold run_request. destruct (handler_of i (open_session s)) as [r s'].
    cbn in *. by apply Hk.
  - intros i r s1 Hp Hrun.
    destruct (invocation_upserts i s s1 r Hrun) as (f & Hf & _ & E).
    destruct (Hone s i r s1 f Hl Hp Hf E) as (row & Hrow & Hsome & Hnone).
    exists row. split; [done|]. split; [|done].
    intros row0 H0. destruct (Hsome row0 H0) as [-> Hlen].
    split; [apply Hf | done].
  - intros base user r1 s1 r2 s2 -> Hrun1 Hrun2.
    destruct (invocation_upserts (PublishEbay listing_id base user) s s1 r1 Hrun1)
      as (f1 & Hf1 & _ & E1).
    destruct (Hone s (PublishEbay listing_id base user) r1 s1 f1 Hl eq_refl Hf1 E1)
      as (row1 & Hrow1 & _ & _).
    destruct (invocation_upserts (PublishEbay listing_id base user) s1 s2 r2 Hrun2)
      as (f2 & Hf2 & Hst & E2).
    assert ((length (link_rows listing_id "ebay" (stored s1)) ≤ 1)%nat) as Hl1
      by (by rewrite Hrow1).
    destruct (Hone s1 (PublishEbay listing_id base user) r2 s2 f2 Hl1 eq_refl Hf2 E2)
      as (row2 & Hrow2 & Hsome & _).
    destruct (Hsome row1 Hrow1) as [-> Hlen].
    exists row1, (f2 row1). repeat split; auto. apply Hf2.
Qed.

(** ** Inventory reconciliation *)

Lemma alter_at_end {A} (f : A → A) (l : list A) (x : A) :
  alter f (length l) (l ++ [x]) = l ++ [f x].
Proof. induction l as [|y l IH]; [done|]. cbn. f_equal. apply IH. Qed.

(** the loop body: what one remote item does to the session *)
Lemma reconcile_item_spec (user : User) (item : json) (s s' : St W)
    (r : Res bool) :
  reconcile_item user item s = (r, s') →
  stored s' = stored s ∧ world s' = world s ∧ trace s' = trace s
  ∧ added_accounts s' = added_accounts s
  ∧ listings (sess s') = listings (sess s)
  ∧ ((s' = s ∧ r ≠ Ok true
      ∧ (is_ok r = true →
         matched_listing user (listings (sess s)) item = None))
     ∨ (∃ L, matched_listing user (listings (sess s)) item = Some L
           ∧ r = Ok true
           ∧ ((∃ row,
                 List.find (is_link (l_id L) "ebay") (links (sess s)) = Some row
                 ∧ added_links s' = added_links s
                 ∧ links (sess s')
                   = if bool_decide (lm_status row ≠ Some "published")
                     then List.map
                            (fun x => if lm_id x =? lm_id row
                                      then set_status (Some "offer_created") x
                                      else x) (links (sess s))
                     else links (sess s))
              ∨ (List.find (is_link (l_id L) "ebay") (links (sess s)) = None
                 ∧ links (sess s') = links (sess s)
                 ∧ added_links s'
                   = added_links s
                     ++ [set_status (Some "offer_created")
                           (new_link (l_id L) "ebay")])))).
Proof.
  unfold reconcile_item, matched_listing. rewrite run_bind. unfold lift at 1.
  destruct (Py.get item "sku" JNull) as [sku|e]; cbn;
    [|intros [= <- <-]; repeat split; left; by repeat split].
  destruct (Py.truthy sku) eqn:Ht; cbn.
  2:{ intros [= <- <-]. repeat split. left. repeat split; [done|].
      intros _. destruct sku; try done. unfold Py.truthy in Ht. by rewrite Ht. }
  destruct sku as [| | |k| |]; cbn;
    try (intros [= <- <-]; repeat split; left; by repeat split).
  unfold Py.truthy in Ht. rewrite Ht.
  rewrite run_bind. unfold Db.first_listing at 1. munfold.
  destruct (List.find _ (listings (sess s))) as [L|] eqn:HL; cbn;
    [|intros [= <- <-]; repeat split; left; by repeat split].
  rewrite load_or_add_run.
  destruct (List.find _ (links (sess s))) as [row|] eqn:Hrow; cbn.
  - destruct (bool_decide (lm_status row ≠ Some "published")) eqn:Hp; cbn;
      intros [= <- <-]; cbn; repeat split; right; exists L;
      (split; [done|]); (split; [done|]); left; exists row; rewrite Hp;
      by repeat split.
  - intros [= <- <-]. cbn. repeat split. right. exists L.
    split; [done|]. split; [done|]. right.
    rewrite alter_at_end. by repeat split.
Qed.
Lemma reconcile_item_ok (user : User) (item : json) (s : St W) :
  readable_item item → is_ok (reconcile_item user item s).1 = true.
Proof.
  intros (v & Hv & Hk). unfold reconcile_item. rewrite run_bind.
  unfold lift at 1. rewrite Hv. cbn.
  destruct Hk as [Hf | [k ->]]; [by rewrite Hf|].
  destruct (Py.truthy (JStr k)); [|done]. cbn.
  rewrite run_bind. unfold Db.first_listing at 1. munfold.
  destruct (List.find _ (listings (sess s))); [|done].
  rewrite load_or_add_run.
  destruct (List.find _ (links (sess s))) as [row|]; cbn; [|done].
  by destruct (bool_decide _).
Qed.

Lemma reconciled_row_refl M r : reconciled_row M r r.
Proof. by left. Qed.

Lemma reconciled_row_trans M r1 r2 r3 :
  reconciled_row M r1 r2 → reconciled_row M r2 r3 → reconciled_row M r1 r3.
Proof.
  intros [->|(H1 & -> & H2 & H3)] [->|(H1' & -> & H2' & H3')]; try by left.
  - right. by repeat split.
  - right. by repeat split.
  - right. by repeat split.
Qed.

Lemma reconciled_row_keys M r r' :
  reconciled_row M r r' →
  lm_id r' = lm_id r ∧ ∀ lid mk, is_link lid mk r' = is_link lid mk r.
Proof. by intros [->|(_ & -> & _)]. Qed.

Lemma Forall2_reconciled_refl M l : Forall2 (reconciled_row M) l l.
Proof. induction l; constructor; [by left | done]. Qed.

Lemma Forall2_reconciled_trans M l1 l2 l3 :
  Forall2 (reconciled_row M) l1 l2 → Forall2 (reconciled_row M) l2 l3 →
  Forall2 (reconciled_row M) l1 l3.
Proof.
  intros H. revert l3. induction H as [|x y l1 l2 Hxy H IH]; intros l3 H3.
  - by inversion H3.
  - inversion H3 as [|? z ? l3' Hyz H3']; subst. constructor; [|auto].
    by eapply reconciled_row_trans.
Qed.

Lemma Forall2_reconciled_ids M l1 l2 :
  Forall2 (reconciled_row M) l1 l2 → List.map lm_id l2 = List.map lm_id l1.
Proof.
  induction 1 as [|x y l1 l2 Hxy H IH]; simpl; [done|].
  destruct (reconciled_row_keys _ _ _ Hxy) as [-> _]. by rewrite IH.
Qed.

Lemma Forall2_reconciled_In M l1 l2 x :
  Forall2 (reconciled_row M) l1 l2 → In x l1 →
  ∃ y, In y l2 ∧ reconciled_row M x y.
Proof.
  induction 1 as [|a b l1 l2 Hab H IH]; simpl; [done|].
  intros [->|Hx]; [by eauto|]. destruct (IH Hx) as (y & ? & ?). eauto.
Qed.

(** the status change of the loop body relates the table to itself *)
Lemma bump_reconciled (M : Z → Prop) (l : list ListingMarketplace)
    (row : ListingMarketplace) (lid : Z) :
  NoDup (List.map lm_id l) → In row l →
  is_link lid "ebay" row = true → M lid →
  lm_status row ≠ Some "published" →
  Forall2 (reconciled_row M) l
    (List.map (fun x => if lm_id x =? lm_id row
                        then set_status (Some "offer_created") x else x) l).
Proof.
  intros Hd Hin Hp HM Hst.
  assert (∀ x, In x l → lm_id x = lm_id row → x = row) as Huniq.
  { intros x Hx E. by apply (NoDup_map_eq lm_id l). }
  clear Hd Hin. induction l as [|x l IH]; simpl; constructor.
  - destruct (lm_id x =? lm_id row) eqn:E; [|by left].
    apply Z.eqb_eq in E. rewrite (Huniq x) by (simpl; auto). right.
    unfold is_link in Hp. apply andb_true_iff in Hp as [H1 H2].
    apply Z.eqb_eq in H1. apply String.eqb_eq in H2. rewrite H1. done.
  - apply IH. intros y Hy. apply Huniq. simpl. auto.
Qed.

Lemma has_reconciled_row_later M lid l1 l2 a news :
  Forall2 (reconciled_row M) l1 l2 →
  has_reconciled_row lid (l1 ++ a) → has_reconciled_row lid (l2 ++ a ++ news).
Proof.
  intros HF (row & Hin & Hp & Hst). apply in_app_or in Hin as [Hin|Hin].
  - destruct (Forall2_reconciled_In _ _ _ _ HF Hin) as (y & Hy & Hr).
    exists y. split; [apply in_or_app; by left|].
    destruct (reconciled_row_keys _ _ _ Hr) as [_ Hk]. rewrite Hk.
    split; [done|]. destruct Hr as [->|(_ & -> & _)]; [done | by left].
  - exists row. split; [|done]. apply in_or_app. right. apply in_or_app. by left.
Qed.

(** the loop: what the whole remote list does to the session *)
Lemma reconcile_items_spec (user : User) (M : Z → Prop) (items : list json) :
  ∀ (n : Z) (s s' : St W) (r : Res Z),
  NoDup (List.map lm_id (links (sess s))) →
  (∀ item L, In item items →
     matched_listing user (listings (sess s)) item = Some L → M (l_id L)) →
  reconcile_items user items n s = (r, s') →
  stored s' = stored s ∧ world s' = world s ∧ trace s' = trace s
  ∧ listings (sess s') = listings (sess s)
  ∧ Forall2 (reconciled_row M) (links (sess s)) (links (sess s'))
  ∧ (∃ news, added_links s' = added_links s ++ news
             ∧ Forall (created_row M) news)
  ∧ (Forall readable_item items → is_ok r = true)
  ∧ (∀ cnt, r = Ok cnt →
       cnt = n + matched_count user (listings (sess s)) items
       ∧ ∀ item L, In item items →
           matched_listing user (listings (sess s)) item = Some L →
           has_reconciled_row (l_id L) (links (sess s') ++ added_links s')).
Proof.
  induction items as [|item items IH]; intros n s s' r Hd HM Hrun.
  - cbn in Hrun. injection Hrun as <- <-.
    split; [done|]. split; [done|]. split; [done|]. split; [done|].
    split; [apply Forall2_reconciled_refl|].
    split; [exists []; by rewrite app_nil_r|]. split; [done|].
    intros cnt [= <-]. split; [unfold matched_count; cbn; lia|].
    intros item L [].
  - cbn [reconcile_items] in Hrun. rewrite run_bind in Hrun.
    pose proof (reconcile_item_ok user item s) as Hok.
    destruct (reconcile_item user item s) as [rb s1] eqn:Hitem.
    apply reconcile_item_spec in Hitem
      as (E1 & E2 & E3 & _ & E5 & Hcase).
    assert (Forall2 (reconciled_row M) (links (sess s)) (links (sess s1))
            ∧ (∃ news, added_links s1 = added_links s ++ news
                       ∧ Forall (created_row M) news)
            ∧ (∀ L, matched_listing user (listings (sess s)) item = Some L →
                 is_ok rb = true →
                 rb = Ok true
                 ∧ has_reconciled_row (l_id L) (links (sess s1) ++ added_links s1))
            ∧ (rb = Ok false →
               matched_listing user (listings (sess s)) item = None))
      as (HF1 & (news1 & Hn1 & Hc1) & Hm1 & Hu1).
    { destruct Hcase as [(-> & Hne & Hnone) | (L & HL & -> & Hrow)].
      - split; [apply Forall2_reconciled_refl|].
        split; [exists []; by rewrite app_nil_r|]. split.
        + intros L HL Hokb. rewrite (Hnone Hokb) in HL. done.
        + intros ->. by apply Hnone.
      - assert (M (l_id L)) as HML by (apply (HM item L); simpl; auto).
        destruct Hrow as [(row & Hfind & Ha & Hl) | (Hfind & Hl & Ha)].
        + apply List.find_some in Hfind as Hfs. destruct Hfs as [Hin Hp].
          rewrite Hl, Ha. destruct (bool_decide _) eqn:Hb.
          * apply bool_decide_eq_true in Hb.
            split; [by eapply bump_reconciled|].
            split; [exists []; by rewrite app_nil_r|]. split; [|done].
            intros L' HL' _. rewrite HL in HL'. injection HL' as <-.
            split; [done|].
            exists (set_status (Some "offer_created") row).
            split; [|by auto].
            apply in_or_app. left.
            apply (in_map (fun x => if lm_id x =? lm_id row
                                    then set_status (Some "offer_created") x
                                    else x)) in Hin.
            by rewrite Z.eqb_refl in Hin.
          * apply bool_decide_eq_false in Hb.
            split; [apply Forall2_reconciled_refl|].
            split; [exists []; by rewrite app_nil_r|]. split; [|done].
            intros L' HL' _. rewrite HL in HL'. injection HL' as <-.
            split; [done|]. exists row.
            split; [apply in_or_app; by left|]. split; [done|]. right.
            destruct (decide (lm_status row = Some "published")); [done|].
            by destruct Hb.
        + rewrite Hl, Ha. split; [apply Forall2_reconciled_refl|].
          split; [eexists; split; [done|]; repeat constructor; by exists (l_id L)|].
          split; [|done].
          intros L' HL' _. rewrite HL in HL'. injection HL' as <-.
          split; [done|]. eexists. split.
          { apply in_or_app. right. apply in_or_app. right. by left. }
          split; [|by left]. unfold is_link. cbn.
          by rewrite Z.eqb_refl. }
    destruct rb as [b|e].
    + cbn in Hrun.
      assert (NoDup (List.map lm_id (links (sess s1)))) as Hd1
        by (by rewrite (Forall2_reconciled_ids _ _ _ HF1)).
      assert (∀ item' L, In item' items →
                matched_listing user (listings (sess s1)) item' = Some L →
                M (l_id L)) as HM1.
      { intros item' L Hin. rewrite E5. apply HM. simpl. auto. }
      destruct (IH _ _ _ _ Hd1 HM1 Hrun)
        as (F1 & F2 & F3 & F5 & HF2 & (news2 & Hn2 & Hc2) & Hokr & Hcnt).
      split; [congruence|]. split; [congruence|]. split; [congruence|].
      split; [congruence|].
      split; [by eapply Forall2_reconciled_trans|].
      split.
      { exists (news1 ++ news2). rewrite Hn2, Hn1, app_assoc.
        split; [done | by apply Forall_app]. }
      split.
      { intros Hall. apply Forall_cons in Hall as [_ Hall]. auto. }
      intros cnt Hcnt'. destruct (Hcnt cnt Hcnt') as [-> Hrows].
      rewrite E5 in Hrows. split.
      * unfold matched_count. cbn [List.filter].
        destruct (matched_listing user (listings (sess s)) item) as [L|] eqn:HL.
        -- destruct (Hm1 L eq_refl eq_refl) as [[= ->] _].
           unfold matched_count. rewrite E5. cbn [length]. lia.
        -- destruct b.
           ++ destruct Hcase as [(_ & Hne & _) | (L & HL' & _)]; congruence.
           ++ unfold matched_count. rewrite E5. lia.
      * intros item' L [<-|Hin] HL; [|by eapply Hrows].
        destruct (Hm1 L HL eq_refl) as [_ Hrow].
        rewrite Hn2. by eapply has_reconciled_row_later.
    + cbn in Hrun. injection Hrun as <- <-.
      split; [done|]. split; [done|]. split; [done|]. split; [done|].
      split; [done|]. split; [by exists news1|]. split; [|done].
      intros Hall. apply Forall_cons in Hall as [Hr _].
      by apply Hok in Hr.
Qed.

Lemma insert_links_spec (l news : list ListingMarketplace) :
  ∃ news', insert_links l news = l ++ news' ∧ Forall2 stored_as news news'.
Proof.
  revert l. induction news as [|r news IH]; intros l.
  - exists []. by rewrite insert_links_nil, app_nil_r.
  - change (insert_links l (r :: news))
      with (insert_links
              (l ++ [mkLink (next_id (List.map lm_id l)) (lm_listing_id r)
                       (lm_marketplace r) (lm_external_item_id r) (lm_sku r)
                       (lm_offer_id r) (lm_external_url r)
                       (match lm_status r with
                        | None => Some "published" | st => st end)]) news).
    destruct (IH (l ++ [mkLink (next_id (List.map lm_id l)) (lm_listing_id r)
                          (lm_marketplace r) (lm_external_item_id r) (lm_sku r)
                          (lm_offer_id r) (lm_external_url r)
                          (match lm_status r with
                           | None => Some "published" | st => st end)]))
      as (news' & -> & HF).
    eexists (_ :: news'). rewrite <- app_assoc. split; [done|].
    constructor; [|done]. by repeat split.
Qed.

Lemma iter_len (v : json) (items : list json) :
  Py.iter v = Ok items → ∃ n, py_len v = Ok n.
Proof. destruct v; cbn; intros; try discriminate; eauto. Qed.

Lemma stored_as_reconciled lid kept news news' :
  Forall2 stored_as news news' →
  has_reconciled_row lid (kept ++ news) → has_reconciled_row lid (kept ++ news').
Proof.
  intros HF (row & Hin & Hp & Hst). apply in_app_or in Hin as [Hin|Hin].
  - exists row. split; [apply in_or_app; by left | done].
  - induction HF as [|a b news news' (H1 & H2 & H3) HF IH]; [done|].
    destruct Hin as [->|Hin].
    + exists b. split; [apply in_or_app; right; by left|].
      split; [unfold is_link in *; by rewrite H1, H2|].
      rewrite H3. destruct Hst as [-> | ->]; auto.
    + destruct (IH Hin) as (row' & Hin' & ?).
      exists row'. split; [|done].
      apply in_app_or in Hin' as [?|?]; apply in_or_app; [by left|].
      right. by right.
Qed.

Lemma created_rows_stored (M : Z → Prop) news news' :
  Forall (created_row M) news → Forall2 stored_as news news' →
  Forall (fun row => ∃ lid, M lid ∧ is_link lid "ebay" row = true
                            ∧ lm_status row = Some "offer_created") news'.
Proof.
  intros Hc HF. induction HF as [|a b news news' (H1 & H2 & H3) HF IH];
    [constructor|].
  apply Forall_cons in Hc as [(lid & HM & ->) Hc]. constructor; [|auto].
  exists lid. split; [done|]. unfold is_link. rewrite H1, H2, H3. cbn.
  by rewrite Z.eqb_refl.
Qed.

(** the try body of the reconciliation, from a session without changes *)
Lemma reconcile_inventory_spec (user : User) (s s' : St W) (r : Res json) :
  NoDup (List.map lm_id (links (stored s))) →
  rows_clean s →
  reconcile_inventory user s = (r, s') →
  (∀ e, r = Raise e →
     links (stored s') = links (stored s)
     ∧ listings (stored s') = listings (stored s))
  ∧ (∀ resp sg body inventory items,
       ebay_get user "/sell/inventory/v1/inventory_item"
         [("limit", "200"); ("offset", "0")] s = (Ok resp, sg) →
       status_code resp = 200 → json_body resp = Some body →
       Py.get body "inventoryItems" (JArr []) = Ok inventory →
       Py.iter inventory = Ok items →
       Forall readable_item items → is_ok r = true)
  ∧ (∀ res, r = Ok res →
     ∃ resp sg body inventory items found,
       ebay_get user "/sell/inventory/v1/inventory_item"
         [("limit", "200"); ("offset", "0")] s = (Ok resp, sg)
       ∧ status_code resp = 200 ∧ json_body resp = Some body
       ∧ Py.get body "inventoryItems" (JArr []) = Ok inventory
       ∧ Py.iter inventory = Ok items
       ∧ (∀ item L, In item items →
            matched_listing user (listings (stored s)) item = Some L →
            has_reconciled_row (l_id L) (links (stored s')))
       ∧ (∃ kept created,
            links (stored s') = kept ++ created
            ∧ Forall2
                (reconciled_row
                   (fun lid => ∃ item L, In item items
                      ∧ matched_listing user (listings (stored s)) item = Some L
                      ∧ l_id L = lid))
                (links (stored s)) kept
            ∧ Forall
                (fun row => ∃ lid,
                   (∃ item L, In item items
                      ∧ matched_listing user (listings (stored s)) item = Some L
                      ∧ l_id L = lid)
                   ∧ is_link lid "ebay" row = true
                   ∧ lm_status row = Some "offer_created") created)
       ∧ listings (stored s') = listings (stored s)
       ∧ trace s' = trace sg ++ [EvCommit]
       ∧ res = JObj [ ("message", JStr "Sync completed");
                      ("ebay_items_found", JNum found);
                      ("local_listings_matched",
                       JNum (matched_count user (listings (stored s)) items)) ]).
Proof.
  intros Hd Hc. unfold reconcile_inventory. rewrite run_bind.
  pose proof (steps_ebay_get _ _ frame_keeps_rows (λ _ _, I) user
                "/sell/inventory/v1/inventory_item"
                [("limit", "200"); ("offset", "0")] s) as Hget.
  destruct (ebay_get user _ _ s) as [[resp|e] sg] eqn:Hfetch; cbn in Hget.
  2:{ intros [= <- <-]. destruct (Hget Hc) as (_ & E1 & E2).
      split; [by intros ? _|]. split; [by intros|]. by intros. }
  destruct (Hget Hc) as ([[Hl Ha] Hls] & E1 & E2).
  destruct (status_code resp =? 200) eqn:H200; cbn.
  2:{ intros [= <- <-]. split; [by intros ? _|].
      split; [|by intros].
      intros ? ? ? ? ? [= <- <-] H. rewrite H in H200. done. }
  apply Z.eqb_eq in H200.
  rewrite run_bind. unfold response_json at 1.
  destruct (json_body resp) as [body|] eqn:Hbody; cbn.
  2:{ intros [= <- <-]. split; [by intros ? _|]. split; [|by intros].
      intros ? ? ? ? ? [= <- <-] **; congruence. }
  rewrite run_bind. unfold lift at 1.
  destruct (Py.get body "inventoryItems" (JArr [])) as [inventory|e] eqn:Hinv; cbn.
  2:{ intros [= <- <-]. split; [by intros ? _|]. split; [|by intros].
      intros ? ? ? ? ? [= <- <-] **; congruence. }
  rewrite run_bind. unfold lift at 1.
  destruct (Py.iter inventory) as [items|e] eqn:Hiter; cbn.
  2:{ intros [= <- <-]. split; [by intros ? _|]. split; [|by intros].
      intros ? ? ? ? ? [= <- <-] **; congruence. }
  rewrite run_bind.
  set (matched := fun lid => ∃ item L, In item items
          ∧ matched_listing user (listings (stored s)) item = Some L
          ∧ l_id L = lid).
  destruct (reconcile_items user items 0 sg) as [rl sl] eqn:Hloop.
  apply (reconcile_items_spec user matched) in Hloop
    as (F1 & F2 & F3 & F5 & HF & (news & Hn & Hcr) & Hokl & Hcnt).
  2:{ by rewrite Hl, E1. }
  2:{ intros item L Hin HL. exists item, L. rewrite Hls, E2 in HL. done. }
  destruct rl as [cnt|e]; cbn.
  2:{ intros [= <- <-]. split; [intros ? _; by rewrite F1|].
      split; [|by intros].
      intros ? ? ? ? ? [= <- <-] _ Hb' Hi' Ht' Hall.
      assert (items0 = items) as -> by congruence. by apply Hokl in Hall. }
  destruct (iter_len _ _ Hiter) as [found Hfound].
  rewrite run_bind. unfold Db.commit at 1. cbn.
  rewrite run_bind. unfold lift at 1. rewrite Hfound. cbn.
  intros [= <- <-]. split; [by intros|]. split; [by intros|].
  intros res [= <-].
  destruct (Hcnt cnt eq_refl) as [-> Hrows].
  rewrite Hn, Ha in *. cbn [app] in *.
  destruct (insert_links_spec (links (sess sl)) news) as (created & Hins & Hst).
  exists resp, sg, body, inventory, items, found.
  split; [done|]. split; [done|]. split; [done|]. split; [done|].
  split; [done|]. cbn. rewrite Hins. split.
  { intros item L Hin HL. eapply stored_as_reconciled; [done|].
    apply (Hrows item L Hin). by rewrite Hls, E2. }
  split.
  { exists (links (sess sl)), created. split; [done|].
    split; [by rewrite <- E1, <- Hl|]. by eapply created_rows_stored. }
  split; [by rewrite F5, Hls|]. split; [by rewrite F3|].
  by rewrite Hls, E2.
Qed.

(* ------------------------------------------------------------------ *)
(** ** Further properties of the engine *)

(** *** Sku assignment on a clean sku *)

Lemma sku_char_not_space (c : ascii) :
  sku_char c = true → PyStr.is_space c = false.
Proof. by destruct c as [[] [] [] [] [] [] [] []]. Qed.

Lemma clean_sku_strip_ws (sku : string) :
  clean_sku sku → PyStr.strip_ws sku = sku.
Proof.
  intros (_ & Hc & _). apply strip_id.
  - intros c t ->. apply Forall_cons in Hc as [Hc _].
    by apply sku_char_not_space.
  - intros t c ->. rewrite chars_of_app in Hc.
    apply Forall_app in Hc as [_ Hc]. apply Forall_cons in Hc as [Hc _].
    by apply sku_char_not_space.
Qed.

(** X3.  A listing whose sku is clean is not written by the sku
    assignment: the sku is kept as it is, nothing is changed and nothing
    is committed. *)
Theorem assign_sku_clean (user : User) (listing : Listing) (sku : string)
    (s : St W) :
  l_sku listing = Some sku → clean_sku sku →
  assign_sku user listing s = (Ok (sku, listing), s).
Proof.
  intros Hs Hc. unfold assign_sku, raw_sku_of. rewrite Hs.
  rewrite (clean_sku_strip_ws sku Hc).
  assert (PyStr.truthy sku = true) as -> by (destruct Hc as [? _]; by destruct sku).
  cbn [andb]. cbv zeta. rewrite (clean_sku_strip_ws sku Hc).
  rewrite (sanitize_sku_fixed sku Hc).
  rewrite bool_decide_eq_false_2 by (intros H; by apply H).
  reflexivity.
Qed.

(** *** Requests for a listing the caller does not own *)

(** X4.  The four handlers that take a listing id answer 404 for a
    listing that does not exist or belongs to someone else, before any
    effect and any write. *)
Theorem handlers_need_owned_listing (listing_id : Z) (base : string)
    (user : User) (s : St W) :
  List.find (owns user listing_id) (listings (stored s)) = None →
  run_request (publish_to_ebay listing_id base user) s
  = (Raise not_found, open_session s)
  ∧ run_request (create_inventory_and_offer listing_id base user) s
    = (Raise not_found, open_session s)
  ∧ run_request (publish_to_poshmark listing_id base user) s
    = (Raise not_found, open_session s)
  ∧ run_request (get_listing_marketplaces listing_id user) s
    = (Raise not_found, open_session s).
Proof.
  intros H. unfold owns in H.
  assert (_get_owned_listing_or_404 listing_id user (open_session s)
          = (Raise not_found, open_session s)) as Ho.
  { unfold _get_owned_listing_or_404. munfold. cbn [sess open_session]. by rewrite H. }
  unfold run_request, publish_to_ebay, create_inventory_and_offer,
    prepare_listing, publish_to_poshmark, get_listing_marketplaces.
  rewrite !run_bind, Ho. done.
Qed.

(** *** Helpers that never raise *)

Lemma try_except_never {A} (m : M W A) (h : exn → M W A) :
  (∀ e, never_raises (h e)) → never_raises (try_except m h).
Proof.
  intros Hh s. unfold try_except. destruct (m s) as [[a|e] s1]; [done|].
  apply Hh.
Qed.

(** X5.  Policy resolution, the creation of the default policies and the
    opt-in check never raise: whatever the marketplace answers, a failure
    is reported in the value returned.  The merchant location helper
    always returns the same key. *)
Theorem policy_helpers_never_raise (user : User) (s : St W) :
  is_ok (_get_ebay_policies user s).1 = true
  ∧ is_ok (_create_default_policies user s).1 = true
  ∧ is_ok (_ensure_business_policies_opted_in user s).1 = true
  ∧ (_ensure_merchant_location user s).1 = Ok "store_v3".
Proof.
  split; [|split; [|split]].
  - by apply try_except_never.
  - by apply try_except_never.
  - by apply try_except_never.
  - unfold _ensure_merchant_location. cbv zeta. rewrite run_bind.
    pose proof (try_except_never
      (ebay_post user ("/sell/inventory/v1/location/" +:+ "store_v3")
         location_payload;; mret tt) (fun _ => mret tt)
      (fun _ _ => eq_refl) s) as H.
    unfold ignore_errors. by destruct (try_except _ _ s) as [[[]|e] s1].
Qed.

(** X6.  With the three policy ids configured, policy resolution answers
    with them and calls nothing. *)
Theorem configured_policies_need_no_call (user : User) (s : St W)
    (f p r : string) :
  ebay_fulfillment_policy_id settings = Some f →
  ebay_payment_policy_id settings = Some p →
  ebay_return_policy_id settings = Some r →
  f ≠ "" → p ≠ "" → r ≠ "" →
  _get_ebay_policies user s
  = (Ok (Some (mkPolicies (JStr f) (JStr p) (JStr r))), s).
Proof.
  intros Hf Hp Hr Nf Np Nr. unfold _get_ebay_policies, override_policy_ids.
  rewrite Hf, Hp, Hr.
  assert (∀ x, x ≠ "" → PyStr.truthy x = true) as Ht by (by intros []).
  by rewrite !Ht.
Qed.

(** *** Calls without a connected account *)

Lemma token_not_connected (user : User) (s : St W) :
  (∀ a, List.find (is_ebay_account_of (u_id user)) (accounts (sess s)) = Some a →
        PyStr.truthy_opt (a_access_token a) = false) →
  get_valid_ebay_access_token user s
  = (Raise (EbayAuthError "eBay account not connected"), s).
Proof.
  intros H. unfold get_valid_ebay_access_token. munfold.
  destruct (List.find _ _) as [a|]; [|done].
  by rewrite (H a eq_refl).
Qed.

(** X7.  Without a row for the caller's eBay account, or with a row
    without access token, no request is sent: the client raises the auth
    error at once, the inventory, deletion and account endpoints answer
    400 with its message, and the reconciliation answers 500 after a
    rollback. *)
Theorem ebay_calls_need_a_token (user : User) (s : St W) :
  (∀ a, List.find (is_ebay_account_of (u_id user)) (accounts (stored s)) = Some a →
        PyStr.truthy_opt (a_access_token a) = false) →
  (∀ method path params body,
     ebay_request method user path params body (open_session s)
     = (Raise (EbayAuthError "eBay account not connected"), open_session s))
  ∧ run_request (ebay_inventory user) s
    = (Raise (HTTPException 400 (JStr "eBay account not connected")),
       open_session s)
  ∧ (∀ sku, run_request (delete_ebay_inventory_item sku user) s
            = (Raise (HTTPException 400 (JStr "eBay account not connected")),
               open_session s))
  ∧ run_request (ebay_me user) s
    = (Raise (HTTPException 400 (JStr "eBay account not connected")),
       open_session s)
  ∧ run_request (sync_ebay_inventory user) s
    = (Raise (HTTPException 500
                (JStr "Sync failed: eBay account not connected")),
       at_world (open_session s) (world s) [EvRollback]).
Proof.
  intros H.
  assert (∀ method path params body,
     ebay_request method user path params body (open_session s)
     = (Raise (EbayAuthError "eBay account not connected"), open_session s))
    as Hr.
  { intros. unfold ebay_request. rewrite run_bind.
    by rewrite (token_not_connected user (open_session s) H). }
  split; [exact Hr|].
  unfold run_request, ebay_inventory, delete_ebay_inventory_item, ebay_me,
    sync_ebay_inventory, reconcile_inventory, ebay_get, ebay_delete.
  repeat split; intros; rewrite ?run_bind; unfold try_except;
    rewrite ?run_bind, Hr; reflexivity.
Qed.

(** *** A refresh response without a token *)

(** X8.  When the token has to be refreshed and the marketplace answers
    200 with a body that carries no access token, the client raises an
    auth error after this one call; nothing is stored and nothing is
    committed. *)
Theorem refresh_without_access_token (user : User)
    (account : MarketplaceAccount) (s : St W) (now : Z) (w1 w2 : W)
    (rt : string) (resp : HttpResponse) (kvs : list (string * json)) :
  connected user account s →
  clock O (world s) = (now, w1) →
  token_still_valid account now = false →
  a_refresh_token account = Some rt → rt ≠ "" →
  http_send O (refresh_request rt) w1 = (Ok resp, w2) →
  status_code resp = 200 →
  json_body resp = Some (JObj kvs) →
  (∀ tok, Py.assoc "access_token" kvs = Some tok → Py.truthy tok = false) →
  get_valid_ebay_access_token user s
  = (Raise (EbayAuthError "No access_token in refresh response"),
     at_world s w2 [EvHttp (refresh_request rt)]).
Proof.
  intros Hc Hclk Hv Hrt Hne Hh H200 Hb Htok.
  rewrite (get_valid_token_run user account s now w1 Hc Hclk), Hv.
  unfold refresh_access_token. munfold.
  rewrite Hrt. cbn [PyStr.truthy_opt default from_option id negb].
  assert (PyStr.truthy rt = true) as -> by (by destruct rt).
  cbn [negb world at_world]. rewrite Hh, H200. cbn. rewrite Hb.
  unfold Py.get. unfold at_world. cbn. rewrite app_nil_r.
  destruct (Py.assoc "access_token" kvs) as [tok|] eqn:Ha.
  - rewrite (Htok tok eq_refl). by destruct (Py.assoc "expires_in" kvs).
  - by destruct (Py.assoc "expires_in" kvs).
Qed.

(** *** What a call to the marketplace carries *)

(** X9.  With a token that is still valid, a call to the marketplace is
    one request: to the host of the configured environment followed by
    the path, with the method, the parameters and the body given, and
    with the stored token as bearer; what the marketplace answers is
    what the call returns. *)
Theorem ebay_request_carries_token (method : string) (user : User)
    (path : string) (params : list (string * string)) (body : option json)
    (account : MarketplaceAccount) (s : St W) (now : Z) (w1 w2 : W)
    (tok : string) (r : Res HttpResponse) :
  connected user account s →
  clock O (world s) = (now, w1) →
  token_still_valid account now = true →
  a_access_token account = Some tok →
  let request :=
    mkRequest method (EBAY_API_BASE +:+ path)
      [ ("Authorization", "Bearer " +:+ tok);
        ("Accept", "application/json");
        ("Content-Type", "application/json");
        ("Content-Language", "en-US") ]
      params [] body in
  http_send O request w1 = (r, w2) →
  ebay_request method user path params body s
  = (r, at_world s w2 [EvHttp request]).
Proof.
  intros Hc Hclk Hv Ht request Hh. unfold ebay_request.
  rewrite run_bind, (get_valid_token_run user account s now w1 Hc Hclk), Hv.
  rewrite Ht. cbn [default from_option id].
  fold request. rewrite (run_http request _ r w2) by exact Hh.
  unfold at_world. cbn. by rewrite app_nil_r.
Qed.

(** *** Requests that fail *)

Section Failures.
Variable R : St W → St W → Prop.
Variable allowed : event → Prop.
Hypothesis HF : frame R allowed.
Hypothesis allowed_all : ∀ e, allowed e.

Lemma fails_steps {A} (m : M W A) : steps R m → fails R m.
Proof. intros H s e s' E. specialize (H s). by rewrite E in H. Qed.

Lemma fails_never {A} (m : M W A) : never_raises m → fails R m.
Proof. intros H s e s' E. specialize (H s). by rewrite E in H. Qed.

Lemma fails_bind {A C} (m : M W A) (k : A → M W C) :
  steps R m → (∀ a, fails R (k a)) → fails R (m ≫= k).
Proof.
  intros Hm Hk s e s' E. rewrite run_bind in E. specialize (Hm s).
  destruct (m s) as [[a|e0] s1]; cbn in Hm.
  - eapply (frame_trans _ _ HF); [exact Hm | by eapply Hk].
  - by simplify_eq.
Qed.

Lemma fails_try_except {A} (m : M W A) (h : exn → M W A) :
  fails R m → (∀ e, steps R (h e)) → fails R (try_except m h).
Proof.
  intros Hm Hh s e s' E. unfold try_except in E.
  destruct (m s) as [[a|e0] s1] eqn:Em; [discriminate|].
  eapply (frame_trans _ _ HF); [by eapply Hm|].
  specialize (Hh e0 s1). by rewrite E in Hh.
Qed.

Lemma record_never_raises :
  (∀ l sku o i, never_raises (record_published_link l sku o i))
  ∧ (∀ l sku o, never_raises (record_prepared_link l sku o))
  ∧ (∀ l r, never_raises (record_poshmark_link l r)).
Proof.
  unfold never_raises, record_published_link, record_prepared_link,
    record_poshmark_link, load_or_add_link.
  repeat split; intros; munfold; destruct (List.find _ _); cbn;
    try destruct (Py.truthy _); done.
Qed.

Lemma fails_publish_to_ebay lid base user :
  (∀ l, steps R (assign_sku user l)) → fails R (publish_to_ebay lid base user).
Proof.
  intros Hs. destruct record_never_raises as (Hrec & _ & _).
  unfold publish_to_ebay.
  apply fails_bind; [by apply (steps_prepare_listing _ _ HF)|].
  intros [[[[l sku] urls] key] pol]. cbv zeta.
  destruct pol as [pol|]; [|apply fails_steps, (steps_raise _ _ HF)].
  apply fails_bind; [by apply (steps_put_inventory_item _ _ HF)|]. intros _.
  apply fails_bind; [by apply (steps_create_offer _ _ HF)|]. intros offer_id.
  apply fails_bind; [by apply (steps_ebay_post _ _ HF)|]. intros resp.
  destruct (bool_decide _); [|apply fails_steps, (steps_raise _ _ HF)].
  apply fails_bind; [by apply (steps_response_json _ _ HF)|]. intros body.
  apply fails_bind; [by apply (steps_lift _ _ HF)|]. intros i.
  apply fails_never, Hrec.
Qed.

Lemma fails_create_inventory_and_offer lid base user :
  (∀ l, steps R (assign_sku user l)) →
  fails R (create_inventory_and_offer lid base user).
Proof.
  intros Hs. destruct record_never_raises as (_ & Hrec & _).
  unfold create_inventory_and_offer.
  apply fails_bind; [by apply (steps_prepare_listing _ _ HF)|].
  intros [[[[l sku] urls] key] pol]. cbv zeta.
  destruct pol as [pol|]; [|apply fails_steps, (steps_raise _ _ HF)].
  apply fails_bind; [by apply (steps_put_inventory_item _ _ HF)|]. intros _.
  apply fails_bind; [by apply (steps_create_offer _ _ HF)|]. intros offer_id.
  apply fails_never, Hrec.
Qed.

Lemma fails_publish_to_poshmark lid base user :
  fails R (publish_to_poshmark lid base user).
Proof.
  destruct record_never_raises as (_ & _ & Hrec).
  unfold publish_to_poshmark.
  apply fails_bind; [apply (steps_owned_listing _ _ HF)|]. intros l.
  apply fails_bind; [apply (steps_images_of _ _ HF)|]. intros imgs.
  destruct imgs as [|img imgs]; [apply fails_steps, (steps_raise _ _ HF)|].
  cbv zeta. apply fails_try_except.
  - apply fails_bind; [apply (steps_publish_listing _ _ HF); auto|].
    intros result. apply fails_never, Hrec.
  - intros e. destruct e; apply (steps_raise _ _ HF).
Qed.

End Failures.

(** X10.  A publish or prepare-offer request that fails, at whatever
    stage and for whatever reason, leaves the table of link rows as it
    was. *)
Theorem failed_request_keeps_links (i : invocation) (s s1 : St W) (e : exn) :
  run_request (handler_of i) s = (Raise e, s1) →
  links (stored s1) = links (stored s).
Proof.
  intros H. apply run_request_inv in H as (s' & H & -> & _).
  assert (keeps_links (open_session s) s') as Hk.
  { destruct i as [lid base user|lid base user|lid base user]; cbn in H.
    - eapply (fails_publish_to_ebay _ _ frame_keeps_links (λ _, I));
        [apply steps_assign_sku_links | exact H].
    - eapply (fails_create_inventory_and_offer _ _ frame_keeps_links (λ _, I));
        [apply steps_assign_sku_links | exact H].
    - eapply (fails_publish_to_poshmark _ _ frame_keeps_links (λ _, I)), H. }
  by destruct (Hk (open_session_clean s)) as [_ ->].
Qed.

(** *** The browser session of a Poshmark publish *)

Lemma act_run (a : action) (s : St W) :
  ∃ r w, do_action O a (world s) = (r, w)
         ∧ act a s = (r, at_world s w [EvAction a]).
Proof.
  unfold act, external. destruct (do_action O a (world s)) as [r w].
  by exists r, w.
Qed.

Lemma credentials_run (user : User) (s : St W) :
  (∃ m, get_poshmark_credentials user s = (Raise (PoshmarkAuthError m), s)
        ∧ (m = "Poshmark account not connected"
           ∨ m = "Poshmark credentials not configured"))
  ∨ ∃ u p, get_poshmark_credentials user s = (Ok (u, p), s).
Proof.
  unfold get_poshmark_credentials. munfold.
  destruct (List.find _ _) as [a|]; [|left; eauto].
  destruct (a_username a) as [u|], (a_access_token a) as [p|];
    try (left; eauto; fail).
  destruct (PyStr.truthy u && PyStr.truthy p); [right | left]; eauto.
Qed.

Ltac any_step HF :=
  lazymatch goal with
  | |- steps _ (mret _) => apply (steps_ret _ _ HF)
  | |- steps _ (raise _) => apply (steps_raise _ _ HF)
  | |- steps _ (_ ≫= _) => apply (steps_bind _ _ HF); [|intro]
  | |- steps _ (try_except _ _) => apply (steps_try_except _ _ HF); [|intro]
  | |- steps _ (try_finally _ _) => apply (steps_try_finally _ _ HF)
  | |- steps _ (ignore_errors _) => apply (steps_ignore_errors _ _ HF)
  | |- steps _ (act _) => apply (steps_act _ _ HF); exact I
  | |- steps _ (ask _) =>
      eapply steps_ask; [exact HF|..]; intros; exact I
  | |- steps _ poshmark_session_check =>
      eapply steps_poshmark_session_check; [exact HF|..]; intros; exact I
  | |- steps _ (login_to_poshmark _ _) =>
      eapply steps_login_to_poshmark; [exact HF|..]; intros; exact I
  | |- steps _ (publish_listing_to_poshmark _ _ _) =>
      eapply steps_publish_listing_to_poshmark; [exact HF|..]; intros; exact I
  | |- steps _ (match ?x with _ => _ end) => destruct x
  | |- steps _ (if ?b then _ else _) => destruct b
  | |- steps _ (let _ := _ in _) => cbv zeta
  end.

(** what a run of [publish_listing] can be: stopped at the credentials,
    before any effect, or a browser session that starts with the start of
    the automation and ends with its stop when it had started *)
Lemma publish_listing_run (user : User) (listing : Listing)
    (imgs : list ListingImage) (base : string) (s : St W) :
  (∃ m, get_poshmark_credentials user s = (Raise (PoshmarkAuthError m), s)
        ∧ publish_listing user listing imgs base s
          = (Raise (PoshmarkAuthError m), s)
        ∧ (m = "Poshmark account not connected"
           ∨ m = "Poshmark credentials not configured"))
  ∨ (∃ r s' started w mid,
       publish_listing user listing imgs base s = (r, s')
       ∧ do_action O PlaywrightStart (world s) = (started, w)
       ∧ (∀ e, r = Raise e → ∃ m, e = PoshmarkPublishError m)
       ∧ trace s' = trace s ++ EvAction PlaywrightStart :: mid
       ∧ (is_ok started = true →
          ∃ mid', mid = mid' ++ [EvAction PlaywrightStop])).
Proof.
  pose proof (frame_emits (fun _ => True)) as HE.
  unfold publish_listing.
  destruct (credentials_run user s) as [(m & Hc & Hm) | (u & p & Hc)].
  { left. exists m. by rewrite run_bind, Hc. }
  right. rewrite run_bind, Hc. cbn beta iota zeta.
  match goal with
  | |- context [try_finally ?m (act PlaywrightStop)] => set (session := m)
  end.
  assert (steps (emits (fun _ => True)) session) as Hsession.
  { subst session. repeat any_step HE. }
  unfold try_except at 1. rewrite run_bind.
  destruct (act_run PlaywrightStart s) as (started & w & Hstart & ->).
  destruct started as [[]|e0].
  - unfold try_finally.
    specialize (Hsession (at_world s w [EvAction PlaywrightStart])).
    destruct (session _) as [r sb]. cbn in Hsession.
    destruct Hsession as (evs & Hevs & _).
    destruct (act_run PlaywrightStop sb) as (stopped & w' & _ & ->).
    assert (trace (at_world sb w' [EvAction PlaywrightStop])
            = trace s ++ EvAction PlaywrightStart
                :: (evs ++ [EvAction PlaywrightStop])) as Htr.
    { cbn. rewrite Hevs. cbn. by rewrite <- !app_assoc. }
    destruct stopped as [[]|e1]; [destruct r as [a|e1]|];
      try destruct e1;
      (eexists _, _, _, _, _; split; [reflexivity|]; split; [exact Hstart|];
       split; [intros e [= <-]; eauto | split; [exact Htr | eauto]]).
  - destruct e0;
      (eexists _, _, _, _, []; split; [reflexivity|]; split; [exact Hstart|];
       split; [intros e [= <-]; eauto | split; [reflexivity | done]]).
Qed.

Lemma owned_listing_cases (listing_id : Z) (user : User) (s : St W) :
  (∃ l, _get_owned_listing_or_404 listing_id user s = (Ok l, s))
  ∨ _get_owned_listing_or_404 listing_id user s = (Raise not_found, s).
Proof.
  unfold _get_owned_listing_or_404. munfold.
  destruct (List.find _ _); eauto.
Qed.

Lemma images_of_run (listing_id : Z) (s : St W) :
  ∃ imgs, Db.images_of listing_id s = (Ok imgs, s).
Proof. by eexists. Qed.

(** X11.  What a failed Poshmark publish request answers.  It fails
    before any effect with 404 (listing not owned), 400 (no image) or 401
    (account not connected, credentials not configured); once the browser
    automation has been started every failure, a failed login included,
    is answered 400. *)
Theorem publish_to_poshmark_errors (listing_id : Z) (base : string)
    (user : User) (s s1 : St W) (e : exn) :
  run_request (publish_to_poshmark listing_id base user) s = (Raise e, s1) →
  (s1 = open_session s
   ∧ (e = not_found
      ∨ e = HTTPException 400 (JStr "At least one image is required")
      ∨ e = HTTPException 401 (JStr "Poshmark account not connected")
      ∨ e = HTTPException 401 (JStr "Poshmark credentials not configured")))
  ∨ (∃ msg evs, e = HTTPException 400 (JStr msg)
       ∧ trace s1 = trace s ++ EvAction PlaywrightStart :: evs).
Proof.
  intros H. apply run_request_inv in H as (s' & H & _ & ->).
  unfold publish_to_poshmark in H. rewrite run_bind in H.
  destruct (owned_listing_cases listing_id user (open_session s))
    as [[l Ho] | Ho]; rewrite Ho in H;
    [|left; simplify_eq; split; [reflexivity | auto]].
  rewrite run_bind in H.
  destruct (images_of_run listing_id (open_session s)) as [imgs Hi].
  rewrite Hi in H. destruct imgs as [|img imgs];
    [left; unfold raise in H; simplify_eq; split; [reflexivity | auto]|].
  cbv zeta in H. unfold try_except in H. rewrite run_bind in H.
  destruct (publish_listing_run user l (img :: imgs)
              (PyStr.rstrip_char "/" base) (open_session s))
    as [(m & _ & Hp & Hm) | (r & sp & st & w & mid & Hp & _ & Hr & Htr & _)];
    rewrite Hp in H.
  - left. unfold raise in H. simplify_eq. split; [reflexivity|].
    destruct Hm as [-> | ->]; auto.
  - right. destruct r as [res|e0].
    + destruct record_never_raises as (_ & _ & Hrec).
      specialize (Hrec l res sp).
      destruct (record_poshmark_link l res sp) as [[a|e1] s2];
        discriminate.
    + destruct (Hr e0 eq_refl) as [m ->]. unfold raise in H. simplify_eq.
      exists m, mid. split; [done | exact Htr].
Qed.

(** X12.  Once the credentials are found and the browser automation has
    started, it is always stopped: whatever happens in the session, and
    whether the publish returns or fails, the last effect is the stop of
    the automation. *)
Theorem playwright_always_stopped (user : User) (listing : Listing)
    (imgs : list ListingImage) (base : string) (s : St W)
    (u p : string) (w : W) :
  get_poshmark_credentials user s = (Ok (u, p), s) →
  do_action O PlaywrightStart (world s) = (Ok tt, w) →
  ∃ mid,
    trace (publish_listing user listing imgs base s).2
    = trace s ++ [EvAction PlaywrightStart] ++ mid ++ [EvAction PlaywrightStop].
Proof.
  intros Hc Hs.
  destruct (publish_listing_run user listing imgs base s)
    as [(m & Hc' & _) | (r & s' & st & w' & mid & Hp & Hst & _ & Htr & Hstop)].
  - rewrite Hc in Hc'. discriminate.
  - rewrite Hs in Hst. simplify_eq.
    destruct (Hstop eq_refl) as [mid' ->].
    exists mid'. rewrite Hp. exact Htr.
Qed.

(** *** The upload of the images *)

Lemma http_run_any (r : HttpRequest) (s : St W) :
  ∃ res w, http r s = (res, at_world s w [EvHttp r]).
Proof.
  unfold http, external. destruct (http_send O r (world s)) as [res w].
  by exists res, w.
Qed.

Lemma read_run_any (r : reading) (s : St W) :
  ∃ res w, read r s = (res, at_world s w [EvReading r]).
Proof.
  unfold read, external. destruct (do_reading O r (world s)) as [res w].
  by exists res, w.
Qed.

Lemma ask_run_any (p : probe) (s : St W) :
  ∃ res w, ask p s = (res, at_world s w [EvProbe p]).
Proof.
  unfold ask, external. destruct (do_probe O p (world s)) as [res w].
  by exists res, w.
Qed.

Lemma http_count_app (a b : list event) :
  http_count (a ++ b) = (http_count a + http_count b)%nat.
Proof. unfold http_count. by rewrite List.filter_app, length_app. Qed.

Lemma download_image_run (base : string) (img : ListingImage) (s : St W) :
  ∃ r evs s',
    download_image base img s = (Ok r, s')
    ∧ trace s' = trace s ++ evs
    ∧ Forall not_action evs ∧ (http_count evs ≤ 1)%nat.
Proof.
  unfold download_image. cbv zeta. unfold try_except. rewrite run_bind.
  destruct (http_run_any (mkRequest "GET" (full_url base img) [] [] [] None) s)
    as (res & w & ->).
  destruct res as [resp|e].
  - destruct (status_code resp =? 200).
    + rewrite run_bind.
      match goal with
      | |- context [read ?r ?st] =>
          destruct (read_run_any r st) as (res & w' & ->)
      end.
      destruct res as [name|e]; eexists _, _, _;
        (split; [reflexivity|]); cbn; rewrite <- app_assoc;
        (split; [reflexivity|]);
        (split; [by repeat constructor | cbn; lia]).
    + eexists _, _, _. split; [reflexivity|]. cbn.
      split; [reflexivity|]. split; [by repeat constructor | cbn; lia].
  - eexists _, _, _. split; [reflexivity|]. cbn.
    split; [reflexivity|]. split; [by repeat constructor | cbn; lia].
Qed.

Lemma gather_downloads_run (base : string) (imgs : list ListingImage)
    (s : St W) :
  ∃ rs evs s',
    gather_downloads base imgs s = (Ok rs, s')
    ∧ trace s' = trace s ++ evs
    ∧ Forall not_action evs ∧ (http_count evs ≤ length imgs)%nat
    ∧ length rs = length imgs.
Proof.
  revert s. induction imgs as [|img imgs IH]; intros s.
  - exists [], [], s. cbn. by rewrite app_nil_r.
  - cbn [gather_downloads]. rewrite run_bind.
    destruct (download_image_run base img s) as (r & e1 & s1 & -> & T1 & F1 & C1).
    rewrite run_bind.
    destruct (IH s1) as (rs & e2 & s2 & -> & T2 & F2 & C2 & L2).
    exists (r :: rs), (e1 ++ e2), s2. split; [reflexivity|].
    split; [by rewrite T2, T1, app_assoc|].
    split; [by apply Forall_app|].
    rewrite http_count_app. cbn. split; lia.
Qed.

Lemma unlink_all_run (files : list string) (s : St W) :
  ∃ s',
    for_each files (fun f => ignore_errors (act (Unlink f))) s = (Ok tt, s')
    ∧ trace s' = trace s ++ List.map (fun f => EvAction (Unlink f)) files.
Proof.
  revert s. induction files as [|f files IH]; intros s.
  - exists s. cbn. by rewrite app_nil_r.
  - cbn [for_each]. rewrite run_bind. unfold ignore_errors, try_except.
    destruct (act_run (Unlink f) s) as (r & w & _ & ->).
    destruct (IH (at_world s w [EvAction (Unlink f)])) as (s' & E & T).
    exists s'. split; [by destruct r as [[]|e]|].
    rewrite T. cbn. by rewrite <- app_assoc.
Qed.

Lemma length_omap_le {A C} (f : A → option C) (l : list A) :
  (length (omap f l) ≤ length l)%nat.
Proof.
  induction l as [|x l IH]; [done|]. cbn. destruct (f x); cbn; lia.
Qed.


(** *** Connecting and disconnecting accounts *)

Lemma find_app_None {A} (p : A → bool) (l ext : list A) :
  List.find p l = None → List.find p (l ++ ext) = List.find p ext.
Proof.
  induction l as [|r l IH]; simpl; [done|]. by destruct (p r).
Qed.

Lemma length_filter_update {A} (p c : A → bool) (f : A → A) (l : list A) :
  (∀ r, p (f r) = p r) →
  length (List.filter p (List.map (fun r => if c r then f r else r) l))
  = length (List.filter p l).
Proof.
  intros Hp. induction l as [|x l IH]; simpl; [done|].
  assert (p (if c x then f x else x) = p x) as -> by (by destruct (c x)).
  destruct (p x); simpl; by rewrite IH.
Qed.

Lemma filter_update_out {A} (p c : A → bool) (f : A → A) (l : list A) :
  (∀ r, p (f r) = p r) →
  (∀ r, In r l → c r = true → p r = false) →
  List.filter p (List.map (fun r => if c r then f r else r) l)
  = List.filter p l.
Proof.
  intros Hp. induction l as [|x l IH]; simpl; [done|]. intros Hc.
  rewrite IH by (intros; apply Hc; auto).
  destruct (c x) eqn:Hx; [|done].
  by rewrite Hp, (Hc x (or_introl eq_refl) Hx).
Qed.

(** the account rows after a cookie connect of [user] *)
Lemma connect_run (cookies : list json) (user : User) (s : St W) :
  let username := username_of_cookies cookies in
  let cookies_json := json_dumps (JArr cookies) in
  let mine := is_account_of (u_id user) "poshmark" in
  let upd := fun (a : MarketplaceAccount) (f : MarketplaceAccount → MarketplaceAccount)
                 (r : MarketplaceAccount) =>
               if a_id r =? a_id a then f r else r in
  run_request (connect_poshmark_cookies cookies user) s
  = (Ok (JObj [("status", JStr "connected"); ("username", username)]),
     let t := set_accounts (stored s)
       match List.find mine (accounts (stored s)) with
       | Some a =>
           List.map (upd a (set_access_token (Some cookies_json)))
             (List.map (upd a (set_username (to_text B username)))
                (accounts (stored s)))
       | None =>
           accounts (stored s)
           ++ [mkAccount (next_id (List.map a_id (accounts (stored s))))
                 (u_id user) "poshmark" (to_text B username)
                 (Some cookies_json) None None]
       end in
     mkSt t t [] [] (world s) (trace s ++ [EvCommit])).
Proof.
  unfold run_request, open_session, connect_poshmark_cookies,
    username_of_cookies. munfold. cbn.
  destruct (List.find _ _) as [a|]; cbn;
    by rewrite ?insert_links_nil, ?insert_accounts_nil.
Qed.

Lemma mine_setters (uid : Z) (mk : string) :
  (∀ v r, is_account_of uid mk (set_username v r) = is_account_of uid mk r)
  ∧ (∀ v r, is_account_of uid mk (set_access_token v r)
            = is_account_of uid mk r).
Proof. done. Qed.



(** X16.  After a disconnect the marketplace is reported as not
    connected and the clients refuse to work: for eBay every call fails
    with the auth error before any request is sent, for Poshmark the
    credentials are reported missing.  (The caller has at most one row
    for the marketplace and keys are unique.) *)
Theorem disconnect_then_status (user : User) (s : St W) :
  NoDup (List.map a_id (accounts (stored s))) →
  (length (List.filter (is_account_of (u_id user) "ebay")
                       (accounts (stored s))) ≤ 1)%nat →
  (length (List.filter (is_account_of (u_id user) "poshmark")
                       (accounts (stored s))) ≤ 1)%nat →
  (∃ r s1,
     run_request (ebay_disconnect user) s = (Ok r, s1)
     ∧ run_request (ebay_status user) s1
       = (Ok (JObj [ ("connected", JBool false);
                     ("marketplace", JStr "ebay") ]), s1)
     ∧ ∀ method path params body,
         ebay_request method user path params body s1
         = (Raise (EbayAuthError "eBay account not connected"), s1))
  ∧ (∃ r s1,
       run_request (poshmark_disconnect user) s = (Ok r, s1)
       ∧ run_request (poshmark_status user) s1
         = (Ok (JObj [ ("connected", JBool false);
                       ("marketplace", JStr "poshmark");
                       ("username", JNull) ]), s1)
       ∧ get_poshmark_credentials user s1
         = (Raise (PoshmarkAuthError "Poshmark account not connected"), s1)).
Proof.
  intros Hd He Hp.
  assert (∀ mk, (length (List.filter (is_account_of (u_id user) mk)
                           (accounts (stored s))) ≤ 1)%nat →
            ∀ message, ∃ s1,
              run_request (disconnect mk message user) s
              = (Ok (JObj [("message", JStr message)]), s1)
              ∧ sess s1 = stored s1 ∧ added_accounts s1 = []
              ∧ s1 = open_session s1
              ∧ List.find (is_account_of (u_id user) mk) (accounts (stored s1))
                = None) as Hdis.
  { intros mk Hl message. eexists. split; [apply disconnect_run|].
    destruct (List.find _ _) as [a|] eqn:Hf.
    - cbn. repeat split.
      rewrite (delete_first_is_delete_pair _ _ a Hf Hl Hd).
      apply find_filter_negb.
    - cbn. repeat split. exact Hf. }
  split.
  - destruct (Hdis "ebay" He "Disconnected") as (s1 & Hr & Hs & _ & Ho & Hf).
    exists (JObj [("message", JStr "Disconnected")]), s1.
    split; [exact Hr|]. split.
    + unfold run_request. rewrite <- Ho. unfold ebay_status. munfold.
      rewrite Hs, Hf. cbn. by rewrite <- Ho.
    + intros. unfold ebay_request. rewrite run_bind.
      rewrite token_not_connected; [done|].
      rewrite Hs. unfold is_ebay_account_of. unfold is_account_of in Hf.
      rewrite Hf. done.
  - destruct (Hdis "poshmark" Hp "Poshmark account disconnected")
      as (s1 & Hr & Hs & _ & Ho & Hf).
    exists (JObj [("message", JStr "Poshmark account disconnected")]), s1.
    split; [exact Hr|]. split.
    + unfold run_request. rewrite <- Ho. unfold poshmark_status. munfold.
      rewrite Hs, Hf. cbn. by rewrite <- Ho.
    + unfold get_poshmark_credentials. munfold. by rewrite Hs, Hf.
Qed.

(** *** The rows a returning request leaves alone *)

Lemma upsert_others (lid : Z) (mk : string) f (l : list ListingMarketplace) :
  keeps_keys f →
  NoDup (List.map lm_id l) →
  List.filter (fun r => negb (is_link lid mk r)) (upsert_links lid mk f l)
  = List.filter (fun r => negb (is_link lid mk r)) l.
Proof.
  intros Hf Hd. unfold upsert_links.
  destruct (List.find (is_link lid mk) l) as [r|] eqn:Hfind.
  - destruct (List.find_some _ _ Hfind) as [Hin Hr].
    apply filter_update_out.
    + intros x. f_equal. by apply is_link_keeps.
    + intros x Hx E. apply Z.eqb_eq in E.
      rewrite (NoDup_map_eq lm_id l x r Hd Hx Hin E). by rewrite Hr.
  - rewrite insert_links_one, List.filter_app. cbn.
    destruct (Hf (new_link lid mk)) as (_ & H1 & H2).
    unfold is_link at 2. cbn [lm_listing_id lm_marketplace].
    rewrite H1, H2. cbn [new_link lm_listing_id lm_marketplace].
    rewrite Z.eqb_refl, String.eqb_refl. cbn. by rewrite app_nil_r.
Qed.

(** X17.  A returning publish or prepare-offer request writes the link
    row of its own (listing, marketplace) pair and no other: with unique
    keys, the link rows of every other pair are exactly as before. *)
Theorem returning_request_keeps_other_rows (i : invocation) (s s1 : St W)
    (r : json) :
  NoDup (List.map lm_id (links (stored s))) →
  run_request (handler_of i) s = (Ok r, s1) →
  List.filter (fun row => negb (is_link (pair_of i).1 (pair_of i).2 row))
              (links (stored s1))
  = List.filter (fun row => negb (is_link (pair_of i).1 (pair_of i).2 row))
                (links (stored s)).
Proof.
  intros Hd H. apply invocation_upserts in H as (f & Hf & _ & ->).
  by apply upsert_others.
Qed.

(** *** Listings keep their owners *)

Lemma frame_keeps_owners : frame keeps_owners (fun _ => True).
Proof.
  split; unfold keeps_owners; cbn; try tauto.
  intros s1 s2 s3 H12 H23 H1. destruct (H12 H1) as [H2 E2].
  destruct (H23 H2) as [H3 E3]. split; [done | congruence].
Qed.

Lemma map_key_update (c : Listing → bool) (v : option string)
    (l : list Listing) :
  List.map listing_key
    (List.map (fun r => if c r then set_listing_sku v r else r) l)
  = List.map listing_key l.
Proof.
  rewrite List.map_map. apply List.map_ext. intros r. by destruct (c r).
Qed.

Lemma steps_assign_sku_owners (user : User) (listing : Listing) :
  steps keeps_owners (assign_sku user listing).
Proof.
  intros s H. unfold assign_sku. cbv zeta.
  destruct (bool_decide _); [|done].
  munfold. cbn. by rewrite map_key_update.
Qed.

Lemma steps_record_owners :
  (∀ l sku o i, steps keeps_owners (record_published_link l sku o i))
  ∧ (∀ l sku o, steps keeps_owners (record_prepared_link l sku o))
  ∧ (∀ l r, steps keeps_owners (record_poshmark_link l r)).
Proof.
  unfold steps, keeps_owners, record_published_link, record_prepared_link,
    record_poshmark_link, load_or_add_link.
  repeat split; intros; munfold; destruct (List.find _ _); cbn;
    try destruct (Py.truthy _); cbn; done.
Qed.

Lemma handler_keeps_owners (i : invocation) : steps keeps_owners (handler_of i).
Proof.
  destruct steps_record_owners as (H1 & H2 & H3).
  pose proof steps_assign_sku_owners as Ha.
  destruct i; cbn.
  - by apply (steps_publish_to_ebay _ _ frame_keeps_owners).
  - by apply (steps_create_inventory_and_offer _ _ frame_keeps_owners).
  - by apply (steps_publish_to_poshmark _ _ frame_keeps_owners).
Qed.

Lemma find_by_key (p : Z * Z → bool) (l l' : list Listing) :
  List.map listing_key l = List.map listing_key l' →
  (∃ x, List.find (fun r => p (listing_key r)) l = Some x) →
  ∃ x', List.find (fun r => p (listing_key r)) l' = Some x'.
Proof.
  revert l'. induction l as [|a l IH]; intros [|a' l']; cbn; try done.
  intros E. assert (listing_key a = listing_key a') as Hk by congruence.
  assert (List.map listing_key l = List.map listing_key l') as Hl
    by congruence.
  rewrite <- Hk. destruct (p (listing_key a)); [eauto | by apply IH].
Qed.

Lemma upsert_has_row (lid : Z) (mk : string) f (l : list ListingMarketplace) :
  keeps_keys f →
  ∃ row, In row (upsert_links lid mk f l) ∧ is_link lid mk row = true.
Proof.
  intros Hf. unfold upsert_links.
  destruct (List.find (is_link lid mk) l) as [r|] eqn:Hfind.
  - destruct (List.find_some _ _ Hfind) as [Hin Hr].
    exists (f r). split.
    + apply in_map_iff. exists r. by rewrite Z.eqb_refl.
    + by rewrite is_link_keeps.
  - rewrite insert_links_one. eexists. split.
    + apply in_app_iff. right. by left.
    + destruct (Hf (new_link lid mk)) as (_ & H1 & H2).
      unfold is_link. cbn [lm_listing_id lm_marketplace].
      rewrite H1, H2. cbn. by rewrite Z.eqb_refl, String.eqb_refl.
Qed.

(** the caller of a returning invocation owns its listing *)
Lemma returning_invocation_owned (i : invocation) (s s' : St W) (r : json) :
  handler_of i (open_session s) = (Ok r, s') →
  ∃ user l,
    List.find (owns user (pair_of i).1) (listings (stored s)) = Some l
    ∧ match i with
      | PublishEbay _ _ u | PrepareOffer _ _ u | PublishPoshmark _ _ u =>
          u = user
      end.
Proof.
  assert (∀ lid user l s1,
            _get_owned_listing_or_404 lid user (open_session s) = (Ok l, s1) →
            ∃ l', List.find (owns user lid) (listings (stored s)) = Some l')
    as Ho.
  { intros lid user l s1. unfold _get_owned_listing_or_404. munfold. cbn.
    fold (owns user lid).
    destruct (List.find _ _) as [l'|]; [eauto | discriminate]. }
  destruct i as [lid base user|lid base user|lid base user]; cbn; intros H.
  - unfold publish_to_ebay, prepare_listing in H.
    apply bind_ok in H as (? & ? & H & _).
    apply bind_ok in H as (? & ? & H & _).
    apply Ho in H as [l' H]. eauto.
  - unfold create_inventory_and_offer, prepare_listing in H.
    apply bind_ok in H as (? & ? & H & _).
    apply bind_ok in H as (? & ? & H & _).
    apply Ho in H as [l' H]. eauto.
  - unfold publish_to_poshmark in H.
    apply bind_ok in H as (? & ? & H & _).
    apply Ho in H as [l' H]. eauto.
Qed.

(** X18.  After a returning publish or prepare-offer request the
    listing is on the marketplace as far as the application is
    concerned: the marketplaces endpoint of the listing, asked by the
    same user, answers with a list that names the marketplace. *)
Theorem published_listing_names_marketplace (i : invocation) (s s1 : St W)
    (r : json) :
  run_request (handler_of i) s = (Ok r, s1) →
  ∃ names,
    run_request
      (get_listing_marketplaces (pair_of i).1
         match i with
         | PublishEbay _ _ u | PrepareOffer _ _ u | PublishPoshmark _ _ u => u
         end) s1
    = (Ok names, s1)
    ∧ In (pair_of i).2 names.
Proof.
  intros H. pose proof H as Hup.
  apply invocation_upserts in Hup as (f & Hf & _ & Hlinks).
  apply run_request_inv in H as (s' & H & Hst & ->).
  destruct (returning_invocation_owned i s s' r H) as (user & l & Hown & Hu).
  pose proof (handler_keeps_owners i (open_session s)) as Hk.
  rewrite H in Hk. cbn in Hk. destruct (Hk eq_refl) as [_ Hkeys].
  assert (∃ l', List.find (owns user (pair_of i).1) (listings (stored s'))
                = Some l') as [l' Hown'].
  { apply (find_by_key
             (fun k => (k.1 =? (pair_of i).1) && (k.2 =? u_id user))
             (listings (stored s)) (listings (stored s'))); [done | eauto]. }
  assert ((match i with
           | PublishEbay _ _ u | PrepareOffer _ _ u | PublishPoshmark _ _ u => u
           end) = user) as -> by (by destruct i).
  eexists. split.
  - unfold run_request, get_listing_marketplaces, _get_owned_listing_or_404.
    munfold. cbn. fold (owns user (pair_of i).1). rewrite Hown'. reflexivity.
  - cbn in Hlinks |- *. rewrite Hlinks.
    destruct (upsert_has_row (pair_of i).1 (pair_of i).2 f (links (stored s)) Hf)
      as (row & Hin & Hrow).
    unfold is_link in Hrow. apply andb_true_iff in Hrow as [Hl Hm].
    apply String.eqb_eq in Hm.
    apply in_map_iff. exists row. split; [exact Hm|].
    apply filter_In. by split.
Qed.

(** *** Endpoints that only talk to the marketplace *)

Lemma steps_leaves_rows {A} (h : M W A) : steps keeps_rows h → leaves_rows h.
Proof.
  intros H s. unfold run_request. specialize (H (open_session s)).
  destruct (h (open_session s)) as [r s']. cbn in H |- *.
  destruct H as (_ & Hl & Hs); [done|]. done.
Qed.

Ltac rows_step :=
  lazymatch goal with
  | |- steps _ (ebay_get _ _ _) =>
      eapply steps_ebay_get; [exact frame_keeps_rows|..]; intros; exact I
  | |- steps _ (ebay_delete _ _) =>
      unfold ebay_delete; eapply steps_ebay_request;
      [exact frame_keeps_rows|..]; intros; exact I
  | |- steps _ (response_json _) =>
      apply (steps_response_json _ _ frame_keeps_rows)
  | |- _ => any_step frame_keeps_rows
  end.

(** X19.  The inventory, deletion and account endpoints of eBay only
    talk to the marketplace: whatever it answers, and also when the token
    is refreshed on the way, no listing and no link row is changed.  In
    particular the deletion of an inventory item on the marketplace
    leaves the link row of the listing in place. *)
Theorem remote_endpoints_leave_rows (user : User) :
  leaves_rows (ebay_inventory user)
  ∧ (∀ sku, leaves_rows (delete_ebay_inventory_item sku user))
  ∧ leaves_rows (ebay_me user).
Proof.
  repeat split; intros; apply steps_leaves_rows;
    unfold ebay_inventory, delete_ebay_inventory_item, ebay_me;
    repeat rows_step.
Qed.

(** *** How the errors of the browser session are reported *)

(** X20.  Every failure of the login is reported as an auth error whose
    message starts with "Login process failed: ", the errors raised by
    the login itself included; every failure of the listing form as a
    publish error whose message starts with "Publish failed: "; and the
    opening of the form raises publish errors only. *)
Theorem poshmark_errors_are_wrapped :
  (∀ username password (s s' : St W) e,
     login_to_poshmark username password s = (Raise e, s') →
     ∃ m, e = PoshmarkAuthError ("Login process failed: " +:+ m))
  ∧ (∀ listing imgs base (s s' : St W) e,
       publish_listing_to_poshmark listing imgs base s = (Raise e, s') →
       ∃ m, e = PoshmarkPublishError ("Publish failed: " +:+ m))
  ∧ (∀ (s s' : St W) e,
       open_listing_form s = (Raise e, s') →
       ∃ m, e = PoshmarkPublishError m).
Proof.
  split; [|split].
  - intros u p s s' e. unfold login_to_poshmark. unfold try_except at 1.
    match goal with
    | |- (match ?x with _ => _ end) = _ → _ => destruct x as [[a|e0] s1]
    end; [discriminate|].
    intros [= <- <-]. eauto.
  - intros l imgs base s s' e. unfold publish_listing_to_poshmark.
    unfold try_except at 1. match goal with
    | |- (match ?x with _ => _ end) = _ → _ => destruct x as [[a|e0] s1]
    end; [discriminate|].
    rewrite run_bind.
    pose proof (try_except_never (act (Screenshot "/tmp/publish_error.png"))
                  (fun _ => mret tt) (fun _ _ => eq_refl) s1) as Hn.
    unfold ignore_errors. destruct (try_except _ _ s1) as [[[]|e1] s2];
      [|discriminate].
    intros [= <- <-]. eauto.
  - intros s s' e. unfold open_listing_form. unfold try_except at 1.
    match goal with
    | |- (match ?x with _ => _ end) = _ → _ => destruct x as [[a|e0] s1]
    end; [discriminate|].
    destruct e0; intros [= <- <-]; eauto.
Qed.

(** *** The choice of a policy *)

Lemma find_named_unnamed (key : string) (l : list json) :
  Forall policy_unnamed l → find_named key l = Ok None.
Proof.
  induction 1 as [|p l (n & Hn & H1 & H2) _ IH]; [done|].
  cbn [find_named]. rewrite Hn. cbn.
  apply contains_false in H1, H2. by rewrite H1, H2.
Qed.

Lemma find_named_first (key : string) (pre : list json) (p : json)
    (post : list json) :
  Forall policy_unnamed pre → policy_named p →
  find_named key (pre ++ p :: post)
  = match Py.get p key JNull with
    | Ok v => Ok (Some v)
    | Raise e => Raise e
    end.
Proof.
  intros Hpre (n & Hn & Hp).
  induction Hpre as [|q pre (m & Hm & H1 & H2) _ IH].
  - cbn [app find_named]. rewrite Hn. cbn.
    assert (PyStr.contains (PyStr.lower n) "default"
            || PyStr.contains (PyStr.lower n) "standard" = true) as ->.
    { apply orb_true_iff. rewrite !contains_spec. exact Hp. }
    by destruct (Py.get p key JNull).
  - cbn [app find_named]. rewrite Hm. cbn.
    apply contains_false in H1, H2. by rewrite H1, H2.
Qed.

(** X21.  Which policy is taken from a list the marketplace returns:
    none from an empty list; otherwise the first policy whose name says
    default or standard, in any case, and the first policy of the list
    when no name does. *)
Theorem policy_choice (key : string) :
  get_policy_id (JArr []) key = Ok JNull
  ∧ (∀ pre p post,
       Forall policy_unnamed pre → policy_named p →
       get_policy_id (JArr (pre ++ p :: post)) key = Py.get p key JNull)
  ∧ (∀ p rest,
       Forall policy_unnamed (p :: rest) →
       get_policy_id (JArr (p :: rest)) key = Py.get p key JNull).
Proof.
  split; [done|]. split.
  - intros pre p post Hpre Hp. unfold get_policy_id.
    assert (Py.truthy (JArr (pre ++ p :: post)) = true) as ->
      by (by destruct pre).
    cbn [negb]. unfold Py.iter. cbn -[find_named Py.first Py.get].
    rewrite (find_named_first key pre p post Hpre Hp).
    by destruct (Py.get p key JNull).
  - intros p rest H. unfold get_policy_id.
    change (Py.truthy (JArr (p :: rest))) with true.
    cbn [negb]. unfold Py.iter. cbn -[find_named Py.first Py.get].
    by rewrite (find_named_unnamed key (p :: rest) H).
Qed.

(** *** The OAuth callback *)

(** X23.  The callback rejects a request it cannot serve before it
    sends or stores anything: 400 without code or state, 400 when the
    state is not a number, 404 when it names no user.  When the
    marketplace refuses the code, the answer carries the status and the
    body of the marketplace, and nothing is stored. *)
Theorem oauth_callback_rejections (code state : option string) (s : St W) :
  (PyStr.truthy_opt code && PyStr.truthy_opt state = false →
   run_request (ebay_oauth_callback code state) s
   = (Raise (HTTPException 400 (JStr "Missing code/state")), open_session s))
  ∧ (∀ c st, code = Some c → state = Some st → c ≠ "" → st ≠ "" →
       (py_int_of_str B st = None →
        run_request (ebay_oauth_callback code state) s
        = (Raise (HTTPException 400 (JStr "Invalid state")), open_session s))
       ∧ (∀ uid, py_int_of_str B st = Some uid →
            List.find (fun u => u_id u =? uid) users = None →
            run_request (ebay_oauth_callback code state) s
            = (Raise (HTTPException 404 (JStr "User not found")),
               open_session s))
       ∧ (∀ uid user resp w,
            py_int_of_str B st = Some uid →
            List.find (fun u => u_id u =? uid) users = Some user →
            http_send O (code_request c) (world s) = (Ok resp, w) →
            status_code resp ≠ 200 →
            run_request (ebay_oauth_callback code state) s
            = (Raise (HTTPException (status_code resp) (JStr (text resp))),
               at_world (open_session s) w [EvHttp (code_request c)]))).
Proof.
  split.
  - intros H. unfold run_request, ebay_oauth_callback. by rewrite H.
  - intros c st -> -> Hc Hst.
    assert (∀ x, x ≠ "" → PyStr.truthy x = true) as Htr by (by intros []).
    unfold run_request, ebay_oauth_callback. cbn [PyStr.truthy_opt].
    rewrite !Htr by done. cbn [andb negb default from_option id]. cbv zeta.
    split; [|split].
    + intros ->. reflexivity.
    + intros uid -> Hu. rewrite run_bind, run_ret, Hu. reflexivity.
    + intros uid user resp w -> Hu Hh Hne.
      rewrite run_bind, run_ret, Hu, run_bind.
      rewrite (run_http (code_request c) (open_session s) (Ok resp) w Hh).
      by rewrite (proj2 (Z.eqb_neq _ _) Hne).
Qed.


(** *** What a returning request stores and what it answers *)

(** the row of the pair after an upsert: the loaded row changed by [f],
    as the table stores it *)
Lemma upsert_row_fields lid mk f l :
  keeps_keys f →
  (length (List.filter (is_link lid mk) l) ≤ 1)%nat →
  ∃ row,
    List.filter (is_link lid mk) (upsert_links lid mk f l) = [row]
    ∧ same_fields row (f (loaded_row lid mk l))
    ∧ (∀ st, lm_status (f (loaded_row lid mk l)) = Some st →
             lm_status row = Some st)
    ∧ (∀ r, List.find (is_link lid mk) l = Some r → lm_id row = lm_id r).
Proof.
  intros Hf Hl. unfold upsert_links, loaded_row.
  destruct (List.find (is_link lid mk) l) as [r|] eqn:Hfind; cbn [default from_option].
  - rewrite filter_update by (intros; by apply is_link_keeps).
    rewrite (find_Some_filter_one _ _ _ Hfind Hl). cbn.
    rewrite Z.eqb_refl. exists (f r). split; [done|].
    split; [done|]. split; [done|].
    intros ? [= <-]. apply Hf.
  - rewrite insert_links_one, List.filter_app, (find_None_filter _ _ Hfind).
    cbn. destruct (Hf (new_link lid mk)) as (_ & H1 & H2).
    unfold is_link at 1. cbn [lm_listing_id lm_marketplace].
    rewrite H1, H2. cbn [new_link lm_listing_id lm_marketplace].
    rewrite Z.eqb_refl, String.eqb_refl. cbn. eexists. split; [done|].
    split; [done|]. split; [by intros st ->|]. intros ? [=].
Qed.

Lemma record_published_result l sku o i (s : St W) :
  (record_published_link l sku o i s).1
  = Ok (JObj [ ("message", JStr "Processed"); ("listing_id", i);
               ("url",
                opt_json
                  (if Py.truthy i
                   then Some (item_base_url +:+ "/" +:+ fmt B i)
                   else lm_external_url
                          (loaded_row (l_id l) "ebay" (links (sess s))))) ]).
Proof.
  unfold record_published_link, loaded_row.
  rewrite run_bind, load_or_add_run.
  destruct (List.find _ _); cbv zeta; destruct (Py.truthy i); reflexivity.
Qed.

Lemma record_prepared_result l sku o (s : St W) :
  (record_prepared_link l sku o s).1
  = Ok (JObj [ ("message",
                JStr "Inventory and offer prepared (not published)");
               ("offer_id", o); ("sku", JStr sku) ]).
Proof.
  unfold record_prepared_link. rewrite run_bind, load_or_add_run.
  destruct (List.find _ _); reflexivity.
Qed.


(** X26.  A returning prepare-offer request on a listing that has a
    link row for eBay changes that row in place: the status becomes
    offer_created whatever it was, a published row included, the sku and
    the offer id are those of the answer, and the listing id and the url
    of an earlier publication stay on the row. *)
Theorem prepare_offer_resets_status (listing_id : Z) (base : string)
    (user : User) (s s1 : St W) (r : json) (row0 : ListingMarketplace) :
  link_rows listing_id "ebay" (stored s) = [row0] →
  run_request (create_inventory_and_offer listing_id base user) s = (Ok r, s1) →
  ∃ row sku offer_id,
    link_rows listing_id "ebay" (stored s1) = [row]
    ∧ r = JObj [ ("message",
                  JStr "Inventory and offer prepared (not published)");
                 ("offer_id", offer_id); ("sku", JStr sku) ]
    ∧ lm_id row = lm_id row0
    ∧ lm_status row = Some "offer_created"
    ∧ lm_sku row = Some sku
    ∧ lm_offer_id row = to_text B offer_id
    ∧ lm_external_item_id row = lm_external_item_id row0
    ∧ lm_external_url row = lm_external_url row0.
Proof.
  intros Hrow0 H. apply run_request_inv in H as (s' & H & _ & ->).
  apply (ends_create_inventory_and_offer _ _ frame_keeps_links (λ _, I)) in H
    as ([[l sku] o] & sp & Hid & Hk & H); [|apply steps_assign_sku_links].
  cbn in Hid, H. destruct (Hk (open_session_clean s)) as [Hcp E].
  cbn in E.
  destruct (record_prepared_run l sku o sp Hcp) as (res & s2 & H' & _ & _ & E').
  rewrite H in H'. simplify_eq.
  pose proof (record_prepared_result l sku o sp) as Hres.
  rewrite H in Hres. cbn [fst] in Hres. injection Hres as ->.
  rewrite E in E'. unfold link_rows in Hrow0.
  pose proof (filter_singleton_find _ _ _ Hrow0) as Hfind.
  destruct (upsert_row_fields (l_id l) "ebay" (prepared_fields sku o)
              (links (stored s))) as (row & Hrow & Hsame & Hstat & Hkey);
    [apply keeps_keys_fields | by rewrite Hrow0 |].
  exists row, sku, o. unfold link_rows. cbn [stored open_session].
  rewrite E'. split; [exact Hrow|]. split; [done|].
  split; [by apply Hkey|].
  unfold loaded_row in Hsame, Hstat. rewrite Hfind in Hsame, Hstat.
  destruct Hsame as (_ & _ & Hi & Hs & Ho & Hu).
  specialize (Hstat "offer_created" eq_refl).
  repeat split; assumption.
Qed.

End Engine.

(* ================================================================== *)
(** * Part III: the handlers on the sample deployment                  *)
(* ================================================================== *)

(** The sample deployment of Part I: the properties above applied to
    concrete requests, and the runs that show where a statement of the
    behaviour has to be read with care. *)

(** The end-to-end run: with the three policy ids configured and a
    connected account, publishing the lamp assigns the sku, makes four
    calls (location, inventory item, offer, publish) and stores one
    published link row. *)
Example publish_lamp :
  (run_request
     (publish_to_ebay Sample.outside Sample.builtins
        Sample.settings_with_policies 1 "http://testserver/" Sample.seller)
     (Sample.start (Sample.shop [Sample.ebay_account 10]))).1
  = Ok (JObj [ ("message", JStr "Processed"); ("listing_id", JStr "L1");
               ("url", JStr "https://sandbox.ebay.com/itm/L1") ])
  ∧ links (stored (run_request
       (publish_to_ebay Sample.outside Sample.builtins
          Sample.settings_with_policies 1 "http://testserver/" Sample.seller)
       (Sample.start (Sample.shop [Sample.ebay_account 10]))).2)
    = [ mkLink 1 1 "ebay" (Some "L1") (Some "USER1-LISTING1") (Some "O1")
          (Some "https://sandbox.ebay.com/itm/L1") (Some "published") ].
Proof. split; vm_compute; reflexivity. Qed.




(** C6 on the sample: publishing the lamp twice leaves one link row, the
    row of the first request. *)
Lemma single_link_row_sample :
  (length (link_rows 1 "ebay"
             (stored (Sample.start (Sample.shop [Sample.ebay_account 10]))))
   ≤ 1)%nat
  ∧ ∃ r1 s1 r2 s2,
      run_request
        (publish_to_ebay Sample.outside Sample.builtins
           Sample.settings_with_policies 1 "http://testserver/" Sample.seller)
        (Sample.start (Sample.shop [Sample.ebay_account 10]))
      = (Ok r1, s1)
      ∧ run_request
          (publish_to_ebay Sample.outside Sample.builtins
             Sample.settings_with_policies 1 "http://testserver/"
             Sample.seller) s1
        = (Ok r2, s2)
      ∧ ∃ row1 row2,
          link_rows 1 "ebay" (stored s1) = [row1]
          ∧ link_rows 1 "ebay" (stored s2) = [row2]
          ∧ lm_id row2 = lm_id row1
          ∧ lm_status row2 = Some "published"
          ∧ length (links (stored s2)) = length (links (stored s1)).
Proof.
  assert (Hlen : (length (link_rows 1 "ebay"
                    (stored (Sample.start (Sample.shop [Sample.ebay_account 10]))))
                  ≤ 1)%nat) by (apply Nat.le_0_l).
  split; [exact Hlen|].
  do 4 eexists.
  split; [vm_compute; reflexivity|].
  split; [vm_compute; reflexivity|].
  pose proof (proj2 (proj2 (single_link_row Sample.outside Sample.builtins
                              Sample.settings_with_policies 1 "ebay" _ Hlen)))
    as Htwice.
  eapply (Htwice "http://testserver/" Sample.seller);
    [reflexivity | vm_compute; reflexivity | vm_compute; reflexivity].
Defined.


(** C8 on the sample: the lamp has no image, the publish request fails
    with the 400 error and the world has not moved. *)
Lemma publish_to_poshmark_without_images_sample :
  List.filter (fun i => img_listing_id i =? 1)
    (images (stored (Sample.start (Sample.shop [Sample.poshmark_account]))))
  = []
  ∧ ∃ e s',
      run_request
        (publish_to_poshmark Sample.outside Sample.builtins Sample.settings
           1 "http://testserver/" Sample.seller)
        (Sample.start (Sample.shop [Sample.poshmark_account]))
      = (Raise e, s')
      ∧ e = HTTPException 400 (JStr "At least one image is required")
      ∧ stored s' = Sample.shop [Sample.poshmark_account]
      ∧ trace s' = []
      ∧ world s' = 0%nat.
Proof.
  split; [reflexivity|].
  exact (publish_to_poshmark_without_images Sample.outside Sample.builtins
           Sample.settings 1 "http://testserver/" Sample.seller
           (Sample.start (Sample.shop [Sample.poshmark_account])) eq_refl).
Defined.

(** C9, the run that shows the truncation: the coat costs 42.99 and
    both price fields are filled with 42, although 43 is the integer
    nearest to the price. *)
Lemma price_text_is_not_nearest :
  l_price Sample.coat = 4299
  ∧ price_text Sample.coat = "42"
  ∧ Z.abs (l_price Sample.coat - 100 * 43)
    < Z.abs (l_price Sample.coat - 100 * 42)
  ∧ trace (fill_listing_details Sample.outside Sample.coat
             (Sample.start (Sample.shop []))).2
    = [ EvAction (Fill title_selector "Wool Coat");
        EvAction (Fill description_selector "Warm");
        EvAction (Fill original_price_selector "42");
        EvAction (Fill current_price_selector "42") ].
Proof. repeat split; vm_compute; reflexivity. Qed.

(** C9 on the sample: the price fields of the coat. *)
Lemma price_fields_truncated_sample :
  0 ≤ l_price Sample.coat
  ∧ ∃ k, 100 * k ≤ l_price Sample.coat < 100 * (k + 1)
      ∧ price_text Sample.coat = pretty k
      ∧ emits (price_fill_ok (pretty k)) (Sample.start (Sample.shop []))
          (publish_listing_to_poshmark Sample.outside Sample.builtins
             Sample.settings Sample.coat [] "http://testserver"
             (Sample.start (Sample.shop []))).2.
Proof.
  assert (H0 : 0 ≤ l_price Sample.coat) by (vm_compute; discriminate).
  split; [exact H0|].
  destruct (price_fields_truncated Sample.outside Sample.builtins
              Sample.settings Sample.coat [] "http://testserver"
              (Sample.start (Sample.shop [])) H0)
    as (k & Hk & Ht & He & _).
  exists k. split; [exact Hk|]. split; [exact Ht|exact He].
Defined.

(** C10 on the sample: the Poshmark account is deleted by the first
    disconnect, and the second one answers the same and changes
    nothing. *)
Lemma disconnect_idempotent_sample :
  ∃ s1,
    run_request (poshmark_disconnect Sample.seller)
      (Sample.start (Sample.shop [Sample.ebay_account 10; Sample.poshmark_account]))
    = (Ok (JObj [("message", JStr "Poshmark account disconnected")]), s1)
    ∧ accounts (stored s1) = [Sample.ebay_account 10]
    ∧ run_request (poshmark_disconnect Sample.seller) s1
      = (Ok (JObj [("message", JStr "Poshmark account disconnected")]), s1).
Proof.
  destruct (disconnect_idempotent "poshmark" "Poshmark account disconnected"
              Sample.seller
              (Sample.start (Sample.shop [Sample.ebay_account 10;
                                          Sample.poshmark_account])))
    as (_ & H & _).
  destruct H as (s1 & H1 & H2 & _ & _ & _ & H3).
  - vm_compute. apply Nat.le_refl.
  - apply (bool_decide_unpack _). vm_compute. exact I.
  - exists s1. split; [exact H1|]. split; [exact H2|exact H3].
Defined.

(** ** The further properties on the sample deployment *)

(** X2 on the sample: the sku of the coat is clean and comes out of the
    sanitizer as it went in. *)
Lemma sanitize_sku_fixed_point_sample :
  clean_sku "COAT-2" ∧ _sanitize_sku "COAT-2" = "COAT-2".
Proof.
  assert (clean_sku "COAT-2") as H by (by apply clean_sku_check).
  split; [exact H | exact (sanitize_sku_fixed_point "COAT-2" H)].
Defined.

(** X22 on the sample: the first example of the sanitizer. *)
Lemma sanitize_sku_idempotent_sample :
  _sanitize_sku "My Item #1!" = "My-Item-1"
  ∧ _sanitize_sku (_sanitize_sku "My Item #1!") = _sanitize_sku "My Item #1!".
Proof.
  split; [reflexivity|].
  apply sanitize_sku_idempotent_without_dash.
  - intros t H. vm_compute in H. discriminate H.
  - by apply not_ending_check.
Defined.

(** X3 on the sample: the sku of the coat is not rewritten. *)
Lemma assign_sku_clean_sample :
  l_sku Sample.coat = Some "COAT-2"
  ∧ assign_sku Sample.seller Sample.coat (Sample.start (Sample.shop []))
    = (Ok ("COAT-2", Sample.coat), Sample.start (Sample.shop [])).
Proof.
  split; [reflexivity|].
  apply assign_sku_clean; [reflexivity | by apply clean_sku_check].
Defined.

(** X4 on the sample: there is no listing 7. *)
Lemma handlers_need_owned_listing_sample :
  List.find (owns Sample.seller 7)
            (listings (stored (Sample.start (Sample.shop []))))
  = None
  ∧ run_request
      (publish_to_ebay Sample.outside Sample.builtins Sample.settings
         7 "http://testserver/" Sample.seller) (Sample.start (Sample.shop []))
    = (Raise not_found, Sample.start (Sample.shop []))
  ∧ run_request (get_listing_marketplaces 7 Sample.seller)
      (Sample.start (Sample.shop []))
    = (Raise not_found, Sample.start (Sample.shop [])).
Proof.
  split; [reflexivity|].
  destruct (handlers_need_owned_listing Sample.outside Sample.builtins
              Sample.settings 7 "http://testserver/" Sample.seller
              (Sample.start (Sample.shop [])) eq_refl) as (H1 & _ & _ & H4).
  split; [exact H1 | exact H4].
Defined.

(** X6 on the sample: the three configured policy ids. *)
Lemma configured_policies_need_no_call_sample :
  ebay_fulfillment_policy_id Sample.settings_with_policies = Some "F1"
  ∧ _get_ebay_policies Sample.outside Sample.builtins
      Sample.settings_with_policies Sample.seller
      (Sample.start (Sample.shop []))
    = (Ok (Some (mkPolicies (JStr "F1") (JStr "P1") (JStr "R1"))),
       Sample.start (Sample.shop [])).
Proof.
  split; [reflexivity|].
  by apply configured_policies_need_no_call.
Defined.

(** X7 on the sample: the seller has no eBay account. *)
Lemma ebay_calls_need_a_token_sample :
  List.find (is_ebay_account_of 1)
            (accounts (stored (Sample.start (Sample.shop []))))
  = None
  ∧ run_request
      (ebay_inventory Sample.outside Sample.builtins Sample.settings
         Sample.seller) (Sample.start (Sample.shop []))
    = (Raise (HTTPException 400 (JStr "eBay account not connected")),
       Sample.start (Sample.shop []))
  ∧ run_request
      (sync_ebay_inventory Sample.outside Sample.builtins Sample.settings
         Sample.seller) (Sample.start (Sample.shop []))
    = (Raise (HTTPException 500
                (JStr "Sync failed: eBay account not connected")),
       at_world (Sample.start (Sample.shop [])) 0%nat [EvRollback]).
Proof.
  split; [reflexivity|].
  destruct (ebay_calls_need_a_token Sample.outside Sample.builtins
              Sample.settings Sample.seller (Sample.start (Sample.shop [])))
    as (_ & H2 & _ & _ & H5).
  - intros a H. discriminate H.
  - split; [exact H2 | exact H5].
Defined.

(** X8 on the sample: the token expires in two minutes and the
    marketplace answers the refresh with an empty object. *)
Lemma refresh_without_access_token_sample :
  connected Sample.seller (Sample.ebay_account 2)
    (Sample.start (Sample.shop [Sample.ebay_account 2]))
  ∧ get_valid_ebay_access_token Sample.outside_without_token Sample.builtins
      Sample.settings Sample.seller
      (Sample.start (Sample.shop [Sample.ebay_account 2]))
    = (Raise (EbayAuthError "No access_token in refresh response"),
       at_world (Sample.start (Sample.shop [Sample.ebay_account 2])) 1%nat
         [EvHttp (refresh_request Sample.builtins Sample.settings "R1")]).
Proof.
  assert (connected Sample.seller (Sample.ebay_account 2)
            (Sample.start (Sample.shop [Sample.ebay_account 2]))) as Hc
    by (split; reflexivity).
  split; [exact Hc|].
  refine (refresh_without_access_token Sample.outside_without_token
            Sample.builtins Sample.settings Sample.seller
            (Sample.ebay_account 2) _ Sample.now 0%nat 1%nat "R1"
            (mkResponse 200 "{}" (Some (JObj []))) []
            Hc eq_refl eq_refl eq_refl _ eq_refl eq_refl eq_refl _).
  - discriminate.
  - intros tok H. discriminate H.
Defined.

(** X9 on the sample: a call with the cached token. *)
Lemma ebay_request_carries_token_sample :
  connected Sample.seller (Sample.ebay_account 10)
    (Sample.start (Sample.shop [Sample.ebay_account 10]))
  ∧ ebay_request Sample.outside Sample.builtins Sample.settings
      "GET" Sample.seller "/sell/inventory/v1/inventory_item" [] None
      (Sample.start (Sample.shop [Sample.ebay_account 10]))
    = (Ok (mkResponse 200 "ok" (Some Sample.remote_inventory)),
       at_world (Sample.start (Sample.shop [Sample.ebay_account 10])) 1%nat
         [EvHttp
            (mkRequest "GET"
               "https://api.sandbox.ebay.com/sell/inventory/v1/inventory_item"
               [ ("Authorization", "Bearer T1");
                 ("Accept", "application/json");
                 ("Content-Type", "application/json");
                 ("Content-Language", "en-US") ]
               [] [] None)]).
Proof.
  assert (connected Sample.seller (Sample.ebay_account 10)
            (Sample.start (Sample.shop [Sample.ebay_account 10]))) as Hc
    by (split; reflexivity).
  split; [exact Hc|].
  exact (ebay_request_carries_token Sample.outside Sample.builtins
           Sample.settings "GET" Sample.seller
           "/sell/inventory/v1/inventory_item" [] None
           (Sample.ebay_account 10) _ Sample.now 0%nat 1%nat "T1" _
           Hc eq_refl eq_refl eq_refl eq_refl).
Defined.

(** X10 on the sample: the publish of the lamp fails for want of
    policies, and the link row of the coat is as it was. *)
Lemma failed_request_keeps_links_sample :
  ∃ e s1,
    run_request
      (handler_of Sample.outside Sample.builtins Sample.settings
         (PublishEbay 1 "http://testserver/" Sample.seller))
      (Sample.start (Sample.shop_with_rows [])) = (Raise e, s1)
    ∧ links (stored s1) = [Sample.coat_on_poshmark].
Proof.
  assert (∃ e s1,
            run_request
              (handler_of Sample.outside Sample.builtins Sample.settings
                 (PublishEbay 1 "http://testserver/" Sample.seller))
              (Sample.start (Sample.shop_with_rows [])) = (Raise e, s1))
    as (e & s1 & H) by (eexists _, _; vm_compute; reflexivity).
  exists e, s1. split; [exact H|].
  exact (failed_request_keeps_links _ _ _ _ _ _ _ H).
Defined.

(** X11 on the sample: the seller has no Poshmark account. *)
Lemma publish_to_poshmark_errors_sample :
  ∃ e s1,
    run_request
      (publish_to_poshmark Sample.outside Sample.builtins Sample.settings
         1 "http://testserver/" Sample.seller)
      (Sample.start (Sample.shop_with_rows [])) = (Raise e, s1)
    ∧ ((s1 = open_session (Sample.start (Sample.shop_with_rows []))
        ∧ (e = not_found
           ∨ e = HTTPException 400 (JStr "At least one image is required")
           ∨ e = HTTPException 401 (JStr "Poshmark account not connected")
           ∨ e = HTTPException 401
                   (JStr "Poshmark credentials not configured")))
       ∨ (∃ msg evs, e = HTTPException 400 (JStr msg)
            ∧ trace s1 = [] ++ EvAction PlaywrightStart :: evs)).
Proof.
  assert (∃ e s1,
            run_request
              (publish_to_poshmark Sample.outside Sample.builtins
                 Sample.settings 1 "http://testserver/" Sample.seller)
              (Sample.start (Sample.shop_with_rows [])) = (Raise e, s1))
    as (e & s1 & H) by (eexists _, _; vm_compute; reflexivity).
  exists e, s1. split; [exact H|].
  exact (publish_to_poshmark_errors _ _ _ _ _ _ _ _ _ H).
Defined.

(** X12 on the sample: a publish of the lamp by the connected seller. *)
Lemma playwright_always_stopped_sample :
  get_poshmark_credentials Sample.seller
    (Sample.start (Sample.shop_with_rows [Sample.poshmark_account]))
  = (Ok ("seller", "pw"),
     Sample.start (Sample.shop_with_rows [Sample.poshmark_account]))
  ∧ ∃ mid,
      trace (publish_listing Sample.outside Sample.builtins Sample.settings
               Sample.seller Sample.lamp [Sample.lamp_photo]
               "http://testserver"
               (Sample.start (Sample.shop_with_rows [Sample.poshmark_account]))).2
      = [] ++ [EvAction PlaywrightStart] ++ mid ++ [EvAction PlaywrightStop].
Proof.
  split; [reflexivity|].
  exact (playwright_always_stopped Sample.outside Sample.builtins
           Sample.settings Sample.seller Sample.lamp [Sample.lamp_photo]
           "http://testserver"
           (Sample.start (Sample.shop_with_rows [Sample.poshmark_account]))
           "seller" "pw" 1%nat eq_refl eq_refl).
Defined.


(** X16 on the sample: the seller disconnects eBay. *)
Lemma disconnect_then_status_sample :
  NoDup (List.map a_id
           (accounts (stored (Sample.start
              (Sample.shop [Sample.ebay_account 10; Sample.poshmark_account])))))
  ∧ ∃ r s1,
      run_request (ebay_disconnect Sample.seller)
        (Sample.start
           (Sample.shop [Sample.ebay_account 10; Sample.poshmark_account]))
      = (Ok r, s1)
      ∧ run_request (ebay_status Sample.seller) s1
        = (Ok (JObj [ ("connected", JBool false);
                      ("marketplace", JStr "ebay") ]), s1)
      ∧ ebay_request Sample.outside Sample.builtins Sample.settings
          "GET" Sample.seller "/sell/inventory/v1/inventory_item" [] None s1
        = (Raise (EbayAuthError "eBay account not connected"), s1).
Proof.
  assert (NoDup (List.map a_id
            (accounts (stored (Sample.start
               (Sample.shop [Sample.ebay_account 10; Sample.poshmark_account]))))))
    as Hd by (apply (bool_decide_unpack _); vm_compute; exact I).
  split; [exact Hd|].
  destruct (disconnect_then_status Sample.outside Sample.builtins
              Sample.settings Sample.seller _ Hd)
    as [(r & s1 & H & H1 & H2) _].
  - vm_compute. apply Nat.le_refl.
  - vm_compute. apply Nat.le_refl.
  - exists r, s1. split; [exact H|]. split; [exact H1 | apply H2].
Defined.

(** X17 on the sample: the lamp is published on eBay, the link row of
    the coat on Poshmark is as it was. *)
Lemma returning_request_keeps_other_rows_sample :
  NoDup (List.map lm_id
           (links (stored (Sample.start
              (Sample.shop_with_rows [Sample.ebay_account 10])))))
  ∧ ∃ r s1,
      run_request
        (handler_of Sample.outside Sample.builtins
           Sample.settings_with_policies
           (PublishEbay 1 "http://testserver/" Sample.seller))
        (Sample.start (Sample.shop_with_rows [Sample.ebay_account 10]))
      = (Ok r, s1)
      ∧ List.filter (fun row => negb (is_link 1 "ebay" row))
                    (links (stored s1))
        = [Sample.coat_on_poshmark].
Proof.
  assert (NoDup (List.map lm_id
            (links (stored (Sample.start
               (Sample.shop_with_rows [Sample.ebay_account 10]))))))
    as Hd by (apply (bool_decide_unpack _); vm_compute; exact I).
  split; [exact Hd|].
  assert (∃ r s1,
            run_request
              (handler_of Sample.outside Sample.builtins
                 Sample.settings_with_policies
                 (PublishEbay 1 "http://testserver/" Sample.seller))
              (Sample.start (Sample.shop_with_rows [Sample.ebay_account 10]))
            = (Ok r, s1))
    as (r & s1 & H) by (eexists _, _; vm_compute; reflexivity).
  exists r, s1. split; [exact H|].
  exact (returning_request_keeps_other_rows _ _ _ _ _ _ _ Hd H).
Defined.

(** X18 on the sample: after the publish of the lamp its marketplaces
    are asked for. *)
Lemma published_listing_names_marketplace_sample :
  ∃ r s1 names,
    run_request
      (handler_of Sample.outside Sample.builtins
         Sample.settings_with_policies
         (PublishEbay 1 "http://testserver/" Sample.seller))
      (Sample.start (Sample.shop_with_rows [Sample.ebay_account 10]))
    = (Ok r, s1)
    ∧ run_request (get_listing_marketplaces 1 Sample.seller) s1
      = (Ok names, s1)
    ∧ In "ebay" names.
Proof.
  assert (∃ r s1,
            run_request
              (handler_of Sample.outside Sample.builtins
                 Sample.settings_with_policies
                 (PublishEbay 1 "http://testserver/" Sample.seller))
              (Sample.start (Sample.shop_with_rows [Sample.ebay_account 10]))
            = (Ok r, s1))
    as (r & s1 & H) by (eexists _, _; vm_compute; reflexivity).
  destruct (published_listing_names_marketplace _ _ _ _ _ _ _ H)
    as (names & H1 & H2).
  exists r, s1, names. split; [exact H|]. split; [exact H1 | exact H2].
Defined.



(** X26 on the sample: an offer is prepared for the lamp, which was
    published on eBay before. *)
Lemma prepare_offer_resets_status_sample :
  link_rows 1 "ebay"
    (stored (Sample.start (Sample.shop_relisted [Sample.ebay_account 10])))
  = [Sample.lamp_on_ebay]
  ∧ ∃ r s1 row,
      run_request
        (create_inventory_and_offer Sample.outside Sample.builtins
           Sample.settings_with_policies 1 "http://testserver/" Sample.seller)
        (Sample.start (Sample.shop_relisted [Sample.ebay_account 10]))
      = (Ok r, s1)
      ∧ link_rows 1 "ebay" (stored s1) = [row]
      ∧ lm_id row = 2
      ∧ lm_status row = Some "offer_created"
      ∧ lm_external_item_id row = Some "L0"
      ∧ lm_external_url row = Some "https://www.ebay.com/itm/L0".
Proof.
  assert (link_rows 1 "ebay"
            (stored (Sample.start
               (Sample.shop_relisted [Sample.ebay_account 10])))
          = [Sample.lamp_on_ebay]) as Hrow0 by reflexivity.
  split; [exact Hrow0|].
  assert (∃ r s1,
            run_request
              (create_inventory_and_offer Sample.outside Sample.builtins
                 Sample.settings_with_policies 1 "http://testserver/"
                 Sample.seller)
              (Sample.start (Sample.shop_relisted [Sample.ebay_account 10]))
            = (Ok r, s1))
    as (r & s1 & H) by (eexists _, _; vm_compute; reflexivity).
  destruct (prepare_offer_resets_status _ _ _ _ _ _ _ _ _ _ Hrow0 H)
    as (row & sku & o & Hrow & _ & Hid & Hst & _ & _ & Hi & Hu).
  exists r, s1, row. split; [exact H|]. split; [exact Hrow|].
  split; [exact Hid|]. split; [exact Hst|]. split; [exact Hi | exact Hu].
Defined.
